(** * Auto-folder matcher: a shallow embedding and its specification

    This development embeds the hierarchical folder-matching engine of
    [processes/auto_folder] (modules [embedding_service], [folder_matcher],
    [taxonomy_generator], [models], [config], [auto_folder]) and proves the
    properties its specification lists, then further properties of the vector
    store, the label cleaning, the taxonomy generator, the matcher state and
    the orchestrator.

    Modelling conventions.
    - Python [float] is idealised as a real number ([R]) wherever scores are
      only stored and compared; the similarity primitive is given a second
      time over IEEE 754 binary64 ([cosine_similarity_b64]), and what depends
      on its rounding is stated there or under bounds that keep the rounding
      harmless.
    - Python [str] is modelled as an ASCII [string]; the character classes
      [\w], [\s], [str.lower], [str.title] are the ASCII restrictions of the
      Python ones.
    - A [dict] used as a finite map is a [gmap]; the vector store, whose
      iteration order is observable, is an association list kept in insertion
      order; a [set] of strings is a [gset string].
    - [uuid.uuid4()] is the next element of an arbitrary stream of
      identifiers ([uuid4 : nat -> string]), the matcher state counting how many
      were drawn.
    - The embedding backend is an arbitrary deterministic partial function
      from texts to vectors; [None] stands for a raised exception.
    - Identifiers are never empty in Python, so [FolderEntity.__post_init__]
      never replaces one; the metadata fields [folder_id] and [path] read by
      the matcher are strings when present.
    - The call to the language model together with the parsing of its
      answer is an arbitrary partial function from items to JSON values
      ([llm_parsed], [None] for a raised exception); [str()] of a JSON value
      that is not a string is an arbitrary function ([py_str]).
    - Time stamps, log output, the persistence files, the database calls of
      the orchestrator and the [notes] strings are not modelled. *)

From Stdlib Require Import Reals Lra ZArith String Ascii List Permutation Sorted.
From Stdlib Require Import DecimalString DecimalNat.
From Stdlib Require Floats.
From stdpp Require Import gmap strings list fin_maps.
Import ListNotations.
Local Open Scope string_scope.
Local Open Scope nat_scope.

(** ** Python text primitives *)

Module PyStr.

Definition code (c : ascii) : nat := nat_of_ascii c.

(** [str.isspace] on ASCII: TAB..CR, FS..US and the blank. *)
Definition is_space (c : ascii) : bool :=
  ((9 <=? code c) && (code c <=? 13)) || ((28 <=? code c) && (code c <=? 32)).

Definition is_upper (c : ascii) : bool := (65 <=? code c) && (code c <=? 90).
Definition is_lower (c : ascii) : bool := (97 <=? code c) && (code c <=? 122).
Definition is_digit (c : ascii) : bool := (48 <=? code c) && (code c <=? 57).
Definition is_cased (c : ascii) : bool := is_upper c || is_lower c.

(** The regular-expression class [\w]. *)
Definition is_word (c : ascii) : bool :=
  is_cased c || is_digit c || (code c =? 95).

Definition lower_char (c : ascii) : ascii :=
  if is_upper c then ascii_of_nat (code c + 32) else c.
Definition upper_char (c : ascii) : ascii :=
  if is_lower c then ascii_of_nat (code c - 32) else c.

Fixpoint map_chars (f : ascii -> ascii) (s : string) : string :=
  match s with
  | EmptyString => EmptyString
  | String c s' => String (f c) (map_chars f s')
  end.

Fixpoint filter_chars (p : ascii -> bool) (s : string) : string :=
  match s with
  | EmptyString => EmptyString
  | String c s' => if p c then String c (filter_chars p s') else filter_chars p s'
  end.

(** [s.lower()] *)
Definition lower (s : string) : string := map_chars lower_char s.

Definition is_empty (s : string) : bool :=
  match s with EmptyString => true | _ => false end.

Definition flush (cur : string) : list string :=
  if is_empty cur then [] else [cur].

(** Maximal runs of characters satisfying [p], left to right; [cur] is the
    run being read. *)
Fixpoint runs (p : ascii -> bool) (s cur : string) : list string :=
  match s with
  | EmptyString => flush cur
  | String c s' =>
      if p c then runs p s' (cur ++ String c EmptyString)
      else flush cur ++ runs p s' EmptyString
  end.

(** [s.split()] : split on runs of whitespace, no empty fields. *)
Definition split (s : string) : list string :=
  runs (fun c => negb (is_space c)) s EmptyString.

(** [re.findall(r'\b\w+\b', s)] : the maximal runs of word characters. *)
Definition findall_words (s : string) : list string :=
  runs is_word s EmptyString.

(** [sep.join(l)] *)
Definition join (sep : string) (l : list string) : string := String.concat sep l.

Fixpoint lstrip (s : string) : string :=
  match s with
  | EmptyString => EmptyString
  | String c s' => if is_space c then lstrip s' else s
  end.

Fixpoint rstrip (s : string) : string :=
  match s with
  | EmptyString => EmptyString
  | String c s' =>
      let r := rstrip s' in
      if is_empty r && is_space c then EmptyString else String c r
  end.

(** [s.strip()] *)
Definition strip (s : string) : string := rstrip (lstrip s).

(** [s.title()] : a cased character is upper-cased when the previous
    character is not cased, lower-cased otherwise. *)
Fixpoint title_from (prev_cased : bool) (s : string) : string :=
  match s with
  | EmptyString => EmptyString
  | String c s' =>
      if is_cased c
      then String (if prev_cased then lower_char c else upper_char c) (title_from true s')
      else String c (title_from false s')
  end.

Definition title (s : string) : string := title_from false s.

(** [needle in hay] on strings. *)
Fixpoint contains (needle hay : string) : bool :=
  String.prefix needle hay ||
  match hay with
  | EmptyString => false
  | String _ hay' => contains needle hay'
  end.

(** First field and remaining fields of [s.split(sep)]. *)
Fixpoint split_fields (sep : ascii) (s : string) : string * list string :=
  match s with
  | EmptyString => (EmptyString, [])
  | String c s' =>
      let '(w, ws) := split_fields sep s' in
      if Ascii.eqb c sep then (EmptyString, w :: ws) else (String c w, ws)
  end.

(** [s.split(sep)] for a one-character separator: never empty. *)
Definition split_on (sep : ascii) (s : string) : list string :=
  let '(w, ws) := split_fields sep s in w :: ws.

(** [s.replace(c, by_)] for a one-character pattern. *)
Fixpoint replace_char (c : ascii) (by_ : string) (s : string) : string :=
  match s with
  | EmptyString => EmptyString
  | String d s' =>
      (if Ascii.eqb d c then by_ else String d EmptyString) ++ replace_char c by_ s'
  end.

(** [l[:k]] for a Python integer [k] (a negative [k] counts from the end). *)
Definition slice_to {A} (k : Z) (l : list A) : list A :=
  if (0 <=? k)%Z then firstn (Z.to_nat k) l
  else firstn (length l - Z.to_nat (- k)) l.

(** [s[:k]] for a natural [k]. *)
Definition truncate (k : nat) (s : string) : string := String.substring 0 k s.

End PyStr.

(** ** Real-valued comparisons as booleans *)

Definition Rltb (x y : R) : bool := if Rlt_dec x y then true else false.
Definition Reqb (x y : R) : bool := if Req_dec_T x y then true else false.

(** ** Configuration ([config.py]) *)

Record ThresholdConfig := {
  domain_threshold : R;
  subdomain_threshold : R;
  leaf_threshold : R;
  leaf_confidence_threshold : R;
  leaf_recurrence_threshold : Z;
  max_depth : Z;
  min_keyword_overlap : R
}.

Definition default_thresholds : ThresholdConfig := {|
  domain_threshold := 0.82;
  subdomain_threshold := 0.80;
  leaf_threshold := 0.75;
  leaf_confidence_threshold := 0.70;
  leaf_recurrence_threshold := 3;
  max_depth := 3;
  min_keyword_overlap := 0.20
|}.

Definition FORBIDDEN_LABEL_WORDS : gset string :=
  list_to_set [
    "saved"; "stash"; "stashed"; "bookmark"; "bookmarked";
    "like"; "liked"; "favorite"; "favourited"; "favorited";
    "share"; "shared"; "post"; "posted"; "tweet"; "tweeted";
    "instagram"; "tiktok"; "youtube"; "twitter"; "facebook";
    "video"; "image"; "photo"; "picture"; "link"; "url";
    "content"; "item"; "thing"; "stuff"; "misc"; "miscellaneous";
    "other"; "general"; "various"; "random"; "untitled"; "unknown" ].

(** ** Sanity check ([FolderMatcher._extract_keywords], [_keyword_overlap],
    [_sanity_check]) *)

Definition stop_words : gset string :=
  list_to_set ["the"; "a"; "an"; "and"; "or"; "but"; "in"; "on"; "at"; "to";
               "for"; "of"; "with"; "by"].

Definition is_keyword (w : string) : bool :=
  (2 <? String.length w) && negb (bool_decide (w ∈ stop_words)).

Definition _extract_keywords (text : string) : gset string :=
  list_to_set (List.filter is_keyword (PyStr.findall_words (PyStr.lower text))).

Definition _keyword_overlap (text_a text_b : string) : R :=
  let keywords_a := _extract_keywords text_a in
  let keywords_b := _extract_keywords text_b in
  if bool_decide (keywords_a = ∅) || bool_decide (keywords_b = ∅) then 0%R
  else
    let intersection := keywords_a ∩ keywords_b in
    let union := keywords_a ∪ keywords_b in
    if bool_decide (union = ∅) then 0%R
    else (INR (size intersection) / INR (size union))%R.

Definition false_positive_pairs : list (string * string) :=
  [ ("cooking", "computer"); ("health", "computer");
    ("finance", "fitness"); ("travel", "technology") ].

Definition confusion_pair (label_a_lower label_b_lower : string)
    (pair : string * string) : bool :=
  (PyStr.contains (fst pair) label_a_lower && PyStr.contains (snd pair) label_b_lower)
  || (PyStr.contains (snd pair) label_a_lower && PyStr.contains (fst pair) label_b_lower).

Definition confused (candidate_label matched_label : string) : bool :=
  existsb (confusion_pair (PyStr.lower candidate_label) (PyStr.lower matched_label))
          false_positive_pairs.

Definition _sanity_check (th : ThresholdConfig)
    (candidate_label matched_label : string) (similarity : R) : bool :=
  if Rltb 0.95 similarity then true
  else
    let overlap := _keyword_overlap candidate_label matched_label in
    if Rltb 0.85 similarity && Rltb overlap (min_keyword_overlap th) then false
    else if confused candidate_label matched_label then false
    else true.

(** ** Label cleaning ([TaxonomyGenerator._clean_label]) *)

Definition is_forbidden (w : string) : bool :=
  bool_decide (PyStr.lower w ∈ FORBIDDEN_LABEL_WORDS).

(** The characters kept by [re.sub(r'[^\w\s&-]', '', label)]. *)
Definition label_char (c : ascii) : bool :=
  PyStr.is_word c || PyStr.is_space c || Ascii.eqb c "&" || Ascii.eqb c "-".

Definition is_nil {A} (l : list A) : bool :=
  match l with [] => true | _ => false end.

(** The last three steps of [_clean_label]: join, title-case, strip the
    punctuation, strip the blanks. *)
Definition finish_label (cleaned_words : list string) : string :=
  PyStr.strip (PyStr.filter_chars label_char
                 (PyStr.title (PyStr.join " " cleaned_words))).

Definition limit_words (max_words : Z) (cleaned_words : list string) : list string :=
  if (max_words <? Z.of_nat (length cleaned_words))%Z
  then PyStr.slice_to max_words cleaned_words
  else cleaned_words.

Definition _clean_label (label : string) (max_words : Z) : string :=
  if PyStr.is_empty label then ""
  else
    let label := PyStr.join " " (PyStr.split label) in
    let words := PyStr.split label in
    let cleaned_words := List.filter (fun w => negb (is_forbidden w)) words in
    let cleaned_words := if is_nil cleaned_words then words else cleaned_words in
    finish_label (limit_words max_words cleaned_words).

(** ** Similarity primitive ([EmbeddingService.cosine_similarity]) *)

Fixpoint dot (a b : list R) : R :=
  match a, b with
  | x :: a', y :: b' => (x * y + dot a' b')%R
  | _, _ => 0%R
  end.

Definition norm (a : list R) : R := sqrt (dot a a).

Definition clamp01 (x : R) : R := Rmax 0 (Rmin 1 x).

(** [None] is the [ValueError] raised on a dimension mismatch. Scores are
    real numbers here; [cosine_similarity_b64] below has the rounding. *)
Definition cosine_similarity (a b : list R) : option R :=
  if negb (length a =? length b) then None
  else
    let dot_product := dot a b in
    let norm_a := norm a in
    let norm_b := norm b in
    if Reqb norm_a 0 || Reqb norm_b 0 then Some 0%R
    else Some (clamp01 (dot_product / (norm_a * norm_b))).

(** ** Vector index ([InMemoryVectorStore]) *)

(** Metadata values: the matcher stores strings, integers, booleans and
    [None]. *)
Inductive mval := MNone | MBool (b : bool) | MInt (n : Z) | MStr (s : string).

(** Python [==] on metadata values ([True == 1] and [False == 0] hold). *)
Definition mval_eqb (x y : mval) : bool :=
  match x, y with
  | MNone, MNone => true
  | MBool a, MBool b => Bool.eqb a b
  | MInt a, MInt b => (a =? b)%Z
  | MBool a, MInt b | MInt b, MBool a => (b =? (if a then 1 else 0))%Z
  | MStr a, MStr b => String.eqb a b
  | _, _ => false
  end.

(** [metadata.get(k)] *)
Definition md_get (metadata : gmap string mval) (k : string) : mval :=
  default MNone (metadata !! k).

(** One stored vector: [_vectors[vector_id] = (embedding, metadata)]. *)
Definition Stored : Type := string * (list R * gmap string mval).

(** One search hit: [(id, score, metadata)]. The id is optional because the
    matcher also appends hits for cached folders, whose [embedding_id] is an
    [Optional[str]]. *)
Definition Hit : Type := option string * R * gmap string mval.

Definition hit_id (r : Hit) : option string := r.1.1.
Definition hit_score (r : Hit) : R := r.1.2.
Definition hit_meta (r : Hit) : gmap string mval := r.2.

(** [_vectors[vector_id] = (embedding, metadata)] : an existing key keeps its
    position, a new key goes last. *)
Fixpoint add_vector (vs : list Stored) (vector_id : string) (embedding : list R)
    (metadata : gmap string mval) : list Stored :=
  match vs with
  | [] => [(vector_id, (embedding, metadata))]
  | (k, v) :: vs' =>
      if String.eqb k vector_id then (k, (embedding, metadata)) :: vs'
      else (k, v) :: add_vector vs' vector_id embedding metadata
  end.

(** The filter test of [search]: a missing or empty filter accepts
    everything, otherwise every filter key must compare equal. *)
Definition md_matches (filter_metadata : option (gmap string mval))
    (metadata : gmap string mval) : bool :=
  match filter_metadata with
  | None => true
  | Some flt =>
      if bool_decide (flt = ∅) then true
      else forallb (fun kv => mval_eqb (md_get metadata kv.1) kv.2) (map_to_list flt)
  end.

(** The loop of [search]: filter, then score; a vector whose similarity
    raises is dropped. *)
Fixpoint scan (vs : list Stored) (query_embedding : list R)
    (filter_metadata : option (gmap string mval)) : list Hit :=
  match vs with
  | [] => []
  | (vector_id, (embedding, metadata)) :: vs' =>
      if md_matches filter_metadata metadata then
        match cosine_similarity query_embedding embedding with
        | Some score => (Some vector_id, score, metadata) :: scan vs' query_embedding filter_metadata
        | None => scan vs' query_embedding filter_metadata
        end
      else scan vs' query_embedding filter_metadata
  end.

(** [results.sort(key=lambda x: x[1], reverse=True)] : Python's sort is
    stable, also with [reverse=True]; here as an insertion sort that puts an
    element before the first one whose score is not greater. *)
Fixpoint insert_desc (x : Hit) (l : list Hit) : list Hit :=
  match l with
  | [] => [x]
  | y :: l' =>
      if Rltb (hit_score x) (hit_score y) then y :: insert_desc x l'
      else x :: y :: l'
  end.

Fixpoint sort_desc (l : list Hit) : list Hit :=
  match l with
  | [] => []
  | x :: l' => insert_desc x (sort_desc l')
  end.

Definition search (vs : list Stored) (query_embedding : list R) (top_k : Z)
    (filter_metadata : option (gmap string mval)) : list Hit :=
  PyStr.slice_to top_k (sort_desc (scan vs query_embedding filter_metadata)).

(** ** Data model ([models.py]) *)

Inductive FolderDepth := DOMAIN | SUBDOMAIN | LEAF.

Inductive MatchAction := REUSE_EXISTING | CREATE_NEW | ATTACH_AS_CHILD | SKIP.

Record LabelWithAliases := {
  la_label : string;
  la_aliases : list string;
  la_optional : bool
}.

Record TaxonomyCandidate := {
  domain : LabelWithAliases;
  subdomain : LabelWithAliases;
  leaf_topic : option LabelWithAliases;
  tags : list string;
  confidence : R;
  rationale : string
}.

Record FolderEntity := {
  folder_id : string;
  path : string;
  label : string;
  depth : Z;
  parent_id : option string;
  aliases : list string;
  embedding_id : option string;
  embedding : option (list R);
  item_count : Z;
  is_seed : bool
}.

Record MatchResult := {
  level : FolderDepth;
  action : MatchAction;
  matched_folder : option FolderEntity;
  new_folder : option FolderEntity;
  similarity_score : R;
  label_used : string
}.

Record HierarchicalMatch := {
  domain_result : MatchResult;
  subdomain_result : MatchResult;
  leaf_result : option MatchResult
}.

(** [MatchResult.get_folder] : [matched_folder or new_folder]. *)
Definition get_folder (r : MatchResult) : option FolderEntity :=
  match matched_folder r with
  | Some f => Some f
  | None => new_folder r
  end.

Definition action_eqb (a b : MatchAction) : bool :=
  match a, b with
  | REUSE_EXISTING, REUSE_EXISTING | CREATE_NEW, CREATE_NEW
  | ATTACH_AS_CHILD, ATTACH_AS_CHILD | SKIP, SKIP => true
  | _, _ => false
  end.

Definition folder_labels (o : option FolderEntity) : list string :=
  match o with Some f => [label f] | None => [] end.

(** [HierarchicalMatch.get_final_path] *)
Definition get_final_path (m : HierarchicalMatch) : string :=
  let parts := folder_labels (get_folder (domain_result m)) in
  let parts := (parts ++ folder_labels (get_folder (subdomain_result m)))%list in
  let parts :=
    match leaf_result m with
    | Some lr =>
        match get_folder lr with
        | Some leaf_folder =>
            if negb (action_eqb (action lr) SKIP) then (parts ++ [label leaf_folder])%list
            else parts
        | None => parts
        end
    | None => parts
    end in
  PyStr.join "/" parts.

Definition created_by (acts : list MatchAction) (r : MatchResult) : list FolderEntity :=
  if existsb (action_eqb (action r)) acts
  then match new_folder r with Some f => [f] | None => [] end
  else [].

(** [HierarchicalMatch.get_created_folders] *)
Definition get_created_folders (m : HierarchicalMatch) : list FolderEntity :=
  (created_by [CREATE_NEW] (domain_result m)
   ++ created_by [CREATE_NEW; ATTACH_AS_CHILD] (subdomain_result m)
   ++ match leaf_result m with
      | Some lr => created_by [CREATE_NEW; ATTACH_AS_CHILD] lr
      | None => []
      end)%list.

Definition reused_by (r : MatchResult) : list FolderEntity :=
  if action_eqb (action r) REUSE_EXISTING
  then match matched_folder r with Some f => [f] | None => [] end
  else [].

(** [HierarchicalMatch.get_reused_folders] *)
Definition get_reused_folders (m : HierarchicalMatch) : list FolderEntity :=
  (reused_by (domain_result m) ++ reused_by (subdomain_result m)
   ++ match leaf_result m with Some lr => reused_by lr | None => [] end)%list.

(** ** Seed taxonomy ([config.SEED_DOMAINS]) *)

Record SeedSubdomain := { ss_label : string; ss_aliases : list string }.

Record SeedDomain := {
  sd_label : string;
  sd_aliases : list string;
  sd_subdomains : list SeedSubdomain
}.

Definition sub (l : string) (a : list string) : SeedSubdomain :=
  {| ss_label := l; ss_aliases := a |}.

Definition SEED_DOMAINS : list SeedDomain := [
  {| sd_label := "Health & Fitness";
     sd_aliases := ["health"; "fitness"; "wellness"; "exercise"; "workout"; "gym"];
     sd_subdomains := [
       sub "Weight Loss" ["fat loss"; "cutting"; "calorie deficit"; "diet"];
       sub "Bulking" ["muscle gain"; "mass building"; "weight gain"];
       sub "Exercise" ["workout"; "training"; "cardio"; "strength"];
       sub "Nutrition" ["diet"; "food"; "eating"; "macros"; "calories"];
       sub "Recovery" ["rest"; "sleep"; "stretching"; "mobility"];
       sub "Mental Health" ["anxiety"; "depression"; "stress"; "meditation"] ] |};
  {| sd_label := "Computer Science";
     sd_aliases := ["programming"; "coding"; "software"; "tech"; "development"; "engineering"];
     sd_subdomains := [
       sub "Frontend" ["ui"; "ux"; "react"; "vue"; "css"; "html"; "web design"];
       sub "Backend" ["server"; "api"; "nodejs"; "python"; "java"; "database"];
       sub "Cloud" ["aws"; "azure"; "gcp"; "devops"; "kubernetes"; "docker"];
       sub "Databases" ["sql"; "nosql"; "postgres"; "mongodb"; "redis"];
       sub "Security" ["cybersecurity"; "encryption"; "authentication"; "hacking"];
       sub "AI & ML" ["machine learning"; "artificial intelligence"; "deep learning"; "nlp"];
       sub "Programming Languages" ["python"; "javascript"; "rust"; "go"; "typescript"];
       sub "Mobile Development" ["ios"; "android"; "react native"; "flutter"; "swift"] ] |};
  {| sd_label := "Work";
     sd_aliases := ["job"; "career"; "professional"; "business"; "office"];
     sd_subdomains := [
       sub "Meetings" ["call"; "standup"; "sync"; "conference"];
       sub "Projects" ["task"; "deadline"; "deliverable"; "milestone"];
       sub "Career Development" ["promotion"; "skills"; "growth"; "interview"];
       sub "Management" ["leadership"; "team"; "hiring"; "feedback"];
       sub "Networking" ["connections"; "linkedin"; "contacts"] ] |};
  {| sd_label := "Cooking";
     sd_aliases := ["food"; "recipes"; "culinary"; "kitchen"; "meal prep"];
     sd_subdomains := [
       sub "Recipes" ["dish"; "meal"; "instructions"];
       sub "Techniques" ["method"; "skill"; "how to cook"];
       sub "Cuisines" ["italian"; "asian"; "mexican"; "indian"];
       sub "Baking" ["desserts"; "bread"; "pastry"; "cakes"];
       sub "Meal Planning" ["prep"; "weekly meals"; "grocery"] ] |};
  {| sd_label := "Personal Finance";
     sd_aliases := ["money"; "finance"; "budget"; "investing"; "savings"];
     sd_subdomains := [
       sub "Budgeting" ["spending"; "expenses"; "tracking money"];
       sub "Investing" ["stocks"; "crypto"; "bonds"; "portfolio"];
       sub "Savings" ["emergency fund"; "retirement"; "saving money"];
       sub "Taxes" ["tax return"; "deductions"; "irs"];
       sub "Debt" ["loans"; "credit card"; "mortgage"; "paying off"] ] |};
  {| sd_label := "Travel";
     sd_aliases := ["vacation"; "trip"; "tourism"; "adventure"; "destination"];
     sd_subdomains := [
       sub "Destinations" ["places"; "cities"; "countries"; "locations"];
       sub "Planning" ["itinerary"; "booking"; "flights"; "hotels"];
       sub "Tips" ["hacks"; "advice"; "recommendations"];
       sub "Reviews" ["experiences"; "recommendations"; "ratings"] ] |};
  {| sd_label := "Shopping & Gifts";
     sd_aliases := ["buying"; "products"; "gifts"; "purchases"; "wishlist"];
     sd_subdomains := [
       sub "Wishlist" ["want list"; "to buy"; "save for later"];
       sub "Gift Ideas" ["presents"; "birthday gifts"; "christmas gifts"];
       sub "Deals" ["sales"; "discounts"; "coupons"; "offers"];
       sub "Reviews" ["product reviews"; "ratings"; "comparisons"] ] |};
  {| sd_label := "Relationships";
     sd_aliases := ["social"; "family"; "friends"; "dating"; "love"];
     sd_subdomains := [
       sub "Family" ["parents"; "kids"; "siblings"; "relatives"];
       sub "Friends" ["friendship"; "social life"; "hanging out"];
       sub "Dating" ["romance"; "love"; "partner"; "relationship advice"];
       sub "Communication" ["talking"; "listening"; "conflict resolution"] ] |};
  {| sd_label := "Productivity";
     sd_aliases := ["efficiency"; "organization"; "time management"; "getting things done"];
     sd_subdomains := [
       sub "Time Management" ["scheduling"; "calendar"; "planning"];
       sub "Tools" ["apps"; "software"; "systems"];
       sub "Habits" ["routines"; "discipline"; "consistency"];
       sub "Focus" ["concentration"; "deep work"; "distraction"] ] |};
  {| sd_label := "Hobbies";
     sd_aliases := ["interests"; "leisure"; "fun"; "activities"; "pastimes"];
     sd_subdomains := [
       sub "Gaming" ["video games"; "games"; "esports"];
       sub "Music" ["songs"; "instruments"; "bands"; "listening"];
       sub "Art" ["drawing"; "painting"; "design"; "creativity"];
       sub "Sports" ["athletics"; "teams"; "playing"];
       sub "Reading" ["books"; "articles"; "literature"];
       sub "Photography" ["photos"; "camera"; "editing"] ] |};
  {| sd_label := "Education";
     sd_aliases := ["learning"; "school"; "courses"; "study"; "knowledge"];
     sd_subdomains := [
       sub "Courses" ["classes"; "tutorials"; "lessons"];
       sub "Research" ["papers"; "studies"; "articles"];
       sub "Notes" ["study notes"; "summaries"; "key points"];
       sub "Languages" ["foreign languages"; "learning languages"] ] |};
  {| sd_label := "News & Current Events";
     sd_aliases := ["news"; "current events"; "politics"; "world events"];
     sd_subdomains := [
       sub "Politics" ["government"; "elections"; "policy"];
       sub "Technology News" ["tech news"; "gadgets"; "innovation"];
       sub "Business News" ["economy"; "markets"; "companies"];
       sub "Science" ["discoveries"; "research"; "breakthroughs"] ] |};
  {| sd_label := "Entertainment";
     sd_aliases := ["movies"; "tv"; "shows"; "media"; "fun"];
     sd_subdomains := [
       sub "Movies" ["films"; "cinema"; "movie reviews"];
       sub "TV Shows" ["series"; "streaming"; "episodes"];
       sub "Podcasts" ["audio"; "shows"; "episodes"];
       sub "YouTube" ["videos"; "channels"; "creators"] ] |};
  {| sd_label := "Personal";
     sd_aliases := ["me"; "self"; "diary"; "journal"; "thoughts"];
     sd_subdomains := [
       sub "Journal" ["diary"; "thoughts"; "reflections"];
       sub "Goals" ["resolutions"; "targets"; "aspirations"];
       sub "Ideas" ["thoughts"; "brainstorm"; "concepts"];
       sub "Memories" ["photos"; "events"; "nostalgia"] ] |} ].

(** ** Folder matcher ([folder_matcher.py]) *)

(** The state of a [FolderMatcher]: the vector store it writes to, its two
    caches, and the number of identifiers drawn so far. *)
Record Matcher := {
  vector_store : list Stored;
  _folder_cache : gmap string FolderEntity;
  _folders_by_depth : gmap Z (list FolderEntity);
  uuids_drawn : nat
}.

Definition new_matcher : Matcher := {|
  vector_store := [];
  _folder_cache := ∅;
  _folders_by_depth := <[1%Z := []]> (<[2%Z := []]> (<[3%Z := []]> ∅));
  uuids_drawn := 0
|}.

Definition max_text_length : Z := 8000.

(** [if parent_id:] *)
Definition truthy_id (o : option string) : bool :=
  match o with
  | Some s => negb (PyStr.is_empty s)
  | None => false
  end.

Definition opt_mval (o : option string) : mval :=
  match o with Some s => MStr s | None => MNone end.

(** The filter built by [_find_best_match]. *)
Definition search_filter (dpt : Z) (pid : option string) : gmap string mval :=
  let filter_metadata : gmap string mval :=
    <["depth" := MInt dpt]> (<["type" := MStr "folder"]> ∅) in
  if truthy_id pid then <["parent_id" := opt_mval pid]> filter_metadata
  else filter_metadata.

(** The metadata of a hit taken from the in-memory cache. *)
Definition cache_hit_meta (folder : FolderEntity) : gmap string mval :=
  <["path" := MStr (path folder)]> (<["folder_id" := MStr (folder_id folder)]> ∅).

(** The metadata [_create_folder] registers in the vector store. *)
Definition folder_meta (folder : FolderEntity) : gmap string mval :=
  <["is_seed" := MBool false]>
    (<["parent_id" := opt_mval (parent_id folder)]>
       (<["depth" := MInt (depth folder)]>
          (<["path" := MStr (path folder)]>
             (<["folder_id" := MStr (folder_id folder)]>
                (<["type" := MStr "folder"]> ∅))))).

(** The metadata [initialize_seed_folders] registers: no [parent_id] key for
    a domain. *)
Definition seed_meta (folder : FolderEntity) : gmap string mval :=
  let base : gmap string mval :=
    <["is_seed" := MBool true]>
      (<["depth" := MInt (depth folder)]>
         (<["path" := MStr (path folder)]>
            (<["folder_id" := MStr (folder_id folder)]>
               (<["type" := MStr "folder"]> ∅)))) in
  match parent_id folder with
  | Some p => <["parent_id" := MStr p]> base
  | None => base
  end.

Definition with_embedding (folder : FolderEntity) (eid : string) (emb : list R)
    : FolderEntity := {|
  folder_id := folder_id folder; path := path folder; label := label folder;
  depth := depth folder; parent_id := parent_id folder; aliases := aliases folder;
  embedding_id := Some eid; embedding := Some emb;
  item_count := item_count folder; is_seed := is_seed folder
|}.

(** [_folders_by_depth[depth].append(folder)] *)
Definition by_depth_append (m : gmap Z (list FolderEntity)) (dpt : Z)
    (folder : FolderEntity) : gmap Z (list FolderEntity) :=
  <[dpt := (default [] (m !! dpt) ++ [folder])%list]> m.

(** [path.split('/')[-1]] *)
Definition last_field (p : string) : string := List.last (PyStr.split_on "/" p) "".

Module FolderMatcher.
Section Matcher.

Variable embed_content : string -> option (list R).
Variable uuid4 : nat -> string.
Variable thresholds : ThresholdConfig.

(** [EmbeddingService.generate_embedding] : [None] is a raised exception.
    The embedding cache is transparent for a deterministic backend. *)
Definition generate_embedding (text : string) : option (list R) :=
  if PyStr.is_empty text || PyStr.is_empty (PyStr.strip text) then None
  else embed_content
         (if (max_text_length <? Z.of_nat (String.length text))%Z
          then PyStr.truncate (Z.to_nat max_text_length) text
          else text).

(** The part shared by [_create_folder] and [initialize_seed_folders]: embed
    and register the folder (an embedding failure is swallowed), then cache
    it. One identifier was drawn for [folder]. *)
Definition store_folder (st : Matcher) (folder : FolderEntity) (embed_text : string)
    (meta : gmap string mval) : FolderEntity * Matcher :=
  let '(folder, vs) :=
    match generate_embedding embed_text with
    | Some emb =>
        let eid := "folder_" ++ folder_id folder in
        (with_embedding folder eid emb, add_vector (vector_store st) eid emb meta)
    | None => (folder, vector_store st)
    end in
  (folder,
   {| vector_store := vs;
      _folder_cache := <[folder_id folder := folder]> (_folder_cache st);
      _folders_by_depth :=
        if (depth folder <=? 3)%Z
        then by_depth_append (_folders_by_depth st) (depth folder) folder
        else _folders_by_depth st;
      uuids_drawn := S (uuids_drawn st) |}).

(** [FolderMatcher._create_folder] *)
Definition _create_folder (st : Matcher) (lbl : string) (dpt : Z)
    (parent : option FolderEntity) (als : list string) : FolderEntity * Matcher :=
  let new_path :=
    match parent with
    | Some p => path p ++ "/" ++ lbl
    | None => lbl
    end in
  let folder := {|
    folder_id := uuid4 (uuids_drawn st); path := new_path; label := lbl;
    depth := dpt; parent_id := option_map folder_id parent; aliases := als;
    embedding_id := None; embedding := None; item_count := 0; is_seed := false |} in
  store_folder st folder (PyStr.replace_char "/" " > " new_path) (folder_meta folder).

(** One step of the cache scan of [_find_best_match]. *)
Definition augment_step (query_embedding : list R) (results : list Hit)
    (folder : FolderEntity) : list Hit :=
  match embedding folder with
  | Some (x :: e) =>
      match cosine_similarity query_embedding (x :: e) with
      | Some score =>
          if existsb (fun r => bool_decide (hit_id r = embedding_id folder)) results
          then results
          else (results ++ [(embedding_id folder, score, cache_hit_meta folder)])%list
      | None => results
      end
  | _ => results
  end.

Definition augment (st : Matcher) (query_embedding : list R) (dpt : Z)
    (pid : option string) (results : list Hit) : list Hit :=
  if length results <? 3 then
    let candidates := default [] (_folders_by_depth st !! dpt) in
    let candidates :=
      if truthy_id pid
      then List.filter (fun f => bool_decide (parent_id f = pid)) candidates
      else candidates in
    fold_left (augment_step query_embedding) candidates results
  else results.

(** The sorted candidate list [_find_best_match] walks. *)
Definition ranked_candidates (st : Matcher) (query_embedding : list R) (dpt : Z)
    (pid : option string) : list Hit :=
  sort_desc
    (augment st query_embedding dpt pid
       (search (vector_store st) query_embedding 5 (Some (search_filter dpt pid)))).

(** The folder a hit stands for: the cached one, else one rebuilt from the
    hit's [path]; [n] counts the identifiers drawn. *)
Definition resolve (cache : gmap string FolderEntity) (dpt : Z) (r : Hit) (n : nat)
    : option FolderEntity * nat :=
  let fid := md_get (hit_meta r) "folder_id" in
  match (match fid with MStr s => cache !! s | _ => None end) with
  | Some folder => (Some folder, n)
  | None =>
      match md_get (hit_meta r) "path" with
      | MStr p =>
          if PyStr.is_empty p then (None, n)
          else
            let '(new_id, n') :=
              match fid with
              | MStr s => if PyStr.is_empty s then (uuid4 n, S n) else (s, n)
              | _ => (uuid4 n, S n)
              end in
            (Some {| folder_id := new_id; path := p; label := last_field p;
                     depth := dpt; parent_id := None; aliases := [];
                     embedding_id := hit_id r; embedding := None;
                     item_count := 0; is_seed := false |}, n')
      | _ => (None, n)
      end
  end.

(** The final loop of [_find_best_match]. *)
Fixpoint walk (cache : gmap string FolderEntity) (search_text : string) (dpt : Z)
    (threshold : R) (results : list Hit) (n : nat) : option FolderEntity * R * nat :=
  match results with
  | [] => (None, 0%R, n)
  | r :: rest =>
      if Rltb (hit_score r) threshold then walk cache search_text dpt threshold rest n
      else
        let '(folder, n') := resolve cache dpt r n in
        match folder with
        | Some f =>
            if _sanity_check thresholds search_text (path f) (hit_score r)
            then (Some f, hit_score r, n')
            else walk cache search_text dpt threshold rest n'
        | None => walk cache search_text dpt threshold rest n'
        end
  end.

Definition set_uuids_drawn (st : Matcher) (n : nat) : Matcher := {|
  vector_store := vector_store st; _folder_cache := _folder_cache st;
  _folders_by_depth := _folders_by_depth st; uuids_drawn := n |}.

(** [FolderMatcher._find_best_match] *)
Definition _find_best_match (st : Matcher) (search_text : string) (dpt : Z)
    (pid : option string) (threshold : R) : (option FolderEntity * R) * Matcher :=
  match generate_embedding search_text with
  | None => ((None, 0%R), st)
  | Some query_embedding =>
      let results := ranked_candidates st query_embedding dpt pid in
      let '(best_match, best_score, n) :=
        walk (_folder_cache st) search_text dpt threshold results (uuids_drawn st) in
      ((best_match, best_score), set_uuids_drawn st n)
  end.

(** [FolderMatcher.match_domain] *)
Definition match_domain (st : Matcher) (candidate : TaxonomyCandidate)
    : MatchResult * Matcher :=
  let search_text := la_label (domain candidate) in
  let threshold := domain_threshold thresholds in
  let '((matched, similarity), st1) := _find_best_match st search_text 1 None threshold in
  match matched with
  | Some f =>
      ({| level := DOMAIN; action := REUSE_EXISTING; matched_folder := Some f;
          new_folder := None; similarity_score := similarity;
          label_used := label f |}, st1)
  | None =>
      let '(nf, st2) :=
        _create_folder st1 (la_label (domain candidate)) 1 None
                      (la_aliases (domain candidate)) in
      ({| level := DOMAIN; action := CREATE_NEW; matched_folder := None;
          new_folder := Some nf; similarity_score := 0;
          label_used := label nf |}, st2)
  end.

(** [FolderMatcher.match_subdomain] : [None] is the [ValueError] raised when
    the domain result carries no folder. *)
Definition match_subdomain (st : Matcher) (candidate : TaxonomyCandidate)
    (domain_result : MatchResult) : option (MatchResult * Matcher) :=
  match get_folder domain_result with
  | None => None
  | Some domain_folder =>
      let search_text := label domain_folder ++ " > " ++ la_label (subdomain candidate) in
      let threshold := subdomain_threshold thresholds in
      let '((matched, similarity), st1) :=
        _find_best_match st search_text 2 (Some (folder_id domain_folder)) threshold in
      match matched with
      | Some f =>
          Some ({| level := SUBDOMAIN; action := REUSE_EXISTING;
                   matched_folder := Some f; new_folder := None;
                   similarity_score := similarity; label_used := label f |}, st1)
      | None =>
          (* the global probe only feeds the log *)
          let '(_, st2) :=
            _find_best_match st1 (la_label (subdomain candidate)) 2 None threshold in
          let '(nf, st3) :=
            _create_folder st2 (la_label (subdomain candidate)) 2 (Some domain_folder)
                          (la_aliases (subdomain candidate)) in
          Some ({| level := SUBDOMAIN; action := ATTACH_AS_CHILD;
                   matched_folder := None; new_folder := Some nf;
                   similarity_score := 0; label_used := label nf |}, st3)
      end
  end.

Definition skip_leaf (leaf : LabelWithAliases) : MatchResult := {|
  level := LEAF; action := SKIP; matched_folder := None; new_folder := None;
  similarity_score := 0; label_used := la_label leaf |}.

(** [FolderMatcher.match_leaf] : the result is [None] when the leaf level is
    left out. *)
Definition match_leaf (st : Matcher) (candidate : TaxonomyCandidate)
    (subdomain_result : MatchResult) : option MatchResult * Matcher :=
  match leaf_topic candidate with
  | None => (None, st)
  | Some leaf =>
      if la_optional leaf
         && Rltb (confidence candidate) (leaf_confidence_threshold thresholds)
      then (Some (skip_leaf leaf), st)
      else
        match get_folder subdomain_result with
        | None => (None, st)
        | Some subdomain_folder =>
            let search_text := path subdomain_folder ++ " > " ++ la_label leaf in
            let threshold := leaf_threshold thresholds in
            let '((matched, similarity), st1) :=
              _find_best_match st search_text 3 (Some (folder_id subdomain_folder))
                              threshold in
            match matched with
            | Some f =>
                (Some {| level := LEAF; action := REUSE_EXISTING;
                         matched_folder := Some f; new_folder := None;
                         similarity_score := similarity; label_used := label f |},
                 st1)
            | None =>
                if (max_depth thresholds <=? depth subdomain_folder)%Z
                then (Some (skip_leaf leaf), st1)
                else if la_optional leaf then (Some (skip_leaf leaf), st1)
                else
                  let '(nf, st2) :=
                    _create_folder st1 (la_label leaf) 3 (Some subdomain_folder)
                                  (la_aliases leaf) in
                  (Some {| level := LEAF; action := ATTACH_AS_CHILD;
                           matched_folder := None; new_folder := Some nf;
                           similarity_score := 0; label_used := label nf |}, st2)
            end
        end
  end.

(** [FolderMatcher.match] : [None] is an exception reaching the caller. *)
Definition match_ (st : Matcher) (candidate : TaxonomyCandidate)
    : option (HierarchicalMatch * Matcher) :=
  let '(dr, st1) := match_domain st candidate in
  match match_subdomain st1 candidate dr with
  | None => None
  | Some (sr, st2) =>
      let '(lr, st3) := match_leaf st2 candidate sr in
      Some ({| domain_result := dr; subdomain_result := sr; leaf_result := lr |}, st3)
  end.

(** [FolderMatcher.initialize_seed_folders] *)
Definition seed_subdomain (domain_entity : FolderEntity)
    (acc : list FolderEntity * Matcher) (s : SeedSubdomain)
    : list FolderEntity * Matcher :=
  let '(created_folders, st) := acc in
  let subdomain_entity := {|
    folder_id := uuid4 (uuids_drawn st);
    path := label domain_entity ++ "/" ++ ss_label s; label := ss_label s;
    depth := 2; parent_id := Some (folder_id domain_entity); aliases := ss_aliases s;
    embedding_id := None; embedding := None; item_count := 0; is_seed := true |} in
  let '(subdomain_entity, st') :=
    store_folder st subdomain_entity (label domain_entity ++ " > " ++ ss_label s)
                 (seed_meta subdomain_entity) in
  ((created_folders ++ [subdomain_entity])%list, st').

Definition seed_domain (acc : list FolderEntity * Matcher) (d : SeedDomain)
    : list FolderEntity * Matcher :=
  let '(created_folders, st) := acc in
  let domain_entity := {|
    folder_id := uuid4 (uuids_drawn st); path := sd_label d; label := sd_label d;
    depth := 1; parent_id := None; aliases := sd_aliases d;
    embedding_id := None; embedding := None; item_count := 0; is_seed := true |} in
  let '(domain_entity, st') :=
    store_folder st domain_entity (sd_label d) (seed_meta domain_entity) in
  fold_left (seed_subdomain domain_entity) (sd_subdomains d)
            ((created_folders ++ [domain_entity])%list, st').

Definition initialize_seed_folders (st : Matcher) : list FolderEntity * Matcher :=
  fold_left seed_domain SEED_DOMAINS ([], st).

End Matcher.
End FolderMatcher.

Import FolderMatcher.

(** ** Vocabulary of the matcher's specification *)

(** The path of the folder a hit resolves to, if any: that of the cached
    folder, else the hit's own non-empty [path]. *)
Definition hit_path (cache : gmap string FolderEntity) (r : Hit) : option string :=
  match (match md_get (hit_meta r) "folder_id" with
         | MStr s => cache !! s
         | _ => None
         end) with
  | Some f => Some (path f)
  | None =>
      match md_get (hit_meta r) "path" with
      | MStr p => if PyStr.is_empty p then None else Some p
      | _ => None
      end
  end.

(** A hit the walk of [_find_best_match] stops at: at or above the
    threshold, resolving to a folder, passing the sanity check. *)
Definition accepted (th : ThresholdConfig) (cache : gmap string FolderEntity)
    (search_text : string) (threshold : R) (r : Hit) : bool :=
  negb (Rltb (hit_score r) threshold)
  && match hit_path cache r with
     | Some p => _sanity_check th search_text p (hit_score r)
     | None => false
     end.

(** The best score of a ranked candidate list. *)
Definition best_score (l : list Hit) : option R := hit_score <$> head l.

(** ** Sample data used by the examples *)

(** A store holding the single domain "Cooking", embedded as (4,3). *)
Definition cooking_folder : FolderEntity := {|
  folder_id := "f1"; path := "Cooking"; label := "Cooking"; depth := 1;
  parent_id := None; aliases := []; embedding_id := Some "folder_f1";
  embedding := Some [4; 3]%R; item_count := 0; is_seed := false |}.

(** The matcher state of that store. *)
Definition cooking_matcher : Matcher := {|
  vector_store := [("folder_f1", ([4; 3]%R, folder_meta cooking_folder))];
  _folder_cache := <["f1" := cooking_folder]> ∅;
  _folders_by_depth := <[1%Z := [cooking_folder]]> (_folders_by_depth new_matcher);
  uuids_drawn := 1 |}.

(** A backend that places "Cuisine" at cosine 0.8 from "Cooking". *)
Definition cuisine_backend (text : string) : option (list R) :=
  if String.eqb text "Cuisine" then Some [1; 0]%R
  else if String.eqb text "Cooking" then Some [4; 3]%R
  else None.

(** The default thresholds with the domain threshold lowered to 0.8. *)
Definition thresholds_08 : ThresholdConfig := {|
  domain_threshold := 0.8;
  subdomain_threshold := 0.80;
  leaf_threshold := 0.75;
  leaf_confidence_threshold := 0.70;
  leaf_recurrence_threshold := 3;
  max_depth := 3;
  min_keyword_overlap := 0.20
|}.

(** The candidate "Cuisine/Recipes". *)
Definition cuisine : TaxonomyCandidate := {|
  domain := {| la_label := "Cuisine"; la_aliases := []; la_optional := false |};
  subdomain := {| la_label := "Recipes"; la_aliases := []; la_optional := false |};
  leaf_topic := None; tags := []; confidence := 0.9; rationale := "" |}.

(** A subdomain result that attached the folder "Astronomy/Stars". *)
Definition stars_folder : FolderEntity := {|
  folder_id := "f2"; path := "Astronomy/Stars"; label := "Stars"; depth := 2;
  parent_id := Some "f0"; aliases := []; embedding_id := None;
  embedding := None; item_count := 0; is_seed := false |}.

Definition stars_result : MatchResult := {|
  level := SUBDOMAIN; action := ATTACH_AS_CHILD; matched_folder := None;
  new_folder := Some stars_folder; similarity_score := 0; label_used := "Stars" |}.

(** ** Vocabulary of the folder invariant *)

(** [s.count(c)] *)
Fixpoint count_char (c : ascii) (s : string) : nat :=
  match s with
  | EmptyString => 0
  | String d s' => (if Ascii.eqb d c then 1 else 0) + count_char c s'
  end.

(** The label holds no path separator. *)
Definition no_slash (s : string) : Prop := count_char "/" s = 0.

(** The number of "/"-separated segments of a path, [len(path.split('/'))]. *)
Definition segments (p : string) : Z := Z.of_nat (length (PyStr.split_on "/" p)).

(** The path of a folder is its parent's path, "/", its label (its label
    alone without a parent). *)
Definition path_of (parent : option FolderEntity) (lbl : string) : string :=
  match parent with
  | Some p => path p ++ "/" ++ lbl
  | None => lbl
  end.

(** The invariant of a folder in a list of created folders. *)
Definition folder_ok (created : list FolderEntity) (f : FolderEntity) : Prop :=
  depth f = segments (path f)
  /\ match parent_id f with
     | None => path f = label f
     | Some pid =>
         exists p, In p created /\ folder_id p = pid
                   /\ path f = path p ++ "/" ++ label f
     end.

(** A candidate whose domain label holds a separator, and a backend that
    embeds every text as (1,0). *)
Definition slash_candidate : TaxonomyCandidate := {|
  domain := {| la_label := "AI/ML"; la_aliases := []; la_optional := false |};
  subdomain := {| la_label := "Papers"; la_aliases := []; la_optional := false |};
  leaf_topic := None; tags := []; confidence := 0.9; rationale := "" |}.

Definition constant_backend (text : string) : option (list R) := Some [1; 0]%R.

(** ** Vocabulary of the idempotence property *)

(** A depth-1 folder in normal form: its path is its label, without "/". *)
Definition top_level (f : FolderEntity) : Prop :=
  path f = label f /\ no_slash (label f).

(** The store and the caches agree: every stored vector names a cached
    folder, every folder listed by depth is cached under its identifier, and
    the cached folders behind depth-1 entries are in normal form. *)
Definition consistent (st : Matcher) : Prop :=
  (forall k e md, In (k, (e, md)) (vector_store st) ->
     exists s f, md_get md "folder_id" = MStr s /\ _folder_cache st !! s = Some f
                 /\ (mval_eqb (md_get md "depth") (MInt 1) = true -> top_level f))
  /\ (forall d l f, _folders_by_depth st !! d = Some l -> In f l ->
        exists f', _folder_cache st !! folder_id f = Some f'
                   /\ (d = 1%Z -> top_level f')).

(** The identifiers not drawn yet are unused in the store and the cache. *)
Definition fresh (uuid4 : nat -> string) (st : Matcher) : Prop :=
  forall k, uuids_drawn st <= k ->
    _folder_cache st !! uuid4 k = None
    /\ ~ In ("folder_" ++ uuid4 k) (map fst (vector_store st)).

(** The text is not blank: [text.strip()] is not empty. *)
Fixpoint has_nonspace (s : string) : bool :=
  match s with
  | EmptyString => false
  | String c s' => negb (PyStr.is_space c) || has_nonspace s'
  end.

(** A vector with a non-zero component. *)
Definition nonzero (v : list R) : Prop := Exists (fun x => x <> 0%R) v.

(** A candidate whose domain label is empty. *)
Definition empty_domain_candidate : TaxonomyCandidate := {|
  domain := {| la_label := ""; la_aliases := []; la_optional := false |};
  subdomain := {| la_label := "Stars"; la_aliases := []; la_optional := false |};
  leaf_topic := None; tags := []; confidence := 0.9; rationale := "" |}.

(** The outcome of [_find_best_match] read off the state: the walk over the
    ranked candidates, started with a counter that is not looked at when
    every hit is cached. *)
Definition best_of (embed_content : string -> option (list R)) (uuid4 : nat -> string)
    (thresholds : ThresholdConfig) (st : Matcher) (search_text : string) (dpt : Z)
    (pid : option string) (threshold : R) : option FolderEntity * R :=
  match generate_embedding embed_content search_text with
  | None => (None, 0%R)
  | Some q =>
      (walk uuid4 thresholds (_folder_cache st) search_text dpt threshold
            (ranked_candidates st q dpt pid) 0).1
  end.

(** ** Further vocabulary of the specification *)

(** A text without keywords: no word of more than two characters outside
    the stop words. *)
Definition no_keyword (text : string) : Prop :=
  Forall (fun w => is_keyword w = false) (PyStr.findall_words (PyStr.lower text)).

(** Every character of [s] satisfies [p]. *)
Fixpoint all_chars (p : ascii -> bool) (s : string) : bool :=
  match s with
  | EmptyString => true
  | String c s' => p c && all_chars p s'
  end.

(** A field produced by a split: not empty, made of [p] characters. *)
Definition field_ok (p : ascii -> bool) (w : string) : Prop :=
  w <> "" /\ all_chars p w = true.

(** The text starts with a lower-case letter. *)
Definition lower_head (s : string) : bool :=
  match s with
  | EmptyString => false
  | String c _ => PyStr.is_lower c
  end.

(** Hits in descending score order. *)
Definition by_score_desc (x y : Hit) : Prop := (hit_score y <= hit_score x)%R.

(** The hits of score [s], in list order. *)
Definition with_score (s : R) (l : list Hit) : list Hit :=
  List.filter (fun r => Reqb (hit_score r) s) l.

(** What [search] computes for one stored vector that passed the filter. *)
Definition score_vector (query_embedding : list R) (v : Stored) : option Hit :=
  (fun s => (Some v.1, s, v.2.2)) <$> cosine_similarity query_embedding v.2.1.

(** A sample identifier stream and a backend that is unreachable. *)
Definition sample_uuid4 (n : nat) : string :=
  "uuid-" ++ DecimalString.NilEmpty.string_of_uint (Nat.to_uint n).

Definition unreachable_backend (text : string) : option (list R) := None.

(** Sample candidates: "Astronomy/Stars", without a leaf and with the
    optional leaf "Red Dwarfs". *)
Definition plain (l : string) : LabelWithAliases :=
  {| la_label := l; la_aliases := []; la_optional := false |}.

Definition optional_leaf (l : string) : LabelWithAliases :=
  {| la_label := l; la_aliases := []; la_optional := true |}.

Definition astronomy : TaxonomyCandidate := {|
  domain := plain "Astronomy"; subdomain := plain "Stars"; leaf_topic := None;
  tags := []; confidence := 0.9; rationale := "" |}.

Definition astronomy_with_leaf (conf : R) : TaxonomyCandidate := {|
  domain := plain "Astronomy"; subdomain := plain "Stars";
  leaf_topic := Some (optional_leaf "Red Dwarfs");
  tags := []; confidence := conf; rationale := "" |}.

(** Two matcher states hold the same folders: they differ at most in the
    number of identifiers drawn. *)
Definition same_folders (st st' : Matcher) : Prop :=
  vector_store st' = vector_store st
  /\ _folder_cache st' = _folder_cache st
  /\ _folders_by_depth st' = _folders_by_depth st.

(** No label of the seed domain holds a path separator. *)
Definition seed_slash_free (d : SeedDomain) : Prop :=
  no_slash (sd_label d) /\ Forall (fun s => no_slash (ss_label s)) (sd_subdomains d).

(** A hit appended from the in-memory cache for one of the folders
    [cands]. *)
Definition from_cache (cands : list FolderEntity) (h : Hit) : Prop :=
  exists f, In f cands /\ hit_meta h = cache_hit_meta f /\ (hit_score h <= 1)%R.

(** The cached folders [_find_best_match] scans at a depth, under a parent
    when one is given. *)
Definition depth_candidates (st : Matcher) (dpt : Z) (pid : option string)
    : list FolderEntity :=
  let candidates := default [] (_folders_by_depth st !! dpt) in
  if truthy_id pid
  then List.filter (fun f => bool_decide (parent_id f = pid)) candidates
  else candidates.

(** A hit whose [folder_id] names a cached folder satisfying [P]. *)
Definition good_hit (cache : gmap string FolderEntity) (P : FolderEntity -> Prop)
    (h : Hit) : Prop :=
  exists s f, md_get (hit_meta h) "folder_id" = MStr s /\ cache !! s = Some f /\ P f.

(** The result of a level that reuses folder [f] found at similarity [s]. *)
Definition reuse (lvl : FolderDepth) (f : FolderEntity) (s : R) : MatchResult := {|
  level := lvl; action := REUSE_EXISTING; matched_folder := Some f;
  new_folder := None; similarity_score := s; label_used := label f |}.

(** ** The rest of the vector index ([InMemoryVectorStore]) *)

(** [_vectors.get(vector_id)] *)
Fixpoint get_vector (vs : list Stored) (vector_id : string)
    : option (list R * gmap string mval) :=
  match vs with
  | [] => None
  | (k, v) :: vs' =>
      if String.eqb k vector_id then Some v else get_vector vs' vector_id
  end.

(** [vector_id in _vectors] *)
Definition has_vector (vs : list Stored) (vector_id : string) : bool :=
  existsb (fun kv => String.eqb kv.1 vector_id) vs.

(** [del _vectors[vector_id]] *)
Fixpoint del_vector (vs : list Stored) (vector_id : string) : list Stored :=
  match vs with
  | [] => []
  | (k, v) :: vs' =>
      if String.eqb k vector_id then vs' else (k, v) :: del_vector vs' vector_id
  end.

(** [InMemoryVectorStore.delete_vector] : the flag returned and the store
    left. *)
Definition delete_vector (vs : list Stored) (vector_id : string)
    : bool * list Stored :=
  if has_vector vs vector_id then (true, del_vector vs vector_id) else (false, vs).

(** [InMemoryVectorStore.get_all_vectors] : a copy of the dictionary. *)
Definition get_all_vectors (vs : list Stored) : list Stored := vs.

(** The association list stands for a dictionary: no identifier twice. *)
Definition unique_ids (vs : list Stored) : Prop := NoDup (map fst vs).

(** ** The rest of the embedding service ([EmbeddingService]) *)

(** [EmbeddingConfig.dimension] *)
Definition dimension : nat := 768.

(** A scored candidate of [find_most_similar]: [(candidate_id, similarity)]. *)
Definition Scored : Type := string * R.

(** [results.sort(key=lambda x: x[1], reverse=True)] on scored candidates:
    the stable insertion sort of [sort_desc]. *)
Fixpoint insert_scored (x : Scored) (l : list Scored) : list Scored :=
  match l with
  | [] => [x]
  | y :: l' =>
      if Rltb x.2 y.2 then y :: insert_scored x l'
      else x :: y :: l'
  end.

Fixpoint sort_scored (l : list Scored) : list Scored :=
  match l with
  | [] => []
  | x :: l' => insert_scored x (sort_scored l')
  end.

(** The loop of [find_most_similar]: a candidate whose similarity raises is
    dropped, one below the threshold is left out. *)
Fixpoint similar_scan (query_embedding : list R)
    (candidate_embeddings : list (string * list R)) (threshold : R) : list Scored :=
  match candidate_embeddings with
  | [] => []
  | (candidate_id, candidate_embedding) :: rest =>
      match cosine_similarity query_embedding candidate_embedding with
      | Some similarity =>
          if negb (Rltb similarity threshold)
          then (candidate_id, similarity) :: similar_scan query_embedding rest threshold
          else similar_scan query_embedding rest threshold
      | None => similar_scan query_embedding rest threshold
      end
  end.

(** [EmbeddingService.find_most_similar] *)
Definition find_most_similar (query_embedding : list R)
    (candidate_embeddings : list (string * list R)) (threshold : R) (top_k : Z)
    : list Scored :=
  PyStr.slice_to top_k
    (sort_scored (similar_scan query_embedding candidate_embeddings threshold)).

Module EmbeddingService.
Section Service.

Variable embed_content : string -> option (list R).

(** [EmbeddingService.generate_embeddings_batch] : a text that cannot be
    embedded yields the zero vector. *)
Definition generate_embeddings_batch (texts : list string) : list (list R) :=
  map (fun text =>
         match generate_embedding embed_content text with
         | Some embedding => embedding
         | None => repeat 0%R dimension
         end) texts.

(** [EmbeddingService.compute_text_similarity] : [None] is a raised
    exception. *)
Definition compute_text_similarity (text_a text_b : string) : option R :=
  match generate_embedding embed_content text_a with
  | None => None
  | Some emb_a =>
      match generate_embedding embed_content text_b with
      | None => None
      | Some emb_b => cosine_similarity emb_a emb_b
      end
  end.

End Service.
End EmbeddingService.

Import EmbeddingService.

(** Scored candidates in descending score order. *)
Definition scored_desc (x y : Scored) : Prop := (y.2 <= x.2)%R.

(** A sample store of two vectors. *)
Definition sample_store : list Stored :=
  [("a", ([1; 0]%R, ∅)); ("b", ([0; 1]%R, ∅))].

(** The text does not start with a blank. *)
Definition no_leading_space (s : string) : Prop :=
  match s with
  | EmptyString => True
  | String c _ => PyStr.is_space c = false
  end.

(** ** Alias map ([config.build_alias_map], [config.ALIAS_MAP]) *)

(** [for alias in aliases: alias_map[alias.lower()] = canonical] *)
Definition add_aliases (canonical : string) (aliases : list string)
    (alias_map : gmap string string) : gmap string string :=
  fold_left (fun m alias => <[PyStr.lower alias := canonical]> m) aliases alias_map.

Definition alias_subdomain (canonical_domain : string)
    (alias_map : gmap string string) (s : SeedSubdomain) : gmap string string :=
  let canonical_subdomain := canonical_domain ++ "/" ++ ss_label s in
  add_aliases canonical_subdomain (ss_aliases s)
    (<[PyStr.lower (ss_label s) := canonical_subdomain]> alias_map).

Definition alias_domain (alias_map : gmap string string) (d : SeedDomain)
    : gmap string string :=
  let canonical_domain := sd_label d in
  let alias_map := <[PyStr.lower canonical_domain := canonical_domain]> alias_map in
  let alias_map := add_aliases canonical_domain (sd_aliases d) alias_map in
  fold_left (alias_subdomain canonical_domain) (sd_subdomains d) alias_map.

Definition build_alias_map : gmap string string :=
  fold_left alias_domain SEED_DOMAINS ∅.

Definition ALIAS_MAP : gmap string string := build_alias_map.

(** ** Taxonomy generation ([taxonomy_generator.py]) *)

(** The fields of [models.ItemInput] the generator reads outside the
    prompt. *)
Record ItemInput := {
  item_id : string;
  raw_topic : string;
  summary : string
}.

(** The word limits of [config.TaxonomyConfig]. *)
Record TaxonomyConfig := {
  max_domain_words : Z;
  max_subdomain_words : Z;
  max_leaf_words : Z
}.

Definition default_taxonomy_config : TaxonomyConfig := {|
  max_domain_words := 4; max_subdomain_words := 4; max_leaf_words := 4 |}.

(** A value decoded by [json.loads]. *)
Inductive json :=
  | JNull
  | JBool (b : bool)
  | JNum (x : R)
  | JStr (s : string)
  | JArr (items : list json)
  | JObj (fields : list (string * json)).

(** Truth value of a decoded value ([if v:]). *)
Definition json_truthy (v : json) : bool :=
  match v with
  | JNull => false
  | JBool b => b
  | JNum x => negb (Reqb x 0)
  | JStr s => negb (PyStr.is_empty s)
  | JArr items => negb (is_nil items)
  | JObj fields => negb (is_nil fields)
  end.

Fixpoint assoc (k : string) (fields : list (string * json)) : option json :=
  match fields with
  | [] => None
  | (k', v) :: rest => if String.eqb k' k then Some v else assoc k rest
  end.

(** [d.get(k, dflt)] : [None] is the [AttributeError] of a value that is
    not a dictionary. *)
Definition dict_get (d : json) (k : string) (dflt : json) : option json :=
  match d with
  | JObj fields => Some (default dflt (assoc k fields))
  | _ => None
  end.

(** [if isinstance(data, str): data = {"label": data, "aliases": [], ...}] *)
Definition as_label_data (data : json) (more : list (string * json)) : json :=
  match data with
  | JStr s => JObj (("label", JStr s) :: ("aliases", JArr []) :: more)
  | _ => data
  end.

(** [_clean_label] applied to a decoded value: a false value is cleaned to
    the empty label, a true value that is not a string has no [split]. *)
Definition clean_label_value (v : json) (max_words : Z) : option string :=
  match v with
  | JStr s => Some (_clean_label s max_words)
  | _ => if json_truthy v then None else Some ""
  end.

(** The strings of a decoded list ([[t for t in v if isinstance(t, str)]],
    nothing for a value that is not a list). Alias lists, which the code
    carries along unread, are kept in this form. *)
Definition string_items (v : json) : list string :=
  match v with
  | JArr items => omap (fun t => match t with JStr s => Some s | _ => None end) items
  | _ => []
  end.

(** [isinstance(confidence, (int, float))], else 0.7; a boolean is an
    integer. *)
Definition number_or_default (v : json) : R :=
  match v with
  | JNum x => x
  | JBool b => if b then 1%R else 0%R
  | _ => 0.7%R
  end.

(** The tag pipeline of [_validate_and_build_candidate]. *)
Definition clean_tags (v : json) (item : ItemInput) : list string :=
  let tags := map (fun t => PyStr.strip (PyStr.lower t)) (string_items v) in
  let tags :=
    List.filter (fun t => negb (PyStr.is_empty t)
                          && negb (bool_decide (PyStr.lower t ∈ FORBIDDEN_LABEL_WORDS)))
                tags in
  if negb (PyStr.is_empty (raw_topic item)) then
    let raw_topic_clean := PyStr.strip (PyStr.lower (raw_topic item)) in
    if existsb (String.eqb raw_topic_clean) tags then tags
    else (tags ++ [raw_topic_clean])%list
  else tags.

(** The three outcomes of the keyword scan of [_fallback_classification]:
    [(best_domain, best_subdomain, best_score)]. *)
Definition Best : Type := option string * option string * nat.

Definition count_aliases (aliases : list string) (text : string) : nat :=
  length (List.filter (fun alias => PyStr.contains alias text) aliases).

Definition fallback_subdomain (text : string) (domain_label : string)
    (domain_score : nat) (best : Best) (s : SeedSubdomain) : Best :=
  let sub_score := domain_score + count_aliases (ss_aliases s) text in
  if best.2 <? sub_score then (Some domain_label, Some (ss_label s), sub_score)
  else best.

Definition fallback_domain (text : string) (best : Best) (d : SeedDomain) : Best :=
  let domain_score := count_aliases (sd_aliases d) text in
  let best :=
    if best.2 <? domain_score then (Some (sd_label d), Some "General", domain_score)
    else best in
  fold_left (fallback_subdomain text (sd_label d) domain_score) (sd_subdomains d) best.

Definition label_only (l : string) : LabelWithAliases :=
  {| la_label := l; la_aliases := []; la_optional := false |}.

Module TaxonomyGenerator.
Section Generator.

(** [str(v)] of a decoded value that is not a string. *)
Variable py_str : json -> string.
(** Whether [_configure] succeeds (the SDK is installed and the key set). *)
Variable configured : bool.
(** The model's answer to the prompt built for an item, decoded by
    [_parse_llm_response]; [None] is an exception raised on the way. *)
Variable llm_parsed : ItemInput -> option json.
Variable config : TaxonomyConfig.

(** [TaxonomyGenerator._validate_and_build_candidate] : [None] is a raised
    exception. *)
Definition _validate_and_build_candidate (parsed : json) (item : ItemInput)
    : option TaxonomyCandidate :=
  domain_data ← dict_get parsed "domain" (JObj []);
  let domain_data := as_label_data domain_data [] in
  domain_raw ← dict_get domain_data "label" (JStr "Uncategorized");
  domain_label ← clean_label_value domain_raw (max_domain_words config);
  let domain_label :=
    match ALIAS_MAP !! PyStr.lower domain_label with
    | Some canonical =>
        if negb (PyStr.contains "/" canonical) then canonical else domain_label
    | None => domain_label
    end in
  domain_aliases ← dict_get domain_data "aliases" (JArr []);
  subdomain_data ← dict_get parsed "subdomain" (JObj []);
  let subdomain_data := as_label_data subdomain_data [] in
  subdomain_raw ← dict_get subdomain_data "label" (JStr "General");
  subdomain_label ← clean_label_value subdomain_raw (max_subdomain_words config);
  subdomain_aliases ← dict_get subdomain_data "aliases" (JArr []);
  leaf_data ← dict_get parsed "leaf_topic" JNull;
  leaf ←
    (if json_truthy leaf_data then
       let leaf_data := as_label_data leaf_data [("optional", JBool true)] in
       leaf_raw ← dict_get leaf_data "label" (JStr "");
       leaf_label ← clean_label_value leaf_raw (max_leaf_words config);
       if negb (PyStr.is_empty leaf_label) then
         leaf_aliases ← dict_get leaf_data "aliases" (JArr []);
         leaf_optional ← dict_get leaf_data "optional" (JBool true);
         Some (Some {| la_label := leaf_label;
                       la_aliases := string_items leaf_aliases;
                       la_optional := json_truthy leaf_optional |})
       else Some None
     else Some None);
  tags_raw ← dict_get parsed "tags" (JArr []);
  confidence_raw ← dict_get parsed "confidence" (JNum 0.7);
  rationale_raw ← dict_get parsed "rationale" (JStr "");
  Some {|
    domain := {| la_label := domain_label;
                 la_aliases := string_items domain_aliases;
                 la_optional := false |};
    subdomain := {| la_label := subdomain_label;
                    la_aliases := string_items subdomain_aliases;
                    la_optional := false |};
    leaf_topic := leaf;
    tags := firstn 10 (clean_tags tags_raw item);
    confidence := clamp01 (number_or_default confidence_raw);
    rationale :=
      PyStr.truncate 500
        (match rationale_raw with JStr s => s | v => py_str v end) |}.

(** [TaxonomyGenerator._fallback_classification] *)
Definition _fallback_classification (item : ItemInput) : TaxonomyCandidate :=
  let text_to_match := PyStr.lower (raw_topic item ++ " " ++ summary item) in
  let '(best_domain, best_subdomain, _) :=
    fold_left (fallback_domain text_to_match) SEED_DOMAINS (None, None, 0) in
  let '(best_domain, best_subdomain) :=
    if truthy_id best_domain
    then (default "" best_domain, default "" best_subdomain)
    else ("Personal", "Ideas") in
  let tags :=
    map PyStr.lower
        (List.filter (fun w => 2 <? String.length w) (PyStr.split (raw_topic item))) in
  {| domain := label_only best_domain;
     subdomain := label_only best_subdomain;
     leaf_topic := None;
     tags := firstn 5 tags;
     confidence := 0.5;
     rationale := "Fallback classification via keyword matching" |}.

(** The alias shortcut of [generate]. *)
Definition quick_match (raw_topic_lower : string) : option TaxonomyCandidate :=
  match ALIAS_MAP !! raw_topic_lower with
  | Some canonical_path =>
      let parts := PyStr.split_on "/" canonical_path in
      if 2 <=? length parts then
        Some {| domain := {| la_label := nth 0 parts "";
                             la_aliases := [raw_topic_lower];
                             la_optional := false |};
                subdomain := label_only (nth 1 parts "");
                leaf_topic := None;
                tags := [raw_topic_lower];
                confidence := 0.95;
                rationale := "Matched via alias map" |}
      else None
  | None => None
  end.

(** [TaxonomyGenerator.generate] : [None] is the exception of a failed
    [_configure], the only one that leaves the function. *)
Definition generate (item : ItemInput) : option TaxonomyCandidate :=
  if PyStr.is_empty (raw_topic item) && PyStr.is_empty (summary item) then
    Some {| domain := label_only "Uncategorized";
            subdomain := label_only "General";
            leaf_topic := None;
            tags := [];
            confidence := 0.3;
            rationale := "No content provided for classification" |}
  else
    let raw_topic_lower :=
      if negb (PyStr.is_empty (raw_topic item))
      then PyStr.strip (PyStr.lower (raw_topic item)) else "" in
    match quick_match raw_topic_lower with
    | Some candidate => Some candidate
    | None =>
        if configured then
          match llm_parsed item ≫= (fun parsed => _validate_and_build_candidate parsed item) with
          | Some candidate => Some candidate
          | None => Some (_fallback_classification item)
          end
        else None
    end.

End Generator.
End TaxonomyGenerator.

Import TaxonomyGenerator.

(** ** Vocabulary of the generator's contract *)

(** [d/s] names a seed domain and either "General" or one of its seed
    subdomains. *)
Definition seed_path (d s : string) : Prop :=
  exists sd, In sd SEED_DOMAINS /\ sd_label sd = d
             /\ (s = "General" \/ exists ss, In ss (sd_subdomains sd) /\ ss_label ss = s).

(** A canonical name of the alias map over the seed domains [seeds]: a
    domain label, or a domain label, "/", the label of one of its
    subdomains. *)
Definition canonical_name (seeds : list SeedDomain) (v : string) : Prop :=
  exists sd, In sd seeds
    /\ (v = sd_label sd
        \/ exists ss, In ss (sd_subdomains sd) /\ v = sd_label sd ++ "/" ++ ss_label ss).

(** What the matcher may rely on in a candidate: labels without a path
    separator, a leaf label that is not empty, a confidence within [0,1]
    and at most ten tags. *)
Definition well_formed (c : TaxonomyCandidate) : Prop :=
  no_slash (la_label (domain c)) /\ no_slash (la_label (subdomain c))
  /\ (forall leaf, leaf_topic c = Some leaf ->
        no_slash (la_label leaf) /\ la_label leaf <> "")
  /\ (0 <= confidence c <= 1)%R
  /\ length (tags c) <= 10.

(** Sample inputs. *)
Definition react_item : ItemInput :=
  {| item_id := "i1"; raw_topic := " React "; summary := "hooks" |}.

Definition react_answer : json :=
  JObj [("domain", JStr "AI/ML!"); ("subdomain", JObj [("label", JStr "saved papers")]);
        ("leaf_topic", JStr "Transformers"); ("confidence", JNum 7);
        ("tags", JArr [JStr " NLP "; JNum 3; JStr "video"])].

Definition paper_item : ItemInput :=
  {| item_id := "i2"; raw_topic := "Attention paper"; summary := "transformers" |}.

(** An item whose text holds no alias of the seed taxonomy. *)
Definition unmatched_item : ItemInput :=
  {| item_id := "i3"; raw_topic := "zzz"; summary := "qqq" |}.

(** ** The rest of the data model ([models.py]) *)

(** [TaxonomyCandidate.get_full_path] *)
Definition get_full_path (c : TaxonomyCandidate) (include_leaf : bool) : string :=
  let parts := [la_label (domain c); la_label (subdomain c)] in
  let parts :=
    match leaf_topic c with
    | Some leaf =>
        if include_leaf && negb (la_optional leaf)
        then (parts ++ [la_label leaf])%list else parts
    | None => parts
    end in
  PyStr.join "/" parts.

(** ** Vocabulary of the state invariant *)

(** The folder is cached under its own identifier. *)
Definition cached (st : Matcher) (f : FolderEntity) : Prop :=
  _folder_cache st !! folder_id f = Some f.

(** The path of a folder extends the path of its cached parent by its
    label; without a parent it is the label. *)
Definition linked (cache : gmap string FolderEntity) (f : FolderEntity) : Prop :=
  match parent_id f with
  | None => path f = label f
  | Some p => exists P, cache !! p = Some P /\ path f = path P ++ "/" ++ label f
  end.

(** A folder in normal form: an identifier that is not empty, a depth
    between 1 and 3 that is the number of segments of its path, a path
    linked to its parent's. *)
Definition folder_wf (cache : gmap string FolderEntity) (f : FolderEntity) : Prop :=
  folder_id f <> "" /\ depth f = segments (path f) /\ (1 <= depth f <= 3)%Z
  /\ linked cache f.

(** The state invariant: every stored vector describes a cached folder
    (identifier, depth and parent), every folder listed at a depth is the
    cached folder of that depth, and every cached folder is in normal form
    under its own identifier. *)
Definition state_wf (st : Matcher) : Prop :=
  (forall k e md, In (k, (e, md)) (vector_store st) ->
     exists f, md_get md "folder_id" = MStr (folder_id f) /\ cached st f
               /\ md_get md "depth" = MInt (depth f)
               /\ md_get md "parent_id" = opt_mval (parent_id f))
  /\ (forall d l f, _folders_by_depth st !! d = Some l -> In f l ->
        cached st f /\ depth f = d)
  /\ (forall s f, _folder_cache st !! s = Some f ->
        s = folder_id f /\ folder_wf (_folder_cache st) f).

(** What a level search may return at depth [dpt] under parent [pid]. *)
Definition found_ok (st : Matcher) (dpt : Z) (pid : option string)
    (f : FolderEntity) : Prop :=
  cached st f /\ depth f = dpt /\ (truthy_id pid = true -> parent_id f = pid).

(** The deepest folder a match resolved: the leaf folder unless the leaf
    level is absent or skipped, else the subdomain folder. *)
Definition final_folder (m : HierarchicalMatch) : option FolderEntity :=
  match leaf_result m with
  | Some lr =>
      match get_folder lr with
      | Some leaf_folder =>
          if negb (action_eqb (action lr) SKIP) then Some leaf_folder
          else get_folder (subdomain_result m)
      | None => get_folder (subdomain_result m)
      end
  | None => get_folder (subdomain_result m)
  end.

(** The shape of a level result: a reuse carries the matched folder only, a
    creation the new folder only (at similarity 0), a skip no folder. *)
Definition result_ok (r : MatchResult) : Prop :=
  match action r with
  | REUSE_EXISTING => (exists f, matched_folder r = Some f) /\ new_folder r = None
  | CREATE_NEW | ATTACH_AS_CHILD =>
      matched_folder r = None /\ (exists f, new_folder r = Some f)
      /\ similarity_score r = 0%R
  | SKIP => matched_folder r = None /\ new_folder r = None
  end.

(** The labels of the candidate hold no path separator. *)
Definition slash_free (c : TaxonomyCandidate) : Prop :=
  no_slash (la_label (domain c)) /\ no_slash (la_label (subdomain c))
  /\ forall leaf, leaf_topic c = Some leaf -> no_slash (la_label leaf).

(** A candidate with a leaf that is not optional. *)
Definition astronomy_leaf : TaxonomyCandidate := {|
  domain := plain "Astronomy"; subdomain := plain "Stars";
  leaf_topic := Some (plain "Red Dwarfs");
  tags := []; confidence := 0.9; rationale := "" |}.

(** ** Loading folders ([FolderMatcher.load_existing_folders],
    [load_folders_from_store]) *)

(** [models.ExistingFolder] *)
Record ExistingFolder := {
  ef_folder_id : string;
  ef_path : string;
  ef_embedding_id : option string;
  ef_embedding : option (list R);
  ef_item_count : Z
}.

(** The entity [load_existing_folders] builds: the depth is the number of
    path segments, the label the last segment; parent, aliases and seed flag
    take their defaults. *)
Definition loaded_entity (folder : ExistingFolder) : FolderEntity := {|
  folder_id := ef_folder_id folder; path := ef_path folder;
  label := last_field (ef_path folder); depth := segments (ef_path folder);
  parent_id := None; aliases := [];
  embedding_id := ef_embedding_id folder; embedding := ef_embedding folder;
  item_count := ef_item_count folder; is_seed := false |}.

Definition load_folder (st : Matcher) (folder : ExistingFolder) : Matcher :=
  let entity := loaded_entity folder in
  {| vector_store := vector_store st;
     _folder_cache := <[ef_folder_id folder := entity]> (_folder_cache st);
     _folders_by_depth :=
       if (depth entity <=? 3)%Z
       then by_depth_append (_folders_by_depth st) (depth entity) entity
       else _folders_by_depth st;
     uuids_drawn := uuids_drawn st |}.

(** [FolderMatcher.load_existing_folders] *)
Definition load_existing_folders (st : Matcher) (folders : list ExistingFolder)
    : Matcher :=
  fold_left load_folder folders st.

(** [metadata.get(k, dflt)] for a field that is a string when present. *)
Definition md_string (metadata : gmap string mval) (k : string) (dflt : string)
    : string :=
  match metadata !! k with
  | Some (MStr s) => s
  | _ => dflt
  end.

(** [metadata.get(k, dflt)] for a field that is an integer when present. *)
Definition md_int (metadata : gmap string mval) (k : string) (dflt : Z) : Z :=
  match metadata !! k with
  | Some (MInt n) => n
  | _ => dflt
  end.

(** The folders [load_folders_from_store] reads off the stored vectors. *)
Definition stored_folder (v : Stored) : option ExistingFolder :=
  let '(vector_id, (embedding, metadata)) := v in
  if mval_eqb (md_get metadata "type") (MStr "folder") then
    Some {| ef_folder_id := md_string metadata "folder_id" vector_id;
            ef_path := md_string metadata "path" "";
            ef_embedding_id := Some vector_id;
            ef_embedding := Some embedding;
            ef_item_count := md_int metadata "item_count" 0 |}
  else None.

(** [FolderMatcher.load_folders_from_store] *)
Definition load_folders_from_store (st : Matcher) : Matcher :=
  load_existing_folders st (omap stored_folder (get_all_vectors (vector_store st))).

(** ** The orchestrator ([auto_folder.AutoFolder]) *)

(** [models.AutoFolderOutput], without its notes and time stamps; the two
    dictionaries are empty in an error output. *)
Record AutoFolderOutput := {
  out_item_id : string;
  final_path : string;
  created_folders : list string;
  reused_folders : list string;
  applied_labels : option (string * string * option string);
  out_tags : list string;
  similarity_scores : option (R * R * R);
  out_confidence : R
}.

(** [AutoFolderOutput.from_hierarchical_match] *)
Definition from_hierarchical_match (id : string) (m : HierarchicalMatch)
    (taxonomy : TaxonomyCandidate) : AutoFolderOutput := {|
  out_item_id := id;
  final_path := get_final_path m;
  created_folders := map path (get_created_folders m);
  reused_folders := map path (get_reused_folders m);
  applied_labels :=
    Some (label_used (domain_result m), label_used (subdomain_result m),
          label_used <$> leaf_result m);
  out_tags := tags taxonomy;
  similarity_scores :=
    Some (similarity_score (domain_result m), similarity_score (subdomain_result m),
          match leaf_result m with Some r => similarity_score r | None => 0%R end);
  out_confidence := confidence taxonomy |}.

(** The output [classify] returns when a step raised. *)
Definition error_output (item : ItemInput) : AutoFolderOutput := {|
  out_item_id := item_id item;
  final_path := "Uncategorized/Error";
  created_folders := []; reused_folders := [];
  applied_labels := Some ("Uncategorized", "Error", None);
  out_tags := []; similarity_scores := None; out_confidence := 0 |}.

(** [models.BatchOutput] *)
Record BatchOutput := {
  results : list AutoFolderOutput;
  total_items : nat;
  successful : nat;
  failed : nat;
  new_folders_created : nat;
  folders_reused : nat
}.

Module AutoFolder.
Section Orchestrator.

Variable embed_content : string -> option (list R).
Variable uuid4 : nat -> string.
Variable thresholds : ThresholdConfig.
Variable py_str : json -> string.
Variable configured : bool.
Variable llm_parsed : ItemInput -> option json.
Variable config : TaxonomyConfig.

(** [AutoFolder._ensure_initialized] : seed the taxonomy when the store
    holds no top-level folder. *)
Definition _ensure_initialized (st : Matcher) : Matcher :=
  let st := load_folders_from_store st in
  if is_nil (default [] (_folders_by_depth st !! 1%Z))
  then (initialize_seed_folders embed_content uuid4 st).2
  else st.

(** [AutoFolder.classify] : the database bookkeeping, whose failures are
    swallowed, is left out. A raised exception yields the error output;
    [match] itself never raises. *)
Definition classify (st : Matcher) (item : ItemInput) : AutoFolderOutput * Matcher :=
  match generate py_str configured llm_parsed config item with
  | None => (error_output item, st)
  | Some taxonomy =>
      match match_ embed_content uuid4 thresholds st taxonomy with
      | None => (error_output item, st)
      | Some (m, st') => (from_hierarchical_match (item_id item) m taxonomy, st')
      end
  end.

(** One round of the loop of [classify_batch]. *)
Definition batch_step (acc : BatchOutput * Matcher) (item : ItemInput)
    : BatchOutput * Matcher :=
  let '(b, st) := acc in
  let '(output, st') := classify st item in
  ({| results := (results b ++ [output])%list;
      total_items := total_items b;
      successful := if Rltb 0 (out_confidence output) then S (successful b)
                    else successful b;
      failed := if Rltb 0 (out_confidence output) then failed b else S (failed b);
      new_folders_created := new_folders_created b + length (created_folders output);
      folders_reused := folders_reused b + length (reused_folders output) |}, st').

(** [AutoFolder.classify_batch] *)
Definition classify_batch (st : Matcher) (items : list ItemInput)
    : BatchOutput * Matcher :=
  fold_left batch_step items
    ({| results := []; total_items := length items; successful := 0; failed := 0;
        new_folders_created := 0; folders_reused := 0 |}, st).

End Orchestrator.
End AutoFolder.

Import AutoFolder.

(** ** Vocabulary of the orchestrator's properties *)

(** The folders [load_existing_folders] files at depth [d]. *)
Definition loaded_at (d : Z) (folders : list ExistingFolder) : list FolderEntity :=
  map loaded_entity (List.filter (fun f => (segments (ef_path f) =? d)%Z) folders).

(** A matcher over a vector store, before anything is loaded. *)
Definition matcher_over (vs : list Stored) : Matcher := {|
  vector_store := vs; _folder_cache := ∅;
  _folders_by_depth := _folders_by_depth new_matcher; uuids_drawn := 0 |}.

(** The number of folders of the seed taxonomy. *)
Definition seed_count (ds : list SeedDomain) : nat :=
  fold_right (fun d n => S (length (sd_subdomains d)) + n) 0 ds.

(** An output names the folder the item was filed under: a cached folder
    of depth 2 or 3 with the final path as its path; or it is the error
    output. *)
Definition output_ok (st : Matcher) (o : AutoFolderOutput) : Prop :=
  (final_path o = "Uncategorized/Error" /\ out_confidence o = 0%R
   /\ created_folders o = [] /\ reused_folders o = [])
  \/ (exists F, cached st F /\ path F = final_path o /\ (2 <= depth F <= 3)%Z
                /\ (0 <= out_confidence o <= 1)%R).

(** The number of folder paths listed by the outputs under [f]. *)
Definition total_of (f : AutoFolderOutput -> list string) (l : list AutoFolderOutput)
    : nat :=
  list_sum (map (fun o => length (f o)) l).

(** The outputs with a positive confidence. *)
Definition confident (l : list AutoFolderOutput) : list AutoFolderOutput :=
  List.filter (fun o => Rltb 0 (out_confidence o)) l.

(** ** Vocabulary of the matcher's frame properties *)

(** Nothing of [st] is lost in [st']: the identifier counter has not gone
    back, every stored vector identifier and every cached folder identifier
    is still there, and every list of folders by depth has only grown at its
    end. *)
Definition extends (st st' : Matcher) : Prop :=
  uuids_drawn st <= uuids_drawn st'
  /\ (forall k, In k (map fst (vector_store st)) -> In k (map fst (vector_store st')))
  /\ (forall k, is_Some (_folder_cache st !! k) -> is_Some (_folder_cache st' !! k))
  /\ (forall d l, _folders_by_depth st !! d = Some l ->
        exists l', _folders_by_depth st' !! d = Some (l ++ l')%list).

(** The folder as [load_folders_from_store] rebuilds it: without its parent
    link and its aliases, at the depth its path tells. *)
Definition reloaded (f : FolderEntity) : FolderEntity := {|
  folder_id := folder_id f; path := path f; label := label f;
  depth := segments (path f); parent_id := None; aliases := [];
  embedding_id := embedding_id f; embedding := embedding f;
  item_count := item_count f; is_seed := false |}.

(** The first folder created in an empty matcher, over a backend that
    answers. *)
Definition astronomy_created : FolderEntity * Matcher :=
  FolderMatcher._create_folder constant_backend sample_uuid4 new_matcher
    "Astronomy" 1 None [].

(** ** The folder tree ([FolderMatcher.get_folder_tree]) *)

(** The three kinds of node of the tree: a leaf has no ['children'] key, a
    domain no ['path'] key. *)
Record LeafNode := {
  ln_id : string; ln_label : string; ln_path : string; ln_item_count : Z
}.

Record SubdomainNode := {
  sn_id : string; sn_label : string; sn_path : string; sn_item_count : Z;
  sn_children : gmap string LeafNode
}.

Record DomainNode := {
  dn_id : string; dn_label : string; dn_item_count : Z;
  dn_children : gmap string SubdomainNode
}.

Definition leaf_node (folder : FolderEntity) : LeafNode := {|
  ln_id := folder_id folder; ln_label := label folder; ln_path := path folder;
  ln_item_count := item_count folder |}.

Definition subdomain_node (folder : FolderEntity) : SubdomainNode := {|
  sn_id := folder_id folder; sn_label := label folder; sn_path := path folder;
  sn_item_count := item_count folder; sn_children := ∅ |}.

Definition domain_node (folder : FolderEntity) : DomainNode := {|
  dn_id := folder_id folder; dn_label := label folder;
  dn_item_count := item_count folder; dn_children := ∅ |}.

(** [node['children'] = children], in place. *)
Definition dn_with_children (node : DomainNode)
    (children : gmap string SubdomainNode) : DomainNode := {|
  dn_id := dn_id node; dn_label := dn_label node;
  dn_item_count := dn_item_count node; dn_children := children |}.

Definition sn_with_children (node : SubdomainNode)
    (children : gmap string LeafNode) : SubdomainNode := {|
  sn_id := sn_id node; sn_label := sn_label node; sn_path := sn_path node;
  sn_item_count := sn_item_count node; sn_children := children |}.

(** ['/'.join(path.split('/')[:-1])] *)
Definition parent_path (p : string) : string :=
  PyStr.join "/" (removelast (PyStr.split_on "/" p)).

(** The body of the loop over the folders of depth 1. *)
Definition tree_add_domain (tree : gmap string DomainNode) (folder : FolderEntity)
    : gmap string DomainNode :=
  <[path folder := domain_node folder]> tree.

(** The body of the loop over the folders of depth 2. *)
Definition tree_add_subdomain (tree : gmap string DomainNode) (folder : FolderEntity)
    : gmap string DomainNode :=
  let parent_path := parent_path (path folder) in
  match tree !! parent_path with
  | Some node =>
      <[parent_path :=
          dn_with_children node
            (<[label folder := subdomain_node folder]> (dn_children node))]> tree
  | None => tree
  end.

(** The body of the loop over the folders of depth 3. *)
Definition tree_add_leaf (tree : gmap string DomainNode) (folder : FolderEntity)
    : gmap string DomainNode :=
  let parts := PyStr.split_on "/" (path folder) in
  if 3 <=? length parts then
    let domain_path := nth 0 parts "" in
    let subdomain_label := nth 1 parts "" in
    match tree !! domain_path with
    | Some node =>
        match dn_children node !! subdomain_label with
        | Some sub =>
            <[domain_path :=
                dn_with_children node
                  (<[subdomain_label :=
                       sn_with_children sub
                         (<[label folder := leaf_node folder]> (sn_children sub))]>
                     (dn_children node))]> tree
        | None => tree
        end
    | None => tree
    end
  else tree.

(** [FolderMatcher.get_folder_tree] *)
Definition get_folder_tree (st : Matcher) : gmap string DomainNode :=
  let tree := fold_left tree_add_domain (default [] (_folders_by_depth st !! 1%Z)) ∅ in
  let tree :=
    fold_left tree_add_subdomain (default [] (_folders_by_depth st !! 2%Z)) tree in
  fold_left tree_add_leaf (default [] (_folders_by_depth st !! 3%Z)) tree.

(** ** Vocabulary of the tree property *)

(** The folders the matcher lists at a depth. *)
Definition listed (st : Matcher) (d : Z) : list FolderEntity :=
  default [] (_folders_by_depth st !! d).

(** The path of the folder has three segments or more, the first is [p] and
    the second [s]. *)
Definition leaf_under (folder : FolderEntity) (p s : string) : Prop :=
  3 <= length (PyStr.split_on "/" (path folder))
  /\ nth 0 (PyStr.split_on "/" (path folder)) "" = p
  /\ nth 1 (PyStr.split_on "/" (path folder)) "" = s.

(** ** The similarity primitive in binary64

    [cosine_similarity] above reads Python's floats as real numbers, which
    is enough wherever scores are only compared with one another. The
    function itself is also given with the arithmetic it runs on: IEEE 754
    binary64, rounding to nearest. [np.dot] accumulates the products from
    left to right, [np.linalg.norm] is the square root of the dot product
    of the vector with itself. *)

Module Binary64.
Import Floats.

Fixpoint dot_from (acc : float) (a b : list float) : float :=
  match a, b with
  | x :: a', y :: b' => dot_from (acc + x * y)%float a' b'
  | _, _ => acc
  end.

(** [np.dot(vec_a, vec_b)] *)
Definition dot_b64 (a b : list float) : float := dot_from 0%float a b.

(** [np.linalg.norm(vec)] *)
Definition norm_b64 (a : list float) : float := PrimFloat.sqrt (dot_b64 a a).

(** [max(0.0, min(1.0, similarity))] : Python's [min] and [max] keep their
    first argument unless a later one is smaller (greater), so a NaN
    becomes 1.0. *)
Definition clamp01_b64 (similarity : float) : float :=
  let m := if (similarity <? 1)%float then similarity else 1%float in
  if (0 <? m)%float then m else 0%float.

(** [EmbeddingService.cosine_similarity] on binary64 vectors; [None] is the
    [ValueError] raised on a dimension mismatch. *)
Definition cosine_similarity_b64 (a b : list float) : option float :=
  if negb (length a =? length b) then None
  else
    let dot_product := dot_b64 a b in
    let norm_a := norm_b64 a in
    let norm_b := norm_b64 b in
    if (norm_a =? 0)%float || (norm_b =? 0)%float then Some 0%float
    else Some (clamp01_b64 (dot_product / (norm_a * norm_b))%float).

(** A float is a zero: [x == 0] in Python ([-0.0] included). *)
Definition is_zero_b64 (x : float) : bool := (x =? 0)%float.

(** The float lies within [0,1]. *)
Definition unit_b64 (x : float) : Prop :=
  (0 <=? x)%float = true /\ (x <=? 1)%float = true.

(** The float lies strictly between 0 and 1. *)
Definition inside_b64 (x : float) : Prop :=
  (0 <? x)%float = true /\ (x <? 1)%float = true.

(** A vector with one component, 2^-600: not zero, but its square is below
    the smallest binary64 number. *)
Definition tiny_vector : list float := [0x1p-600%float].

End Binary64.

Import Binary64.

(** ** The sanity check as specified

    The notions the specification of the sanity check is worded in, written
    without the functions of the code. *)

(** [needle] occurs in [hay]. *)
Definition substring (needle hay : string) : Prop :=
  exists pre post, hay = pre ++ needle ++ post.

(** The text is empty or starts with a character outside [p]. *)
Definition starts_outside (p : ascii -> bool) (s : string) : bool :=
  match s with
  | EmptyString => true
  | String c _ => negb (p c)
  end.

(** The text is empty or ends with a character outside [p]. *)
Fixpoint ends_outside (p : ascii -> bool) (s : string) : bool :=
  match s with
  | EmptyString => true
  | String c s' => if PyStr.is_empty s' then negb (p c) else ends_outside p s'
  end.

(** [w] is a maximal run of [p] characters of [s]: it is not empty, made of
    [p] characters, and stands in [s] between two texts that do not extend
    it. *)
Definition maximal_run (p : ascii -> bool) (s w : string) : Prop :=
  w <> "" /\ all_chars p w = true
  /\ exists pre post, s = pre ++ w ++ post
       /\ ends_outside p pre = true /\ starts_outside p post = true.

(** The small stop-word set. *)
Definition ignored_words : list string :=
  ["the"; "a"; "an"; "and"; "or"; "but"; "in"; "on"; "at"; "to"; "for"; "of";
   "with"; "by"].

(** [w] is a keyword of [text]: a word token of the lower-cased text, longer
    than two characters, outside the stop words. *)
Definition keyword_of (text w : string) : Prop :=
  maximal_run PyStr.is_word (PyStr.lower text) w
  /\ 2 < String.length w /\ ~ In w ignored_words.

(** Size of the intersection over size of the union; 0 when a set is
    empty. *)
Definition overlap_ratio (ka kb : gset string) : R :=
  if decide (ka = ∅ \/ kb = ∅) then 0%R
  else (INR (size (ka ∩ kb)) / INR (size (ka ∪ kb)))%R.

(** The fixed cross-domain confusion pairs. *)
Definition cross_domain_pairs : list (string * string) :=
  [("cooking", "computer"); ("health", "computer"); ("finance", "fitness");
   ("travel", "technology")].

(** The two labels, read without case, substring-match opposite sides of a
    confusion pair. *)
Definition opposite_sides (a b : string) : Prop :=
  exists x y, In (x, y) cross_domain_pairs
    /\ ((substring x (PyStr.lower a) /\ substring y (PyStr.lower b))
        \/ (substring y (PyStr.lower a) /\ substring x (PyStr.lower b))).

(** An embedding the binary64 arithmetic of the similarity handles without
    underflow or overflow: at most 4096 components, each zero or of a
    magnitude between 2^-100 and 2^100. For such a vector the similarity to
    itself, 1 in exact arithmetic, is computed with an error far below
    0.001. *)
Definition moderate (v : list R) : Prop :=
  length v <= 4096
  /\ Forall (fun x => x = 0%R \/ (/ 2 ^ 100 <= Rabs x <= 2 ^ 100)%R) v.

(** ** Vocabulary of the batch trace *)

Section BatchTrace.

Variable embed_content : string -> option (list R).
Variable uuid4 : nat -> string.
Variable thresholds : ThresholdConfig.
Variable py_str : json -> string.
Variable configured : bool.
Variable llm_parsed : ItemInput -> option json.
Variable config : TaxonomyConfig.

(** One item is classified from state [st] with output [o] and final state
    [st']: the output is built from the match, in [st], of the candidate
    generated for the item, and [st'] is the state that match leaves; or
    [generate] raises, the output is the error output and the state is
    untouched. *)
Definition classified (st : Matcher) (item : ItemInput) (o : AutoFolderOutput)
    (st' : Matcher) : Prop :=
  match TaxonomyGenerator.generate py_str configured llm_parsed config item with
  | Some taxonomy =>
      exists m, FolderMatcher.match_ embed_content uuid4 thresholds st taxonomy
                = Some (m, st')
                /\ o = from_hierarchical_match (item_id item) m taxonomy
  | None => o = error_output item /\ st' = st
  end.

(** The items are classified one after the other, each from the state the
    previous one left, with outputs [outs] in order and final state [st']. *)
Fixpoint batch_trace (st : Matcher) (items : list ItemInput)
    (outs : list AutoFolderOutput) (st' : Matcher) : Prop :=
  match items, outs with
  | [], [] => st' = st
  | item :: items', o :: outs' =>
      exists st1, classified st item o st1 /\ batch_trace st1 items' outs' st'
  | _, _ => False
  end.

End BatchTrace.

(** * Properties *)

#[local] Arguments String.append !s1 s2 : simpl nomatch.

(** ** Real-valued comparisons *)

Lemma Rltb_true x y : Rltb x y = true <-> (x < y)%R.
Proof. unfold Rltb. destruct (Rlt_dec x y); split; intros; try done. Qed.

Lemma Rltb_false x y : Rltb x y = false <-> (y <= x)%R.
Proof.
  unfold Rltb. destruct (Rlt_dec x y); split; intros; try done; lra.
Qed.

Lemma Reqb_true x y : Reqb x y = true <-> x = y.
Proof. unfold Reqb. destruct (Req_dec_T x y); split; intros; try done. Qed.

Lemma Reqb_false x y : Reqb x y = false <-> x <> y.
Proof. unfold Reqb. destruct (Req_dec_T x y); split; intros; try done. Qed.

(** ** Sanity check *)

Lemma filter_all_false {A} (p : A -> bool) (l : list A) :
  Forall (fun x => p x = false) l -> List.filter p l = [].
Proof.
  induction 1 as [|x l Hx _ IH]; simpl; [done|]. by rewrite Hx.
Qed.

Lemma no_keyword_empty text : no_keyword text -> _extract_keywords text = ∅.
Proof.
  intros H. unfold _extract_keywords. by rewrite (filter_all_false _ _ H).
Qed.

Lemma keyword_overlap_empty a b :
  _extract_keywords a = ∅ \/ _extract_keywords b = ∅ -> _keyword_overlap a b = 0%R.
Proof.
  intros H. unfold _keyword_overlap.
  destruct H as [-> | ->]; simpl; [done|].
  by rewrite orb_true_r.
Qed.

Lemma keyword_overlap_disjoint a b :
  _extract_keywords a ∩ _extract_keywords b = ∅ -> _keyword_overlap a b = 0%R.
Proof.
  intros H. unfold _keyword_overlap. rewrite H.
  repeat case_match; try done.
  rewrite size_empty. simpl. lra.
Qed.

Lemma sanity_check_high th a b sim : (0.95 < sim)%R -> _sanity_check th a b sim = true.
Proof. intros H. unfold _sanity_check. by rewrite (proj2 (Rltb_true _ _) H). Qed.

Lemma sanity_check_suspicious th a b sim :
  (sim <= 0.95)%R -> (0.85 < sim)%R ->
  (_keyword_overlap a b < min_keyword_overlap th)%R ->
  _sanity_check th a b sim = false.
Proof.
  intros H1 H2 H3. unfold _sanity_check.
  rewrite (proj2 (Rltb_false _ _) H1).
  by rewrite (proj2 (Rltb_true _ _) H2), (proj2 (Rltb_true _ _) H3).
Qed.

Lemma sanity_check_low th a b sim :
  (sim <= 0.95)%R ->
  ~ ((0.85 < sim)%R /\ (_keyword_overlap a b < min_keyword_overlap th)%R) ->
  _sanity_check th a b sim = negb (confused a b).
Proof.
  intros H1 H2. unfold _sanity_check.
  rewrite (proj2 (Rltb_false _ _) H1).
  destruct (Rltb 0.85 sim) eqn:E1; simpl.
  - destruct (Rltb (_keyword_overlap a b) (min_keyword_overlap th)) eqn:E2.
    + exfalso. apply H2. split; by apply Rltb_true.
    + by destruct (confused a b).
  - by destruct (confused a b).
Qed.

(** C9. A text without keywords has overlap 0.0 with every text, so for a
    positive configured minimum the sanity check rejects every pair with
    similarity in (0.85, 0.95] in which a text has no keyword, identical
    labels included. *)
Theorem keyword_overlap_without_keywords (th : ThresholdConfig) (a b : string) (sim : R) :
  no_keyword a \/ no_keyword b ->
  _keyword_overlap a b = 0%R
  /\ ((0 < min_keyword_overlap th)%R -> (0.85 < sim)%R -> (sim <= 0.95)%R ->
      _sanity_check th a b sim = false).
Proof.
  intros H.
  assert (Ho : _keyword_overlap a b = 0%R).
  { apply keyword_overlap_empty. destruct H as [H | H]; [left | right];
      by apply no_keyword_empty. }
  split; [done|]. intros Hm H1 H2.
  apply sanity_check_suspicious; lra.
Qed.

(** The label "AI" compared with itself at similarity 0.90 is rejected. *)
Lemma keyword_overlap_without_keywords_witness :
  _keyword_overlap "AI" "AI" = 0%R
  /\ _sanity_check default_thresholds "AI" "AI" 0.90 = false.
Proof.
  assert (H : no_keyword "AI" \/ no_keyword "AI").
  { left. unfold no_keyword. vm_compute. repeat constructor. }
  destruct (keyword_overlap_without_keywords default_thresholds "AI" "AI" 0.90 H)
    as [H0 H1].
  split; [exact H0|]. apply H1; simpl; lra.
Defined.

(** ** Label cleaning *)

Lemma append_nil_r (s : string) : s ++ "" = s.
Proof. induction s as [|c s IH]; simpl; [done|]. by rewrite IH. Qed.

Lemma append_assoc' (a b c : string) : (a ++ b) ++ c = a ++ (b ++ c).
Proof. induction a as [|x a IH]; simpl; [done|]. by rewrite IH. Qed.

Lemma all_chars_app p a b :
  all_chars p (a ++ b) = all_chars p a && all_chars p b.
Proof.
  induction a as [|x a IH]; simpl; [done|]. rewrite IH. by rewrite andb_assoc.
Qed.

Lemma runs_app p w rest cur :
  all_chars p w = true -> PyStr.runs p (w ++ rest) cur = PyStr.runs p rest (cur ++ w).
Proof.
  revert cur. induction w as [|c w IH]; intros cur H.
  - simpl. by rewrite append_nil_r.
  - simpl in H. apply andb_true_iff in H as [Hc Hw]. simpl. rewrite Hc.
    rewrite IH by done. f_equal. by rewrite append_assoc'.
Qed.

Lemma runs_fields_ok p s cur :
  all_chars p cur = true -> Forall (field_ok p) (PyStr.runs p s cur).
Proof.
  revert cur. induction s as [|c s IH]; intros cur H; simpl.
  - unfold PyStr.flush. destruct cur; simpl; [constructor|].
    constructor; [|constructor]. by split.
  - destruct (p c) eqn:Hc.
    + apply IH. rewrite all_chars_app, H. simpl. by rewrite Hc.
    + apply Forall_app. split; [|by apply IH].
      unfold PyStr.flush. destruct cur; simpl; [constructor|].
      constructor; [|constructor]. by split.
Qed.

Lemma runs_join p sep ws :
  p sep = false -> Forall (field_ok p) ws ->
  PyStr.runs p (PyStr.join (String sep "") ws) "" = ws.
Proof.
  intros Hsep. induction 1 as [|w ws [Hne Hw] Hws IH]; [done|].
  unfold PyStr.join in *. simpl. destruct ws as [|w' ws].
  - rewrite <- (append_nil_r w) at 1. rewrite runs_app by done. simpl.
    unfold PyStr.flush. by destruct w.
  - rewrite runs_app by done. simpl. rewrite Hsep.
    unfold PyStr.flush. destruct w; [done|]. simpl. f_equal. apply IH.
Qed.

(** Collapsing the whitespace does not change the words. *)
Lemma split_join_split (s : string) :
  PyStr.split (PyStr.join " " (PyStr.split s)) = PyStr.split s.
Proof.
  unfold PyStr.split at 1. apply runs_join; [done|].
  by apply runs_fields_ok.
Qed.

Lemma cased_upper c :
  PyStr.is_cased c = true ->
  label_char (PyStr.upper_char c) = true /\ PyStr.is_space (PyStr.upper_char c) = false.
Proof.
  destruct c as [[] [] [] [] [] [] [] []]; vm_compute; intros; (done || by split).
Qed.

Lemma lower_char_cased c :
  PyStr.is_lower (PyStr.lower_char c) = true -> PyStr.is_cased c = true.
Proof.
  unfold PyStr.lower_char, PyStr.is_cased.
  destruct (PyStr.is_upper c); [done|]. intros ->. by rewrite orb_true_r.
Qed.

Lemma forbidden_lower_head (s : string) :
  s ∈ FORBIDDEN_LABEL_WORDS -> lower_head s = true.
Proof.
  unfold FORBIDDEN_LABEL_WORDS. rewrite elem_of_list_to_set.
  repeat (rewrite elem_of_cons; intros [-> | H]; [done|]; revert H).
  by rewrite elem_of_nil.
Qed.

Lemma forbidden_cased_head (w : string) :
  is_forbidden w = true -> exists c w', w = String c w' /\ PyStr.is_cased c = true.
Proof.
  unfold is_forbidden. intros H. apply bool_decide_eq_true_1 in H.
  apply forbidden_lower_head in H. destruct w as [|c w']; [done|].
  exists c, w'. split; [done|]. simpl in H. by apply lower_char_cased.
Qed.

Lemma join_head sep c w ws :
  exists rest, PyStr.join sep (String c w :: ws) = String c rest.
Proof.
  unfold PyStr.join. simpl. destruct ws; eauto.
Qed.

Lemma finish_label_cased_head c w ws :
  PyStr.is_cased c = true -> finish_label (String c w :: ws) <> "".
Proof.
  intros Hc. unfold finish_label.
  destruct (join_head " " c w ws) as [rest ->].
  unfold PyStr.title. simpl. rewrite Hc.
  destruct (cased_upper c Hc) as [Hl Hs]. simpl. rewrite Hl.
  unfold PyStr.strip. simpl. rewrite Hs. simpl. rewrite Hs.
  by rewrite andb_false_r.
Qed.

Lemma limit_words_head (k : Z) (w : string) (ws : list string) :
  (1 <= k)%Z -> exists ws', limit_words k (w :: ws) = w :: ws'.
Proof.
  intros Hk. unfold limit_words. case_match; [|eauto].
  unfold PyStr.slice_to. case_match; [|lia].
  destruct (Z.to_nat k) eqn:E; [lia|]. simpl. eauto.
Qed.

Lemma filter_all_forbidden (words : list string) :
  Forall (fun w => is_forbidden w = true) words ->
  List.filter (fun w => negb (is_forbidden w)) words = [].
Proof.
  intros H. apply filter_all_false. eapply Forall_impl; [exact H|].
  simpl. by intros w ->.
Qed.

(** C10. When every word of a label is forbidden, the cleaning keeps the
    original words: the cleaned label is the words, truncated to
    [max_words], joined, title-cased and stripped of punctuation; it is not
    empty when [max_words] is at least 1; and "video" is cleaned to
    "Video". *)
Theorem clean_label_all_forbidden (lbl : string) (max_words : Z) :
  PyStr.split lbl <> [] ->
  Forall (fun w => is_forbidden w = true) (PyStr.split lbl) ->
  _clean_label lbl max_words = finish_label (limit_words max_words (PyStr.split lbl))
  /\ ((1 <= max_words)%Z -> _clean_label lbl max_words <> "")
  /\ _clean_label "video" 4 = "Video".
Proof.
  intros Hne Hall.
  assert (E : _clean_label lbl max_words
              = finish_label (limit_words max_words (PyStr.split lbl))).
  { unfold _clean_label. destruct lbl as [|c lbl]; [done|].
    cbn [PyStr.is_empty]. rewrite split_join_split.
    rewrite filter_all_forbidden by done. done. }
  split; [done|]. split; [|by vm_compute].
  intros Hk. rewrite E.
  destruct (PyStr.split lbl) as [|w ws]; [done|].
  apply Forall_cons in Hall as [Hw _].
  destruct (forbidden_cased_head w Hw) as (c & w' & -> & Hc).
  destruct (limit_words_head max_words (String c w') ws Hk) as [ws' ->].
  by apply finish_label_cased_head.
Qed.

(** The label "Saved Video" consists of forbidden words only and is kept. *)
Lemma clean_label_all_forbidden_witness :
  _clean_label "Saved  Video" 4 = "Saved Video".
Proof.
  assert (H1 : PyStr.split "Saved  Video" <> []) by (by vm_compute).
  assert (H2 : Forall (fun w => is_forbidden w = true) (PyStr.split "Saved  Video")).
  { vm_compute. repeat constructor. }
  destruct (clean_label_all_forbidden "Saved  Video" 4 H1 H2) as [E _].
  rewrite E. by vm_compute.
Defined.

(** ** Similarity primitive *)

Lemma dot_self_nonneg (a : list R) : (0 <= dot a a)%R.
Proof.
  induction a as [|x a IH]; simpl; [lra|].
  pose proof (Rle_0_sqr x) as Hx. unfold Rsqr in Hx. lra.
Qed.

Lemma dot_self_pos (a : list R) : Exists (fun x => x <> 0%R) a -> (0 < dot a a)%R.
Proof.
  induction 1 as [x a Hx | x a _ IH]; simpl.
  - pose proof (dot_self_nonneg a). pose proof (Rsqr_pos_lt x Hx) as H1.
    unfold Rsqr in H1. lra.
  - pose proof (Rle_0_sqr x) as Hx. unfold Rsqr in Hx. lra.
Qed.

Lemma dot_zeros (n : nat) : dot (List.repeat 0%R n) (List.repeat 0%R n) = 0%R.
Proof. induction n as [|n IH]; simpl; [done|]. rewrite IH. lra. Qed.

Lemma norm_zeros (n : nat) : norm (List.repeat 0%R n) = 0%R.
Proof. unfold norm. rewrite dot_zeros. apply sqrt_0. Qed.

Lemma norm_pos (a : list R) : Exists (fun x => x <> 0%R) a -> (0 < norm a)%R.
Proof. intros H. unfold norm. apply sqrt_lt_R0. by apply dot_self_pos. Qed.

Lemma clamp01_range (x : R) : (0 <= clamp01 x <= 1)%R.
Proof.
  unfold clamp01. split; [apply Rmax_l|].
  apply Rmax_lub; [lra | apply Rmin_l].
Qed.

Lemma clamp01_one : clamp01 1 = 1%R.
Proof.
  unfold clamp01. rewrite Rmin_left by lra. rewrite Rmax_right by lra. done.
Qed.

Lemma cosine_similarity_mismatch (a b : list R) :
  cosine_similarity a b = None <-> length a <> length b.
Proof.
  unfold cosine_similarity. destruct (length a =? length b) eqn:E; simpl.
  - apply Nat.eqb_eq in E. split; [|done]. by case_match.
  - apply Nat.eqb_neq in E. done.
Qed.

(** In exact arithmetic the similarity of a non-zero vector with itself is
    1, so a vector store never ranks a folder above its own label. *)
Lemma cosine_similarity_self (a : list R) :
  Exists (fun x => x <> 0%R) a -> cosine_similarity a a = Some 1%R.
Proof.
  intros H. pose proof (norm_pos a H) as Hn.
  unfold cosine_similarity. rewrite Nat.eqb_refl. simpl.
  rewrite (proj2 (Reqb_false _ _)) by lra. simpl. f_equal.
  replace (dot a a / (norm a * norm a))%R with 1%R; [apply clamp01_one|].
  unfold norm in *. rewrite sqrt_sqrt by apply dot_self_nonneg.
  pose proof (dot_self_pos a H). field. lra.
Qed.

Lemma cosine_similarity_nonzero (a b : list R) :
  length a = length b -> norm a <> 0%R -> norm b <> 0%R ->
  cosine_similarity a b = Some (Rmax 0 (Rmin 1 (dot a b / (norm a * norm b)))).
Proof.
  intros Hl Ha Hb. unfold cosine_similarity.
  rewrite (proj2 (Nat.eqb_eq _ _) Hl). simpl.
  by rewrite (proj2 (Reqb_false _ _) Ha), (proj2 (Reqb_false _ _) Hb).
Qed.

Lemma cosine_similarity_range (a b : list R) (s : R) :
  cosine_similarity a b = Some s -> (0 <= s <= 1)%R.
Proof.
  unfold cosine_similarity.
  repeat case_match; intros [= <-]; [lra | apply clamp01_range].
Qed.

(** ** Vector index *)

Lemma md_matches_exact (flt md : gmap string mval) :
  md_matches (Some flt) md = true
  <-> forall k v, flt !! k = Some v -> mval_eqb (md_get md k) v = true.
Proof.
  unfold md_matches. case_bool_decide as He.
  - subst flt. split; [|done]. intros _ k v. by rewrite lookup_empty.
  - rewrite forallb_forall. split.
    + intros H k v Hk. apply (H (k, v)).
      apply list_elem_of_In. by apply elem_of_map_to_list.
    + intros H [k v] Hin. apply list_elem_of_In in Hin.
      apply elem_of_map_to_list in Hin. by apply H.
Qed.

Lemma scan_filter_then_score vs q flt :
  scan vs q flt
  = omap (score_vector q) (List.filter (fun v => md_matches flt v.2.2) vs).
Proof.
  induction vs as [|[vid [emb md]] vs IH]; simpl; [done|].
  destruct (md_matches flt md); simpl; [|done].
  unfold score_vector at 1. simpl.
  destruct (cosine_similarity q emb); simpl; by rewrite IH.
Qed.

Lemma insert_desc_perm x l : Permutation (insert_desc x l) (x :: l).
Proof.
  induction l as [|y l IH]; simpl; [done|].
  case_match; [|done]. rewrite IH. apply perm_swap.
Qed.

Lemma sort_desc_perm l : Permutation (sort_desc l) l.
Proof.
  induction l as [|x l IH]; simpl; [done|].
  rewrite insert_desc_perm. by constructor.
Qed.

Lemma insert_desc_sorted x l :
  StronglySorted by_score_desc l -> StronglySorted by_score_desc (insert_desc x l).
Proof.
  induction 1 as [|y l Hs IH Hy]; simpl.
  - repeat constructor.
  - destruct (Rltb (hit_score x) (hit_score y)) eqn:E.
    + apply Rltb_true in E. constructor; [done|].
      eapply Permutation_Forall; [symmetry; apply insert_desc_perm|].
      constructor; [|done]. unfold by_score_desc. lra.
    + apply Rltb_false in E. constructor; [by constructor|].
      constructor; [done|].
      eapply Forall_impl; [exact Hy|]. unfold by_score_desc. simpl.
      intros z Hz. lra.
Qed.

Lemma sort_desc_sorted l : StronglySorted by_score_desc (sort_desc l).
Proof.
  induction l as [|x l IH]; simpl; [constructor|]. by apply insert_desc_sorted.
Qed.

Lemma insert_desc_stable s x l :
  with_score s (insert_desc x l) = with_score s (x :: l).
Proof.
  induction l as [|y l IH]; [done|].
  cbn [insert_desc]. destruct (Rltb (hit_score x) (hit_score y)) eqn:E; [|done].
  apply Rltb_true in E. unfold with_score in *. cbn [List.filter] in *.
  rewrite IH.
  destruct (Reqb (hit_score x) s) eqn:Ex, (Reqb (hit_score y) s) eqn:Ey; try done.
  apply Reqb_true in Ex, Ey. lra.
Qed.

(** The sort is stable: hits of equal score keep their order. *)
Lemma sort_desc_stable s l : with_score s (sort_desc l) = with_score s l.
Proof.
  induction l as [|x l IH]; [done|].
  cbn [sort_desc]. rewrite insert_desc_stable.
  unfold with_score in *. cbn [List.filter]. by rewrite IH.
Qed.

Lemma slice_to_nonneg {A} (k : Z) (l : list A) :
  (0 <= k)%Z -> PyStr.slice_to k l = firstn (Z.to_nat k) l.
Proof. intros H. unfold PyStr.slice_to. by rewrite (proj2 (Z.leb_le _ _) H). Qed.

(** C8. [search] keeps the stored vectors whose metadata equals the filter
    on every filter key, scores the kept vectors only, and returns the first
    [top_k] of them in descending score order, vectors of equal score in
    insertion order: the result is a prefix of a score-sorted, stable
    rearrangement of the scored vectors. *)
Theorem search_spec (vs : list Stored) (q : list R) (top_k : Z)
    (flt : option (gmap string mval)) :
  (0 <= top_k)%Z ->
  let kept := List.filter (fun v => md_matches flt v.2.2) vs in
  let scored := omap (score_vector q) kept in
  let res := search vs q top_k flt in
  (forall f md, md_matches (Some f) md = true
                <-> forall k v, f !! k = Some v -> mval_eqb (md_get md k) v = true)
  /\ length res = Nat.min (Z.to_nat top_k) (length scored)
  /\ (Z.of_nat (length res) <= top_k)%Z
  /\ exists rest,
       Permutation (res ++ rest) scored
       /\ StronglySorted by_score_desc (res ++ rest)
       /\ forall s, with_score s (res ++ rest) = with_score s scored.
Proof.
  intros Hk kept scored res.
  assert (Hres : res = firstn (Z.to_nat top_k) (sort_desc scored)).
  { unfold res, search. rewrite slice_to_nonneg by done.
    by rewrite scan_filter_then_score. }
  assert (Hlen : length res = Nat.min (Z.to_nat top_k) (length scored)).
  { rewrite Hres, length_firstn. f_equal.
    apply Permutation_length, sort_desc_perm. }
  split; [apply md_matches_exact|]. split; [done|]. split; [lia|].
  exists (skipn (Z.to_nat top_k) (sort_desc scored)).
  rewrite Hres, firstn_skipn.
  split; [apply sort_desc_perm|]. split; [apply sort_desc_sorted|].
  intros s. apply sort_desc_stable.
Qed.

(** ** The matcher: level search and the three levels *)

Section MatcherProps.

Variable embed_content : string -> option (list R).
Variable uuid4 : nat -> string.
Variable thresholds : ThresholdConfig.

Local Abbreviation generate_embedding := (FolderMatcher.generate_embedding embed_content).
Local Abbreviation _find_best_match := (FolderMatcher._find_best_match embed_content uuid4 thresholds).
Local Abbreviation _create_folder := (FolderMatcher._create_folder embed_content uuid4).
Local Abbreviation match_domain := (FolderMatcher.match_domain embed_content uuid4 thresholds).
Local Abbreviation match_subdomain := (FolderMatcher.match_subdomain embed_content uuid4 thresholds).
Local Abbreviation match_leaf := (FolderMatcher.match_leaf embed_content uuid4 thresholds).
Local Abbreviation match_ := (FolderMatcher.match_ embed_content uuid4 thresholds).

Lemma same_folders_refl st : same_folders st st.
Proof. by repeat split. Qed.

Lemma find_best_match_same_folders st text dpt pid thr :
  same_folders st (_find_best_match st text dpt pid thr).2.
Proof.
  unfold FolderMatcher._find_best_match.
  destruct (generate_embedding text); [|apply same_folders_refl].
  destruct (walk _ _ _ _ _ _ _ _) as [[? ?] ?]. simpl. by repeat split.
Qed.

(** A failed embedding of the search text is swallowed: no match, score 0,
    state untouched. *)
Lemma find_best_match_embedding_failure st text dpt pid thr :
  generate_embedding text = None ->
  _find_best_match st text dpt pid thr = ((None, 0%R), st).
Proof. intros H. unfold FolderMatcher._find_best_match. by rewrite H. Qed.

(** C5. For an optional leaf the leaf level never creates a folder: its
    action is REUSE_EXISTING or SKIP and the folders of the state are
    unchanged; with a confidence below [leaf_confidence_threshold] the result
    is SKIP and the state is untouched. *)
Theorem match_leaf_optional (st : Matcher) (c : TaxonomyCandidate)
    (sr : MatchResult) (leaf : LabelWithAliases) :
  leaf_topic c = Some leaf -> la_optional leaf = true ->
  (forall r, (match_leaf st c sr).1 = Some r ->
             action r <> CREATE_NEW /\ action r <> ATTACH_AS_CHILD
             /\ new_folder r = None)
  /\ same_folders st (match_leaf st c sr).2
  /\ ((confidence c < leaf_confidence_threshold thresholds)%R ->
      match_leaf st c sr = (Some (skip_leaf leaf), st)
      /\ action (skip_leaf leaf) = SKIP).
Proof.
  intros Hl Ho. unfold FolderMatcher.match_leaf. rewrite Hl, Ho. simpl.
  destruct (Rltb (confidence c) (leaf_confidence_threshold thresholds)) eqn:Hc.
  - simpl. split; [|split; [apply same_folders_refl | done]].
    intros r [= <-]. by simpl.
  - split; [|split].
    + destruct (get_folder sr) as [sf|]; [|done].
      destruct (_find_best_match _ _ _ _ _) as [[[f|] s] st1];
        [|case_match]; simpl; intros r [= <-]; by simpl.
    + destruct (get_folder sr) as [sf|]; [|apply same_folders_refl].
      pose proof (find_best_match_same_folders st
                    (path sf ++ " > " ++ la_label leaf) 3 (Some (folder_id sf))
                    (leaf_threshold thresholds)) as Hs.
      destruct (_find_best_match _ _ _ _ _) as [[[f|] s] st1];
        [|case_match]; simpl in *; done.
    + intros Hlt. apply Rltb_true in Hlt. congruence.
Qed.

Lemma match_domain_embedding_failure st c :
  generate_embedding (la_label (domain c)) = None ->
  exists nf st',
    match_domain st c =
      ({| level := DOMAIN; action := CREATE_NEW; matched_folder := None;
          new_folder := Some nf; similarity_score := 0;
          label_used := la_label (domain c) |}, st')
    /\ path nf = la_label (domain c) /\ label nf = la_label (domain c)
    /\ depth nf = 1%Z /\ _folder_cache st' !! folder_id nf = Some nf.
Proof.
  intros H. unfold FolderMatcher.match_domain.
  rewrite find_best_match_embedding_failure by done.
  unfold FolderMatcher._create_folder, FolderMatcher.store_folder.
  destruct (generate_embedding (PyStr.replace_char _ _ _)) eqn:E; simpl;
    eexists _, _; (split; [reflexivity|]); simpl; repeat split; try done;
    try apply lookup_insert_eq.
Qed.

Lemma match_subdomain_embedding_failure st c dr D :
  get_folder dr = Some D ->
  generate_embedding (label D ++ " > " ++ la_label (subdomain c)) = None ->
  exists nf st',
    match_subdomain st c dr =
      Some ({| level := SUBDOMAIN; action := ATTACH_AS_CHILD; matched_folder := None;
               new_folder := Some nf; similarity_score := 0;
               label_used := la_label (subdomain c) |}, st')
    /\ path nf = path D ++ "/" ++ la_label (subdomain c)
    /\ parent_id nf = Some (folder_id D) /\ depth nf = 2%Z.
Proof.
  intros HD H. unfold FolderMatcher.match_subdomain. rewrite HD.
  rewrite find_best_match_embedding_failure by done.
  destruct (_find_best_match st (la_label (subdomain c)) 2 None _) as [probe st2].
  unfold FolderMatcher._create_folder, FolderMatcher.store_folder.
  destruct (generate_embedding (PyStr.replace_char _ _ _)) eqn:E; simpl;
    eexists _, _; (split; [reflexivity|]); simpl; by repeat split.
Qed.

Lemma match_leaf_embedding_failure st c sr Sf leaf :
  leaf_topic c = Some leaf -> get_folder sr = Some Sf ->
  generate_embedding (path Sf ++ " > " ++ la_label leaf) = None ->
  (la_optional leaf = true \/ (max_depth thresholds <= depth Sf)%Z ->
   match_leaf st c sr = (Some (skip_leaf leaf), st))
  /\ (la_optional leaf = false -> (depth Sf < max_depth thresholds)%Z ->
      exists nf st',
        match_leaf st c sr =
          (Some {| level := LEAF; action := ATTACH_AS_CHILD; matched_folder := None;
                   new_folder := Some nf; similarity_score := 0;
                   label_used := la_label leaf |}, st')
        /\ path nf = path Sf ++ "/" ++ la_label leaf
        /\ parent_id nf = Some (folder_id Sf) /\ depth nf = 3%Z).
Proof.
  intros Hl HS H. unfold FolderMatcher.match_leaf. rewrite Hl, HS.
  rewrite find_best_match_embedding_failure by done. split.
  - intros Hc. destruct (la_optional leaf) eqn:Ho; simpl.
    + by repeat case_match.
    + destruct Hc as [|Hc]; [done|].
      apply Z.leb_le in Hc. by rewrite Hc.
  - intros Ho Hd. rewrite Ho. simpl.
    apply Z.leb_gt in Hd. rewrite Hd.
    unfold FolderMatcher._create_folder, FolderMatcher.store_folder.
    destruct (generate_embedding (PyStr.replace_char _ _ _)) eqn:E; simpl;
      eexists _, _; (split; [reflexivity|]); simpl; by repeat split.
Qed.

Lemma match_domain_has_folder st c :
  exists f, get_folder (match_domain st c).1 = Some f.
Proof.
  unfold FolderMatcher.match_domain.
  destruct (_find_best_match _ _ _ _ _) as [[[f|] s] st1]; simpl; [by eexists|].
  destruct (_create_folder _ _ _ _ _) as [nf st2]. simpl. by eexists.
Qed.

Lemma match_subdomain_has_folder st c dr :
  (exists f, get_folder dr = Some f) ->
  exists sr st', match_subdomain st c dr = Some (sr, st')
                 /\ exists f, get_folder sr = Some f.
Proof.
  intros [D HD]. unfold FolderMatcher.match_subdomain. rewrite HD.
  destruct (_find_best_match _ _ _ _ _) as [[[f|] s] st1]; simpl.
  - eexists _, _. split; [reflexivity|]. by eexists.
  - destruct (_find_best_match _ _ _ _ _) as [probe st2].
    destruct (_create_folder _ _ _ _ _) as [nf st3].
    eexists _, _. split; [reflexivity|]. by eexists.
Qed.

(** [match] never raises: the domain level always resolves a folder, so the
    subdomain level never misses its parent. *)
Lemma match_total st c :
  exists m st', match_ st c = Some (m, st')
    /\ (exists f, get_folder (domain_result m) = Some f)
    /\ (exists f, get_folder (subdomain_result m) = Some f).
Proof.
  unfold FolderMatcher.match_.
  pose proof (match_domain_has_folder st c) as Hd.
  destruct (match_domain st c) as [dr st1]. simpl in Hd.
  destruct (match_subdomain_has_folder st1 c dr Hd) as (sr & st2 & -> & Hs).
  destruct (match_leaf st2 c sr) as [lr st3].
  eexists _, _. split; [reflexivity|]. by split.
Qed.

(** C1 (as the code has it). An embedding failure at a match level is
    swallowed by the level search and counts as "no match"; the
    classification is never aborted. The domain level then creates a depth-1
    folder (CREATE_NEW), the subdomain level attaches a depth-2 child
    (ATTACH_AS_CHILD), the leaf level yields SKIP for an optional leaf or a
    subdomain at the maximal depth and attaches a depth-3 child otherwise; and
    [match] always returns a result with a resolved domain and subdomain. *)
Theorem embedding_failure_is_no_match (st : Matcher) (c : TaxonomyCandidate) :
  (generate_embedding (la_label (domain c)) = None ->
   exists nf st',
     match_domain st c =
       ({| level := DOMAIN; action := CREATE_NEW; matched_folder := None;
           new_folder := Some nf; similarity_score := 0;
           label_used := la_label (domain c) |}, st')
     /\ path nf = la_label (domain c) /\ depth nf = 1%Z)
  /\ (forall dr D,
        get_folder dr = Some D ->
        generate_embedding (label D ++ " > " ++ la_label (subdomain c)) = None ->
        exists nf st',
          match_subdomain st c dr =
            Some ({| level := SUBDOMAIN; action := ATTACH_AS_CHILD;
                     matched_folder := None; new_folder := Some nf;
                     similarity_score := 0;
                     label_used := la_label (subdomain c) |}, st')
          /\ path nf = path D ++ "/" ++ la_label (subdomain c) /\ depth nf = 2%Z)
  /\ (forall sr Sf leaf,
        leaf_topic c = Some leaf -> get_folder sr = Some Sf ->
        generate_embedding (path Sf ++ " > " ++ la_label leaf) = None ->
        (la_optional leaf = true \/ (max_depth thresholds <= depth Sf)%Z ->
         match_leaf st c sr = (Some (skip_leaf leaf), st))
        /\ (la_optional leaf = false -> (depth Sf < max_depth thresholds)%Z ->
            exists nf st',
              match_leaf st c sr =
                (Some {| level := LEAF; action := ATTACH_AS_CHILD;
                         matched_folder := None; new_folder := Some nf;
                         similarity_score := 0; label_used := la_label leaf |}, st')
              /\ path nf = path Sf ++ "/" ++ la_label leaf /\ depth nf = 3%Z))
  /\ (exists m st', match_ st c = Some (m, st')
        /\ (exists f, get_folder (domain_result m) = Some f)
        /\ (exists f, get_folder (subdomain_result m) = Some f)).
Proof.
  split; [|split; [|split]].
  - intros H. destruct (match_domain_embedding_failure st c H)
      as (nf & st' & E & Hp & _ & Hd & _). by exists nf, st'.
  - intros dr D HD H.
    destruct (match_subdomain_embedding_failure st c dr D HD H)
      as (nf & st' & E & Hp & _ & Hd). by exists nf, st'.
  - intros sr Sf leaf Hl HS H.
    destruct (match_leaf_embedding_failure st c sr Sf leaf Hl HS H) as [H1 H2].
    split; [done|]. intros Ho Hd.
    destruct (H2 Ho Hd) as (nf & st' & E & Hp & _ & Hd'). by exists nf, st'.
  - apply match_total.
Qed.

(** *** The walk over the ranked candidates *)

Local Abbreviation resolve := (FolderMatcher.resolve uuid4).
Local Abbreviation walk := (FolderMatcher.walk uuid4 thresholds).

Lemma resolve_path cache dpt r n :
  path <$> (resolve cache dpt r n).1 = hit_path cache r.
Proof.
  unfold FolderMatcher.resolve, hit_path.
  destruct (match md_get (hit_meta r) "folder_id" with
            | MStr s => cache !! s | _ => None end) as [f|]; [done|].
  destruct (md_get (hit_meta r) "path") as [| | |p]; try done.
  destruct (PyStr.is_empty p); [done|].
  by repeat case_match.
Qed.

Lemma walk_rejected cache text dpt thr r rest n :
  accepted thresholds cache text thr r = false ->
  exists n', walk cache text dpt thr (r :: rest) n = walk cache text dpt thr rest n'.
Proof.
  unfold accepted. intros H. cbn [FolderMatcher.walk].
  destruct (Rltb (hit_score r) thr); [by eexists|]. simpl in H.
  pose proof (resolve_path cache dpt r n) as Hp.
  destruct (resolve cache dpt r n) as [[f|] n']; simpl in Hp.
  - rewrite <- Hp in H. rewrite H. by eexists.
  - by eexists.
Qed.

Lemma walk_skips cache text dpt thr pre l n :
  Forall (fun r => accepted thresholds cache text thr r = false) pre ->
  exists n', walk cache text dpt thr (pre ++ l) n = walk cache text dpt thr l n'.
Proof.
  intros H. revert n. induction H as [|r pre Hr _ IH]; intros n; [by eexists|].
  destruct (walk_rejected cache text dpt thr r (pre ++ l) n Hr) as [n1 E].
  destruct (IH n1) as [n2 E2]. exists n2.
  rewrite <- app_comm_cons. by rewrite E.
Qed.

Lemma walk_takes cache text dpt thr r post n :
  accepted thresholds cache text thr r = true ->
  exists f n',
    walk cache text dpt thr (r :: post) n = (Some f, hit_score r, n')
    /\ resolve cache dpt r n = (Some f, n')
    /\ (thr <= hit_score r)%R
    /\ _sanity_check thresholds text (path f) (hit_score r) = true.
Proof.
  unfold accepted. intros H. apply andb_true_iff in H as [H1 H2].
  apply negb_true_iff in H1. cbn [FolderMatcher.walk]. rewrite H1.
  pose proof (resolve_path cache dpt r n) as Hp.
  destruct (resolve cache dpt r n) as [[f|] n']; simpl in Hp;
    rewrite <- Hp in H2; [|done].
  rewrite H2. exists f, n'. repeat split; try done. by apply Rltb_false.
Qed.

Lemma walk_none cache text dpt thr l n :
  Forall (fun r => accepted thresholds cache text thr r = false) l ->
  exists n', walk cache text dpt thr l n = (None, 0%R, n').
Proof.
  intros H. destruct (walk_skips cache text dpt thr l [] n H) as [n' E].
  rewrite app_nil_r in E. exists n'. by rewrite E.
Qed.

Lemma below_threshold_rejected cache text thr r :
  (hit_score r < thr)%R -> accepted thresholds cache text thr r = false.
Proof.
  intros H. unfold accepted. by rewrite (proj2 (Rltb_true _ _) H).
Qed.

Lemma sorted_below_best (l : list Hit) (thr : R) :
  StronglySorted by_score_desc l ->
  (forall s, best_score l = Some s -> (s < thr)%R) ->
  Forall (fun r => (hit_score r < thr)%R) l.
Proof.
  intros Hs Hb. destruct l as [|r l]; [constructor|].
  specialize (Hb (hit_score r) eq_refl).
  apply StronglySorted_inv in Hs as [_ Hr].
  constructor; [done|]. eapply Forall_impl; [exact Hr|].
  unfold by_score_desc. simpl. intros z Hz. lra.
Qed.

Lemma ranked_candidates_sorted st q dpt pid :
  StronglySorted by_score_desc (ranked_candidates st q dpt pid).
Proof. apply sort_desc_sorted. Qed.

(** C3. The candidate list is sorted by descending score. The walk skips
    the candidates that are below the threshold (or fail to resolve or to
    pass the sanity check) and takes the first candidate at or above the
    threshold that passes the sanity check; without such a candidate there is
    no match. Hence a domain candidate whose best hit has
    similarity exactly [domain_threshold] (and passes the sanity check) is
    reused, and one whose best similarity is strictly below the threshold
    makes [match_domain] create a depth-1 folder (CREATE_NEW). *)
Theorem threshold_walk_spec (st : Matcher) (c : TaxonomyCandidate) :
  (forall q dpt pid, StronglySorted by_score_desc (ranked_candidates st q dpt pid))
  /\ (forall cache text dpt thr pre r post n,
      Forall (fun x => accepted thresholds cache text thr x = false) pre ->
      accepted thresholds cache text thr r = true ->
      exists f n',
        walk cache text dpt thr (pre ++ r :: post) n = (Some f, hit_score r, n')
        /\ Some (path f) = hit_path cache r
        /\ (thr <= hit_score r)%R
        /\ _sanity_check thresholds text (path f) (hit_score r) = true)
  /\ (forall cache text dpt thr l n,
        Forall (fun x => accepted thresholds cache text thr x = false) l ->
        exists n', walk cache text dpt thr l n = (None, 0%R, n'))
  /\ (forall cache text thr r,
        (hit_score r < thr)%R -> accepted thresholds cache text thr r = false)
  /\ (forall q r rest,
        generate_embedding (la_label (domain c)) = Some q ->
        ranked_candidates st q 1 None = r :: rest ->
        hit_score r = domain_threshold thresholds ->
        accepted thresholds (_folder_cache st) (la_label (domain c))
                 (domain_threshold thresholds) r = true ->
        exists f st',
          match_domain st c =
            ({| level := DOMAIN; action := REUSE_EXISTING; matched_folder := Some f;
                new_folder := None;
                similarity_score := domain_threshold thresholds;
                label_used := label f |}, st')
          /\ Some (path f) = hit_path (_folder_cache st) r)
  /\ (forall q,
        generate_embedding (la_label (domain c)) = Some q ->
        (forall s, best_score (ranked_candidates st q 1 None) = Some s ->
                   (s < domain_threshold thresholds)%R) ->
        exists nf st',
          match_domain st c =
            ({| level := DOMAIN; action := CREATE_NEW; matched_folder := None;
                new_folder := Some nf; similarity_score := 0;
                label_used := la_label (domain c) |}, st')
          /\ depth nf = 1%Z /\ path nf = la_label (domain c)
          /\ parent_id nf = None
          /\ _folder_cache st' !! folder_id nf = Some nf).
Proof.
  split; [intros; apply ranked_candidates_sorted|].
  split; [|split; [|split; [|split]]].
  - intros cache text dpt thr pre r post n Hpre Hr.
    destruct (walk_skips cache text dpt thr pre (r :: post) n Hpre) as [n1 E].
    destruct (walk_takes cache text dpt thr r post n1 Hr) as (f & n' & Ew & Er & Ht & Hs).
    exists f, n'. rewrite E. repeat split; try done.
    rewrite <- (resolve_path cache dpt r n1). by rewrite Er.
  - intros. by apply walk_none.
  - intros. by apply below_threshold_rejected.
  - intros q r rest Hq Hrank Hscore Hacc.
    destruct (walk_takes (_folder_cache st) (la_label (domain c)) 1
                (domain_threshold thresholds) r rest (uuids_drawn st) Hacc)
      as (f & n' & Ew & Er & _ & _).
    unfold FolderMatcher.match_domain, FolderMatcher._find_best_match.
    rewrite Hq, Hrank, Ew. rewrite Hscore. eexists _, _. split; [reflexivity|].
    rewrite <- (resolve_path (_folder_cache st) 1 r (uuids_drawn st)). by rewrite Er.
  - intros q Hq Hbest.
    pose proof (sorted_below_best _ _ (ranked_candidates_sorted st q 1 None) Hbest) as Hall.
    assert (Hrej : Forall (fun x => accepted thresholds (_folder_cache st)
                     (la_label (domain c)) (domain_threshold thresholds) x = false)
                     (ranked_candidates st q 1 None)).
    { eapply Forall_impl; [exact Hall|]. intros x. apply below_threshold_rejected. }
    destruct (walk_none (_folder_cache st) (la_label (domain c)) 1
                (domain_threshold thresholds) _ (uuids_drawn st) Hrej) as [n' Ew].
    unfold FolderMatcher.match_domain, FolderMatcher._find_best_match.
    rewrite Hq, Ew.
    unfold FolderMatcher._create_folder, FolderMatcher.store_folder.
    destruct (generate_embedding (PyStr.replace_char _ _ _)) eqn:E; simpl;
      eexists _, _; (split; [reflexivity|]); simpl; repeat split; try done;
      apply lookup_insert_eq.
Qed.


(** *** Paths and depths of created folders *)

Local Abbreviation store_folder := (FolderMatcher.store_folder embed_content).
Local Abbreviation initialize_seed_folders :=
  (FolderMatcher.initialize_seed_folders embed_content uuid4).

Lemma split_fields_length sep s :
  length (PyStr.split_fields sep s).2 = count_char sep s.
Proof.
  induction s as [|c s IH]; simpl; [done|].
  destruct (PyStr.split_fields sep s) as [w ws]. simpl in IH.
  destruct (Ascii.eqb c sep); simpl; by rewrite IH.
Qed.

Lemma split_on_length sep s :
  length (PyStr.split_on sep s) = S (count_char sep s).
Proof.
  unfold PyStr.split_on. pose proof (split_fields_length sep s) as H.
  destruct (PyStr.split_fields sep s) as [w ws]. simpl in *. by rewrite H.
Qed.

Lemma count_char_app c a b : count_char c (a ++ b) = count_char c a + count_char c b.
Proof. induction a as [|d a IH]; simpl; [done|]. rewrite IH. lia. Qed.

Lemma segments_no_slash s : no_slash s <-> segments s = 1%Z.
Proof. unfold no_slash, segments. rewrite split_on_length. lia. Qed.

Lemma segments_child p lbl :
  segments (p ++ "/" ++ lbl) = (segments p + segments lbl)%Z.
Proof.
  unfold segments. rewrite !split_on_length, !count_char_app. simpl. lia.
Qed.

Lemma segments_child' p lbl :
  segments (p ++ String "/" lbl) = (segments p + segments lbl)%Z.
Proof. apply segments_child. Qed.

Lemma store_folder_fields st folder text meta :
  let f := (store_folder st folder text meta).1 in
  folder_id f = folder_id folder /\ path f = path folder /\ label f = label folder
  /\ depth f = depth folder /\ parent_id f = parent_id folder.
Proof.
  unfold FolderMatcher.store_folder. by destruct (generate_embedding text).
Qed.

Lemma create_folder_fields st lbl dpt parent als :
  let f := (_create_folder st lbl dpt parent als).1 in
  folder_id f = uuid4 (uuids_drawn st) /\ path f = path_of parent lbl
  /\ label f = lbl /\ depth f = dpt /\ parent_id f = folder_id <$> parent.
Proof.
  unfold FolderMatcher._create_folder. simpl.
  match goal with |- context [store_folder ?s ?f ?t ?m] =>
    destruct (store_folder_fields s f t m) as (H1 & H2 & H3 & H4 & H5) end.
  simpl in *. rewrite H1, H2, H3, H4, H5. by destruct parent.
Qed.

Lemma folder_ok_mono l l' f : incl l l' -> folder_ok l f -> folder_ok l' f.
Proof.
  intros Hi [Hd Hp]. split; [done|]. destruct (parent_id f); [|done].
  destruct Hp as (p & Hin & H). exists p. split; [by apply Hi | done].
Qed.

Lemma seed_subdomains_ok dom subs acc st :
  In dom acc -> path dom = label dom -> no_slash (label dom) ->
  Forall (fun s => no_slash (ss_label s)) subs ->
  Forall (folder_ok acc) acc ->
  let created := (fold_left (seed_subdomain embed_content uuid4 dom) subs (acc, st)).1 in
  incl acc created /\ Forall (folder_ok created) created.
Proof.
  intros Hin Hp Hns Hsubs. revert acc st Hin.
  induction Hsubs as [|s subs Hs _ IH]; intros acc st Hin Hacc; simpl.
  - split; [apply incl_refl | done].
  - unfold seed_subdomain at 2.
    match goal with |- context [FolderMatcher.store_folder ?e ?s0 ?f ?t ?m] =>
      pose proof (store_folder_fields s0 f t m) as Hf;
      destruct (FolderMatcher.store_folder e s0 f t m) as [sub st'] end.
    cbn [fst path label depth parent_id folder_id] in Hf.
    destruct Hf as (Hid & Hpath & Hlbl & Hdep & Hpar).
    assert (Hincl : incl acc (acc ++ [sub])) by (by apply incl_appl, incl_refl).
    destruct (IH (acc ++ [sub])%list st') as [Hi Hok].
    + apply in_or_app. by left.
    + apply Forall_app. split.
      * eapply Forall_impl; [exact Hacc|]. intros f. by apply folder_ok_mono.
      * constructor; [|constructor]. split.
        -- rewrite Hdep, Hpath, segments_child'.
           apply segments_no_slash in Hns, Hs. rewrite Hns, Hs. done.
        -- rewrite Hpar. exists dom. split; [apply in_or_app; by left|].
           split; [done|]. by rewrite Hpath, Hlbl, Hp.
    + split; [|done]. intros x Hx. apply Hi, Hincl, Hx.
Qed.

Lemma seed_domains_ok ds acc st :
  Forall seed_slash_free ds ->
  Forall (folder_ok acc) acc ->
  let created := (fold_left (seed_domain embed_content uuid4) ds (acc, st)).1 in
  Forall (folder_ok created) created.
Proof.
  intros Hds. revert acc st.
  induction Hds as [|d ds [Hd Hsubs] _ IH]; intros acc st Hacc; simpl; [done|].
  unfold seed_domain at 2.
  match goal with |- context [FolderMatcher.store_folder ?e ?s0 ?f ?t ?m] =>
    pose proof (store_folder_fields s0 f t m) as Hf;
    destruct (FolderMatcher.store_folder e s0 f t m) as [dom st'] end.
  cbn [fst path label depth parent_id folder_id] in Hf.
  destruct Hf as (Hid & Hpath & Hlbl & Hdep & Hpar).
  assert (Hacc' : Forall (folder_ok (acc ++ [dom])) (acc ++ [dom])).
  { apply Forall_app. split.
    - eapply Forall_impl; [exact Hacc|]. intros f.
      apply folder_ok_mono. by apply incl_appl, incl_refl.
    - constructor; [|constructor]. split.
      + rewrite Hdep, Hpath. symmetry. by apply segments_no_slash.
      + rewrite Hpar. by rewrite Hpath, Hlbl. }
  pose proof (seed_subdomains_ok dom (sd_subdomains d) (acc ++ [dom])%list st') as H.
  destruct (fold_left (seed_subdomain embed_content uuid4 dom) (sd_subdomains d)
              ((acc ++ [dom])%list, st')) as [acc2 st2] eqn:E.
  simpl in H. apply IH. apply H; try done.
  - apply in_or_app. right. by left.
  - by rewrite Hpath, Hlbl.
  - by rewrite Hlbl.
Qed.

Lemma SEED_DOMAINS_slash_free : Forall seed_slash_free SEED_DOMAINS.
Proof.
  unfold SEED_DOMAINS.
  repeat (constructor; [split; [reflexivity | repeat constructor]|]).
  constructor.
Qed.

(** C6 (as the code has it). A folder created by [_create_folder] has the
    path of its parent, "/", its label (its label alone without a parent);
    its depth is the level it is created at, which is the number of path
    segments when the label holds no "/" and the parent, if any, is one level
    up with a depth equal to its own number of segments. Every seed folder
    has such a path, and a depth equal to its number of segments. *)
Theorem created_folder_path_depth (st : Matcher) (lbl : string) (dpt : Z)
    (parent : option FolderEntity) (als : list string) :
  let f := (_create_folder st lbl dpt parent als).1 in
  path f = path_of parent lbl
  /\ label f = lbl
  /\ parent_id f = folder_id <$> parent
  /\ depth f = dpt
  /\ (no_slash lbl ->
      match parent with
      | Some p => depth p = segments (path p) /\ dpt = (depth p + 1)%Z
      | None => dpt = 1%Z
      end ->
      depth f = segments (path f))
  /\ (let created := (initialize_seed_folders st).1 in
      Forall (folder_ok created) created).
Proof.
  destruct (create_folder_fields st lbl dpt parent als) as (_ & Hp & Hl & Hd & Hpar).
  simpl. repeat (split; [done|]). split.
  - intros Hns Hparent. rewrite Hd, Hp.
    apply segments_no_slash in Hns. destruct parent as [p|]; simpl.
    + destruct Hparent as [H1 ->].
      rewrite ?segments_child, ?segments_child', Hns. by rewrite H1.
    + by rewrite Hns.
  - apply seed_domains_ok; [apply SEED_DOMAINS_slash_free | constructor].
Qed.


End MatcherProps.

(** With the backend unreachable the embedding of "Astronomy" fails, yet
    [match] returns: the domain is created and the path "Astronomy/Stars" is
    resolved. *)
Lemma embedding_failure_does_not_abort :
  generate_embedding unreachable_backend "Astronomy" = None
  /\ exists m st',
       match_ unreachable_backend sample_uuid4 default_thresholds new_matcher astronomy
         = Some (m, st')
       /\ action (domain_result m) = CREATE_NEW
       /\ action (subdomain_result m) = ATTACH_AS_CHILD
       /\ get_final_path m = "Astronomy/Stars".
Proof.
  split; [reflexivity|].
  eexists _, _. split; [reflexivity|]. by repeat split.
Qed.

(** The amended statement at the same input. *)
Lemma embedding_failure_is_no_match_witness :
  exists nf st',
    match_domain unreachable_backend sample_uuid4 default_thresholds new_matcher astronomy
      = ({| level := DOMAIN; action := CREATE_NEW; matched_folder := None;
            new_folder := Some nf; similarity_score := 0;
            label_used := "Astronomy" |}, st')
    /\ path nf = "Astronomy" /\ depth nf = 1%Z.
Proof.
  apply (embedding_failure_is_no_match unreachable_backend sample_uuid4
           default_thresholds new_matcher astronomy).
  reflexivity.
Defined.

(** An optional leaf with confidence 0.60 under the default threshold 0.70
    is skipped and the state is untouched. *)
Lemma match_leaf_optional_witness :
  match_leaf unreachable_backend sample_uuid4 default_thresholds new_matcher
             (astronomy_with_leaf 0.60) stars_result
  = (Some (skip_leaf (optional_leaf "Red Dwarfs")), new_matcher).
Proof.
  destruct (match_leaf_optional unreachable_backend sample_uuid4 default_thresholds
              new_matcher (astronomy_with_leaf 0.60) stars_result
              (optional_leaf "Red Dwarfs") eq_refl eq_refl) as (_ & _ & H).
  apply H. simpl. lra.
Defined.

(** The similarity of (1,0) and (4,3) is 0.8. *)
Lemma cosine_similarity_3_4_5 : cosine_similarity [1; 0]%R [4; 3]%R = Some 0.8%R.
Proof.
  assert (N1 : norm [1; 0]%R = 1%R).
  { unfold norm. simpl. replace (1 * 1 + (0 * 0 + 0))%R with 1%R by lra.
    apply sqrt_1. }
  assert (N2 : norm [4; 3]%R = 5%R).
  { unfold norm. simpl. replace (4 * 4 + (3 * 3 + 0))%R with (5 * 5)%R by lra.
    apply sqrt_square. lra. }
  rewrite cosine_similarity_nonzero; [|done|rewrite N1; lra|rewrite N2; lra].
  rewrite N1, N2. simpl. f_equal.
  replace ((1 * 4 + (0 * 3 + 0)) / (1 * 5))%R with 0.8%R by lra.
  rewrite Rmin_right by lra. rewrite Rmax_right by lra. done.
Qed.

Lemma search_cooking :
  search (vector_store cooking_matcher) [1; 0]%R 5 (Some (search_filter 1 None))
  = [(Some "folder_f1", 0.8%R, folder_meta cooking_folder)].
Proof.
  unfold search, cooking_matcher. cbn [vector_store scan].
  replace (md_matches _ _) with true by (vm_compute; reflexivity).
  rewrite cosine_similarity_3_4_5. cbn [sort_desc insert_desc].
  unfold PyStr.slice_to. change (Z.to_nat 5) with 5. done.
Qed.

Lemma ranked_candidates_cooking :
  ranked_candidates cooking_matcher [1; 0]%R 1 None
  = [(Some "folder_f1", 0.8%R, folder_meta cooking_folder)].
Proof.
  unfold ranked_candidates. rewrite search_cooking.
  unfold augment, cooking_matcher.
  cbn [length Nat.ltb Nat.leb _folders_by_depth truthy_id].
  rewrite lookup_insert_eq. cbn [default from_option Datatypes.id fold_left].
  unfold augment_step. cbn [embedding cooking_folder].
  rewrite cosine_similarity_3_4_5.
  cbn [existsb hit_id fst snd embedding_id].
  by rewrite bool_decide_eq_true_2.
Qed.

Lemma accepted_cooking :
  accepted thresholds_08 (_folder_cache cooking_matcher) "Cuisine" 0.8
           (Some "folder_f1", 0.8%R, folder_meta cooking_folder) = true.
Proof.
  unfold accepted. cbn [hit_score fst snd].
  rewrite (proj2 (Rltb_false _ _)) by lra. cbn [negb andb].
  replace (hit_path _ _) with (Some "Cooking") by (vm_compute; reflexivity).
  unfold _sanity_check.
  rewrite (proj2 (Rltb_false 0.95 0.8)) by lra.
  rewrite (proj2 (Rltb_false 0.85 0.8)) by lra. cbn [andb].
  by vm_compute.
Qed.

(** "Cuisine" lies at similarity 0.8 from the only domain "Cooking": with
    the domain threshold at 0.8 the folder is reused, with the default 0.82 a
    new depth-1 folder is created. *)
Lemma threshold_walk_spec_witness :
  (exists f st',
     match_domain cuisine_backend sample_uuid4 thresholds_08 cooking_matcher cuisine =
       ({| level := DOMAIN; action := REUSE_EXISTING; matched_folder := Some f;
           new_folder := None; similarity_score := 0.8;
           label_used := label f |}, st')
     /\ Some (path f) = Some "Cooking")
  /\ (exists nf st',
        match_domain cuisine_backend sample_uuid4 default_thresholds cooking_matcher
                     cuisine =
          ({| level := DOMAIN; action := CREATE_NEW; matched_folder := None;
              new_folder := Some nf; similarity_score := 0;
              label_used := "Cuisine" |}, st')
        /\ depth nf = 1%Z /\ path nf = "Cuisine" /\ parent_id nf = None
        /\ _folder_cache st' !! folder_id nf = Some nf).
Proof.
  split.
  - destruct (threshold_walk_spec cuisine_backend sample_uuid4 thresholds_08
                cooking_matcher cuisine) as (_ & _ & _ & _ & H & _).
    destruct (H [1; 0]%R (Some "folder_f1", 0.8%R, folder_meta cooking_folder) []
                eq_refl ranked_candidates_cooking eq_refl accepted_cooking)
      as (f & st' & E & Hp).
    exists f, st'. split; [exact E|]. rewrite Hp. by vm_compute.
  - destruct (threshold_walk_spec cuisine_backend sample_uuid4 default_thresholds
                cooking_matcher cuisine) as (_ & _ & _ & _ & _ & H).
    apply (H [1; 0]%R); [reflexivity|].
    rewrite ranked_candidates_cooking. intros s [= <-].
    unfold hit_score, default_thresholds. simpl. lra.
Defined.

(** A search for the five best domains in the "Cooking" store returns at
    most five hits. *)
Lemma search_spec_witness :
  (Z.of_nat (length (search (vector_store cooking_matcher) [1; 0]%R 5
                            (Some (search_filter 1 None)))) <= 5)%Z.
Proof.
  destruct (search_spec (vector_store cooking_matcher) [1; 0]%R 5
              (Some (search_filter 1 None))) as (_ & _ & H & _); [lia | exact H].
Defined.

(** The domain label "AI/ML" yields a depth-1 folder without a parent whose
    path "AI/ML" has two segments. *)
Lemma created_depth_differs_from_segments :
  exists nf st',
    match_domain constant_backend sample_uuid4 default_thresholds new_matcher
                 slash_candidate =
      ({| level := DOMAIN; action := CREATE_NEW; matched_folder := None;
          new_folder := Some nf; similarity_score := 0; label_used := "AI/ML" |}, st')
    /\ parent_id nf = None /\ path nf = "AI/ML" /\ path nf = label nf
    /\ depth nf = 1%Z /\ segments (path nf) = 2%Z
    /\ depth nf <> segments (path nf).
Proof.
  eexists _, _. split; [reflexivity|]. by repeat split.
Qed.

(** A subdomain "Recipes" created under the depth-1 folder "Cooking". *)
Lemma created_folder_path_depth_witness :
  let f := (_create_folder constant_backend sample_uuid4 cooking_matcher "Recipes" 2
                          (Some cooking_folder) []).1 in
  depth f = segments (path f).
Proof.
  apply (created_folder_path_depth constant_backend sample_uuid4 cooking_matcher
           "Recipes" 2 (Some cooking_folder) []).
  - reflexivity.
  - split; reflexivity.
Defined.

(** ** Matching twice *)

Lemma mval_eqb_refl (x : mval) : mval_eqb x x = true.
Proof.
  destruct x; simpl; try done.
  - by destruct b.
  - apply Z.eqb_refl.
  - apply String.eqb_refl.
Qed.

Lemma folder_meta_folder_id f : md_get (folder_meta f) "folder_id" = MStr (folder_id f).
Proof. unfold md_get, folder_meta. by simplify_map_eq. Qed.

Lemma folder_meta_depth f : md_get (folder_meta f) "depth" = MInt (depth f).
Proof. unfold md_get, folder_meta. by simplify_map_eq. Qed.

Lemma folder_meta_type f : md_get (folder_meta f) "type" = MStr "folder".
Proof. unfold md_get, folder_meta. by simplify_map_eq. Qed.

Lemma folder_meta_parent_id f :
  md_get (folder_meta f) "parent_id" = opt_mval (parent_id f).
Proof. unfold md_get, folder_meta. by simplify_map_eq. Qed.

Lemma cache_hit_meta_folder_id f :
  md_get (cache_hit_meta f) "folder_id" = MStr (folder_id f).
Proof. unfold md_get, cache_hit_meta. by simplify_map_eq. Qed.

Lemma search_filter_depth dpt pid : search_filter dpt pid !! "depth" = Some (MInt dpt).
Proof. unfold search_filter. destruct (truthy_id pid); by simplify_map_eq. Qed.

Lemma search_filter_keys dpt pid k v :
  search_filter dpt pid !! k = Some v ->
  (k = "depth" /\ v = MInt dpt) \/ (k = "type" /\ v = MStr "folder")
  \/ (k = "parent_id" /\ v = opt_mval pid /\ truthy_id pid = true).
Proof.
  unfold search_filter. destruct (truthy_id pid) eqn:E; intros H.
  - apply lookup_insert_Some in H as [[<- <-] | [_ H]]; [by right; right|].
    apply lookup_insert_Some in H as [[<- <-] | [_ H]]; [by left|].
    apply lookup_insert_Some in H as [[<- <-] | [_ H]]; [by right; left|].
    by rewrite lookup_empty in H.
  - apply lookup_insert_Some in H as [[<- <-] | [_ H]]; [by left|].
    apply lookup_insert_Some in H as [[<- <-] | [_ H]]; [by right; left|].
    by rewrite lookup_empty in H.
Qed.

Lemma md_matches_depth dpt pid md :
  md_matches (Some (search_filter dpt pid)) md = true ->
  mval_eqb (md_get md "depth") (MInt dpt) = true.
Proof.
  intros H. eapply md_matches_exact; [exact H|]. apply search_filter_depth.
Qed.

Lemma has_nonspace_lstrip s : has_nonspace (PyStr.lstrip s) = has_nonspace s.
Proof.
  induction s as [|c s IH]; simpl; [done|].
  destruct (PyStr.is_space c) eqn:E; simpl; [done|]. by rewrite E.
Qed.

Lemma has_nonspace_rstrip s : has_nonspace s = true -> PyStr.rstrip s <> "".
Proof.
  induction s as [|c s IH]; simpl; [done|].
  destruct (PyStr.is_space c) eqn:E; simpl.
  - intros H. specialize (IH H). destruct (PyStr.rstrip s); [done|].
    simpl. done.
  - intros _. by rewrite andb_false_r.
Qed.

Lemma has_nonspace_strip s : has_nonspace s = true -> PyStr.strip s <> "".
Proof.
  intros H. unfold PyStr.strip. apply has_nonspace_rstrip.
  by rewrite has_nonspace_lstrip.
Qed.

Lemma has_nonspace_app_r a b : has_nonspace b = true -> has_nonspace (a ++ b) = true.
Proof.
  intros H. induction a as [|c a IH]; simpl; [done|]. rewrite IH. apply orb_true_r.
Qed.

Lemma has_nonspace_arrow a b : has_nonspace (a ++ " > " ++ b) = true.
Proof. by apply has_nonspace_app_r. Qed.

Lemma scan_In vs q flt h :
  In h (scan vs q flt) ->
  exists k e md, In (k, (e, md)) vs /\ h = (Some k, hit_score h, md)
                 /\ cosine_similarity q e = Some (hit_score h)
                 /\ md_matches flt md = true.
Proof.
  induction vs as [|[k [e md]] vs IH]; simpl; [done|].
  destruct (md_matches flt md) eqn:Hm.
  - destruct (cosine_similarity q e) as [s|] eqn:Hc.
    + intros [<- | H].
      * exists k, e, md. repeat split; try done. by left.
      * destruct (IH H) as (k' & e' & md' & Hin & Hrest).
        exists k', e', md'. split; [by right | done].
    + intros H. destruct (IH H) as (k' & e' & md' & Hin & Hrest).
      exists k', e', md'. split; [by right | done].
  - intros H. destruct (IH H) as (k' & e' & md' & Hin & Hrest).
    exists k', e', md'. split; [by right | done].
Qed.

Lemma scan_app vs vs' q flt : scan (vs ++ vs') q flt = (scan vs q flt ++ scan vs' q flt)%list.
Proof.
  induction vs as [|[k [e md]] vs IH]; simpl; [done|].
  repeat case_match; simpl; by rewrite IH.
Qed.

Section Idempotence.

Variable embed_content : string -> option (list R).
Variable uuid4 : nat -> string.
Variable thresholds : ThresholdConfig.

Local Abbreviation generate_embedding := (FolderMatcher.generate_embedding embed_content).
Local Abbreviation _find_best_match := (FolderMatcher._find_best_match embed_content uuid4 thresholds).
Local Abbreviation _create_folder := (FolderMatcher._create_folder embed_content uuid4).
Local Abbreviation match_domain := (FolderMatcher.match_domain embed_content uuid4 thresholds).
Local Abbreviation match_subdomain := (FolderMatcher.match_subdomain embed_content uuid4 thresholds).
Local Abbreviation match_leaf := (FolderMatcher.match_leaf embed_content uuid4 thresholds).
Local Abbreviation match_ := (FolderMatcher.match_ embed_content uuid4 thresholds).
Local Abbreviation resolve := (FolderMatcher.resolve uuid4).
Local Abbreviation walk := (FolderMatcher.walk uuid4 thresholds).
Local Abbreviation best := (best_of embed_content uuid4 thresholds).

(** *** Where the ranked hits come from *)

Lemma cosine_le_1 a b s : cosine_similarity a b = Some s -> (s <= 1)%R.
Proof.
  intros H. by apply cosine_similarity_range in H as [_ H].
Qed.

Lemma augment_step_In q l f h :
  In h (augment_step q l f) -> In h l \/ from_cache [f] h.
Proof.
  unfold augment_step. destruct (embedding f) as [[|x e]|]; try by left.
  destruct (cosine_similarity q (x :: e)) as [s|] eqn:Hc; [|by left].
  case_match; [by left|]. intros Hin. apply in_app_or in Hin as [Hin | [<- | []]].
  - by left.
  - right. exists f. split; [by left|]. split; [done|].
    simpl. by eapply cosine_le_1.
Qed.

Lemma fold_augment_In q cands l h :
  In h (fold_left (augment_step q) cands l) -> In h l \/ from_cache cands h.
Proof.
  revert l. induction cands as [|f cands IH]; intros l H; simpl in H; [by left|].
  destruct (IH _ H) as [H1 | (f' & Hin & Hrest)].
  - destruct (augment_step_In q l f h H1) as [? | (f' & [<- | []] & Hrest)];
      [by left|]. right. exists f. split; [by left | done].
  - right. exists f'. split; [by right | done].
Qed.

Lemma augment_step_incl q l f h : In h l -> In h (augment_step q l f).
Proof.
  intros H. unfold augment_step. repeat case_match; try done.
  apply in_or_app. by left.
Qed.

Lemma fold_augment_incl q cands l h :
  In h l -> In h (fold_left (augment_step q) cands l).
Proof.
  revert l. induction cands as [|f cands IH]; intros l H; simpl; [done|].
  apply IH. by apply augment_step_incl.
Qed.

Lemma augment_step_head q x l f : exists l', augment_step q (x :: l) f = x :: l'.
Proof.
  unfold augment_step. repeat case_match; by eexists.
Qed.

Lemma fold_augment_head q cands x l :
  exists l', fold_left (augment_step q) cands (x :: l) = x :: l'.
Proof.
  revert l. induction cands as [|f cands IH]; intros l; simpl; [by eexists|].
  destruct (augment_step_head q x l f) as [l1 ->]. apply IH.
Qed.

Lemma depth_candidates_In st dpt pid f :
  In f (depth_candidates st dpt pid) ->
  exists l, _folders_by_depth st !! dpt = Some l /\ In f l.
Proof.
  unfold depth_candidates. destruct (_folders_by_depth st !! dpt) as [l|]; simpl.
  - intros H. exists l. split; [done|]. destruct (truthy_id pid); [|done].
    by apply filter_In in H as [H _].
  - by destruct (truthy_id pid).
Qed.

Lemma augment_In st q dpt pid l h :
  In h (augment st q dpt pid l) -> In h l \/ from_cache (depth_candidates st dpt pid) h.
Proof.
  unfold augment. case_match; [|by left]. apply fold_augment_In.
Qed.

Lemma augment_incl st q dpt pid l h : In h l -> In h (augment st q dpt pid l).
Proof.
  intros H. unfold augment. case_match; [|done]. by apply fold_augment_incl.
Qed.

Lemma augment_head st q dpt pid x l :
  exists l', augment st q dpt pid (x :: l) = x :: l'.
Proof.
  unfold augment. case_match; [|by eexists]. apply fold_augment_head.
Qed.

Lemma In_take {A} (x : A) n l : In x (firstn n l) -> In x l.
Proof.
  intros H. rewrite <- (firstn_skipn n l). apply in_or_app. by left.
Qed.

Lemma search_In vs q k flt h :
  In h (search vs q k flt) -> In h (scan vs q flt).
Proof.
  unfold search, PyStr.slice_to. intros H.
  assert (H' : In h (sort_desc (scan vs q flt))).
  { case_match; eapply In_take; exact H. }
  eapply Permutation_in; [apply sort_desc_perm | exact H'].
Qed.

(** Every ranked hit comes from a stored vector that passed the filter or
    from a folder listed at the depth searched, and scores at most 1. *)
Lemma ranked_In st q dpt pid h :
  In h (ranked_candidates st q dpt pid) ->
  (hit_score h <= 1)%R
  /\ ((exists k e md, In (k, (e, md)) (vector_store st) /\ hit_meta h = md
         /\ md_matches (Some (search_filter dpt pid)) md = true)
      \/ (exists l f, _folders_by_depth st !! dpt = Some l /\ In f l
            /\ hit_meta h = cache_hit_meta f)).
Proof.
  unfold ranked_candidates. intros H.
  eapply Permutation_in in H; [|apply sort_desc_perm].
  apply augment_In in H as [H | (f & Hin & Hm & Hs)].
  - apply search_In, scan_In in H as (k & e & md & Hin & -> & Hc & Hm).
    split; [by eapply cosine_le_1|]. left. by exists k, e, md.
  - split; [done|]. right.
    destruct (depth_candidates_In st dpt pid f Hin) as (l & Hl & Hf).
    by exists l, f.
Qed.

Lemma ranked_good st q dpt pid :
  consistent st ->
  Forall (good_hit (_folder_cache st) (fun f => dpt = 1%Z -> top_level f))
         (ranked_candidates st q dpt pid).
Proof.
  intros [K1 K2]. apply List.Forall_forall. intros h Hh.
  apply ranked_In in Hh as [_ [(k & e & md & Hin & Hm & Hf) | (l & f & Hl & Hin & Hm)]].
  - destruct (K1 k e md Hin) as (s & f & Hs & Hc & Ht).
    exists s, f. rewrite Hm. split; [done|]. split; [done|]. intros ->.
    apply Ht. by eapply md_matches_depth.
  - destruct (K2 dpt l f Hl Hin) as (f' & Hc & Ht).
    exists (folder_id f), f'. rewrite Hm, cache_hit_meta_folder_id.
    split; [done|]. split; [done|]. exact Ht.
Qed.

(** *** The walk over cached hits draws no identifier *)

Lemma resolve_cached cache dpt h n s f :
  md_get (hit_meta h) "folder_id" = MStr s -> cache !! s = Some f ->
  resolve cache dpt h n = (Some f, n).
Proof. intros Hs Hc. unfold FolderMatcher.resolve. by rewrite Hs, Hc. Qed.

Lemma walk_cached cache P text dpt thr l n :
  Forall (good_hit cache P) l ->
  walk cache text dpt thr l n = ((walk cache text dpt thr l 0).1, n)
  /\ (forall f, (walk cache text dpt thr l 0).1.1 = Some f -> P f).
Proof.
  induction 1 as [|h l (s & f & Hs & Hc & HP) _ [IH1 IH2]]; simpl; [done|].
  destruct (Rltb (hit_score h) thr); [done|].
  rewrite !(resolve_cached cache dpt h _ s f Hs Hc).
  destruct (_sanity_check thresholds text (path f) (hit_score h)); [|done].
  simpl. split; [done|]. by intros f' [= <-].
Qed.

Lemma set_uuids_drawn_same st : set_uuids_drawn st (uuids_drawn st) = st.
Proof. by destruct st. Qed.

(** On a consistent state [_find_best_match] is a pure function of the
    state. *)
Lemma find_best_match_pure st text dpt pid thr :
  consistent st ->
  _find_best_match st text dpt pid thr = (best st text dpt pid thr, st).
Proof.
  intros Hc. unfold FolderMatcher._find_best_match, best_of.
  destruct (generate_embedding text) as [q|]; [|done].
  destruct (walk_cached (_folder_cache st) _ text dpt thr _ (uuids_drawn st)
              (ranked_good st q dpt pid Hc)) as [-> _].
  destruct (walk _ _ _ _ _ 0) as [[o s] n]. simpl.
  by rewrite set_uuids_drawn_same.
Qed.

Lemma best_top_level st text pid thr f s :
  consistent st -> best st text 1 pid thr = (Some f, s) -> top_level f.
Proof.
  intros Hc. unfold best_of.
  destruct (generate_embedding text) as [q|]; [|done].
  destruct (walk_cached (_folder_cache st) _ text 1 thr _ 0
              (ranked_good st q 1 pid Hc)) as [_ HP].
  intros E. apply HP; [|done]. by rewrite E.
Qed.

(** *** What a creation does to the state *)

Hypothesis uuid4_inj : forall i j, uuid4 i = uuid4 j -> i = j.

Lemma add_vector_fresh vs k e md :
  ~ In k (map fst vs) -> add_vector vs k e md = (vs ++ [(k, (e, md))])%list.
Proof.
  induction vs as [|[k' v] vs IH]; simpl; [done|]. intros H.
  destruct (String.eqb k' k) eqn:E.
  - apply String.eqb_eq in E. exfalso. apply H. by left.
  - rewrite IH; [done|]. intros Hin. apply H. by right.
Qed.

Lemma folder_key_inj a b : "folder_" ++ a = "folder_" ++ b -> a = b.
Proof. simpl. by intros [= ->]. Qed.

Lemma create_folder_state st lbl dpt parent als nf st' :
  fresh uuid4 st ->
  _create_folder st lbl dpt parent als = (nf, st') ->
  folder_id nf = uuid4 (uuids_drawn st) /\ path nf = path_of parent lbl
  /\ label nf = lbl /\ depth nf = dpt /\ parent_id nf = folder_id <$> parent
  /\ _folder_cache st' = <[uuid4 (uuids_drawn st) := nf]> (_folder_cache st)
  /\ uuids_drawn st' = S (uuids_drawn st)
  /\ _folders_by_depth st' =
       (if (dpt <=? 3)%Z then by_depth_append (_folders_by_depth st) dpt nf
        else _folders_by_depth st)
  /\ match generate_embedding (PyStr.replace_char "/" " > " (path_of parent lbl)) with
     | Some v =>
         vector_store st' =
           (vector_store st
              ++ [(("folder_" ++ uuid4 (uuids_drawn st))%string,
                   (v, folder_meta nf))])%list
         /\ embedding nf = Some v
     | None => vector_store st' = vector_store st
     end.
Proof.
  intros Hf. destruct (Hf (uuids_drawn st) (le_n _)) as [_ Hkey].
  unfold FolderMatcher._create_folder, FolderMatcher.store_folder, path_of.
  destruct (generate_embedding _) as [v|]; intros [= <- <-]; simpl.
  - repeat split; try done; try (by destruct parent);
      by rewrite add_vector_fresh.
  - repeat split; try done; by destruct parent.
Qed.

Lemma create_folder_consistent st lbl dpt parent als nf st' :
  consistent st -> fresh uuid4 st ->
  (dpt = 1%Z -> parent = None /\ no_slash lbl) ->
  _create_folder st lbl dpt parent als = (nf, st') ->
  consistent st' /\ fresh uuid4 st'.
Proof.
  intros [K1 K2] Hf Htop Hcr.
  destruct (create_folder_state st lbl dpt parent als nf st' Hf Hcr)
    as (Hid & Hpath & Hlbl & Hdep & Hpar & Hcache & Hn & Hbd & Hvs).
  destruct (Hf (uuids_drawn st) (le_n _)) as [Hnone Hkey].
  assert (Hold : forall s f, _folder_cache st !! s = Some f ->
                             _folder_cache st' !! s = Some f).
  { intros s f Hs. rewrite Hcache, lookup_insert_ne; [done|]. congruence. }
  assert (Hnew : _folder_cache st' !! uuid4 (uuids_drawn st) = Some nf).
  { rewrite Hcache. apply lookup_insert_eq. }
  assert (Htl : dpt = 1%Z -> top_level nf).
  { intros Hd. destruct (Htop Hd) as [-> Hns]. split; [|by rewrite Hlbl].
    by rewrite Hpath, Hlbl. }
  split; [split|].
  - intros k e md Hin.
    assert (Hcase : In (k, (e, md)) (vector_store st) \/ md = folder_meta nf).
    { destruct (generate_embedding _) as [v|].
      - destruct Hvs as [Hvs _]. rewrite Hvs in Hin.
        apply in_app_or in Hin as [Hin | [[= _ _ <-] | []]]; [by left | by right].
      - rewrite Hvs in Hin. by left. }
    destruct Hcase as [Hin' | ->].
    + destruct (K1 k e md Hin') as (s & f & Hs & Hc & Ht).
      exists s, f. split; [done|]. split; [by apply Hold | done].
    + exists (uuid4 (uuids_drawn st)), nf.
      rewrite folder_meta_folder_id, folder_meta_depth, Hid, Hdep.
      split; [done|]. split; [done|]. simpl. intros Hd.
      apply Htl. by apply Z.eqb_eq.
  - intros d l f Hl Hin.
    assert (Hcase : (exists l0, _folders_by_depth st !! d = Some l0 /\ In f l0)
                    \/ (f = nf /\ d = dpt)).
    { rewrite Hbd in Hl. destruct (dpt <=? 3)%Z; [|left; by exists l].
      unfold by_depth_append in Hl.
      apply lookup_insert_Some in Hl as [[<- <-] | [_ Hl]]; [|left; by exists l].
      apply in_app_or in Hin as [Hin | [<- | []]]; [|by right].
      left. destruct (_folders_by_depth st !! dpt) as [l0|]; [|done].
      by exists l0. }
    destruct Hcase as [(l0 & Hl0 & Hin0) | [-> ->]].
    + destruct (K2 d l0 f Hl0 Hin0) as (f' & Hc & Ht).
      exists f'. split; [by apply Hold | done].
    + exists nf. by rewrite Hid.
  - intros k Hk. rewrite Hn in Hk. destruct (Hf k ltac:(lia)) as [Hc Hv].
    assert (Hne : uuid4 k <> uuid4 (uuids_drawn st)).
    { intros E. apply uuid4_inj in E. lia. }
    split.
    + rewrite Hcache, lookup_insert_ne; [done|]. congruence.
    + destruct (generate_embedding _) as [v|]; [|by rewrite Hvs].
      destruct Hvs as [Hvs _]. rewrite Hvs, map_app. intros Hin.
      apply in_app_or in Hin as [Hin | [E | []]]; [done|].
      simpl in E. apply Hne. symmetry. by apply folder_key_inj.
Qed.

(** *** A creation at another depth does not disturb a level search *)

Lemma walk_insert_fresh cache P text dpt thr l n id x :
  cache !! id = None -> Forall (good_hit cache P) l ->
  walk (<[id := x]> cache) text dpt thr l n = walk cache text dpt thr l n.
Proof.
  intros Hnone. induction 1 as [|h l (s & f & Hs & Hc & _) _ IH]; simpl; [done|].
  destruct (Rltb (hit_score h) thr); [done|].
  rewrite (resolve_cached cache dpt h n s f Hs Hc).
  rewrite (resolve_cached (<[id := x]> cache) dpt h n s f Hs).
  - by rewrite IH.
  - rewrite lookup_insert_ne; [done|]. congruence.
Qed.

Lemma folder_meta_other_depth dpt pid f :
  depth f <> dpt -> md_matches (Some (search_filter dpt pid)) (folder_meta f) = false.
Proof.
  intros Hd. destruct (md_matches _ _) eqn:E; [|done].
  apply md_matches_depth in E. rewrite folder_meta_depth in E. simpl in E.
  apply Z.eqb_eq in E. done.
Qed.

Lemma ranked_frame st lbl d' parent als nf st' q dpt pid :
  fresh uuid4 st -> d' <> dpt ->
  _create_folder st lbl d' parent als = (nf, st') ->
  ranked_candidates st' q dpt pid = ranked_candidates st q dpt pid.
Proof.
  intros Hf Hd Hcr.
  destruct (create_folder_state st lbl d' parent als nf st' Hf Hcr)
    as (Hid & Hpath & Hlbl & Hdep & Hpar & Hcache & Hn & Hbd & Hvs).
  assert (Hscan : scan (vector_store st') q (Some (search_filter dpt pid))
                  = scan (vector_store st) q (Some (search_filter dpt pid))).
  { destruct (generate_embedding _) as [v|]; [|by rewrite Hvs].
    destruct Hvs as [-> _]. rewrite scan_app. cbn [scan].
    rewrite folder_meta_other_depth by congruence. apply app_nil_r. }
  assert (Hlook : _folders_by_depth st' !! dpt = _folders_by_depth st !! dpt).
  { rewrite Hbd. destruct (d' <=? 3)%Z; [|done].
    unfold by_depth_append. by rewrite lookup_insert_ne. }
  unfold ranked_candidates, search, augment. by rewrite Hscan, Hlook.
Qed.

Lemma best_frame st lbl d' parent als nf st' text dpt pid thr :
  consistent st -> fresh uuid4 st -> d' <> dpt ->
  _create_folder st lbl d' parent als = (nf, st') ->
  best st' text dpt pid thr = best st text dpt pid thr.
Proof.
  intros Hc Hf Hd Hcr. unfold best_of.
  destruct (generate_embedding text) as [q|]; [|done].
  rewrite (ranked_frame st lbl d' parent als nf st' q dpt pid Hf Hd Hcr).
  destruct (create_folder_state st lbl d' parent als nf st' Hf Hcr)
    as (_ & _ & _ & _ & _ & -> & _).
  destruct (Hf (uuids_drawn st) (le_n _)) as [Hnone _].
  by rewrite (walk_insert_fresh _ _ _ _ _ _ _ _ _ Hnone (ranked_good st q dpt pid Hc)).
Qed.


(** *** A created folder is found again *)

Lemma hit_path_cached cache h s f :
  md_get (hit_meta h) "folder_id" = MStr s -> cache !! s = Some f ->
  hit_path cache h = Some (path f).
Proof. intros Hs Hc. unfold hit_path. by rewrite Hs, Hc. Qed.

Lemma accepted_high cache P text thr h :
  good_hit cache P h -> (thr <= hit_score h)%R -> (0.95 < hit_score h)%R ->
  accepted thresholds cache text thr h = true.
Proof.
  intros (s & f & Hs & Hc & _) Ht Hh. unfold accepted.
  rewrite (hit_path_cached cache h s f Hs Hc).
  rewrite (proj2 (Rltb_false _ _) Ht). simpl. by apply sanity_check_high.
Qed.

Lemma walk_some cache P text dpt thr l :
  Forall (good_hit cache P) l ->
  Exists (fun h => accepted thresholds cache text thr h = true) l ->
  (walk cache text dpt thr l 0).1.1 <> None.
Proof.
  induction 1 as [|h l Hg _ IH]; intros Hex; [by inversion Hex|].
  pose proof Hg as (s & f & Hs & Hc & _). cbn [FolderMatcher.walk].
  rewrite (resolve_cached cache dpt h 0 s f Hs Hc).
  destruct (Rltb (hit_score h) thr) eqn:E1.
  - apply IH. inversion Hex as [? ? Hh | ? ? Ht]; subst; [|done].
    unfold accepted in Hh. by rewrite E1 in Hh.
  - destruct (_sanity_check thresholds text (path f) (hit_score h)) eqn:E2; [done|].
    apply IH. inversion Hex as [? ? Hh | ? ? Ht]; subst; [|done].
    unfold accepted in Hh.
    rewrite (hit_path_cached cache h s f Hs Hc), E2 in Hh.
    by rewrite andb_false_r in Hh.
Qed.

Lemma sort_desc_snoc_max l x :
  Forall (fun y => (hit_score y < hit_score x)%R) l ->
  sort_desc (l ++ [x]) = x :: sort_desc l.
Proof.
  induction 1 as [|y l Hy _ IH]; [done|].
  cbn [app sort_desc]. rewrite IH. cbn [insert_desc].
  by rewrite (proj2 (Rltb_true _ _) Hy).
Qed.

Lemma insert_desc_max x l :
  (forall y, In y l -> (hit_score y <= hit_score x)%R) -> insert_desc x l = x :: l.
Proof.
  destruct l as [|y l]; [done|]. intros H. cbn [insert_desc].
  by rewrite (proj2 (Rltb_false _ _) (H y (or_introl eq_refl))).
Qed.

Lemma sorted_head_max h0 t h :
  StronglySorted by_score_desc (h0 :: t) -> In h (h0 :: t) ->
  (hit_score h <= hit_score h0)%R.
Proof.
  intros Hs [<- | Hin]; [lra|].
  apply StronglySorted_inv in Hs as [_ Hall].
  rewrite List.Forall_forall in Hall. by apply Hall.
Qed.

Lemma folder_meta_matches dpt pid f :
  depth f = dpt -> (truthy_id pid = true -> parent_id f = pid) ->
  md_matches (Some (search_filter dpt pid)) (folder_meta f) = true.
Proof.
  intros Hd Hp. apply md_matches_exact. intros k v Hk.
  apply search_filter_keys in Hk as [[-> ->] | [[-> ->] | (-> & -> & Ht)]].
  - rewrite folder_meta_depth, Hd. apply mval_eqb_refl.
  - by rewrite folder_meta_type.
  - rewrite folder_meta_parent_id, (Hp Ht). apply mval_eqb_refl.
Qed.

(** When the level search found nothing, no stored vector that passes the
    filter is parallel to the query. *)
Lemma scores_below st text dpt pid thr q :
  consistent st -> (thr <= 1)%R ->
  generate_embedding text = Some q ->
  (best st text dpt pid thr).1 = None ->
  Forall (fun h => (hit_score h < 1)%R)
         (scan (vector_store st) q (Some (search_filter dpt pid))).
Proof.
  intros Hc Hthr Hq Hbest. apply List.Forall_forall. intros h Hin.
  destruct (Rlt_dec (hit_score h) 1) as [|Hge]; [done|]. exfalso.
  unfold best_of in Hbest. rewrite Hq in Hbest. revert Hbest.
  apply (walk_some _ _ _ _ _ _ (ranked_good st q dpt pid Hc)).
  pose proof (sort_desc_sorted (scan (vector_store st) q (Some (search_filter dpt pid))))
    as Hsorted.
  assert (Hin' : In h (sort_desc (scan (vector_store st) q
                                       (Some (search_filter dpt pid))))).
  { eapply Permutation_in; [symmetry; apply sort_desc_perm | done]. }
  assert (Hranked : forall h0 t,
            sort_desc (scan (vector_store st) q (Some (search_filter dpt pid)))
              = h0 :: t -> In h0 (ranked_candidates st q dpt pid)).
  { intros h0 t E. unfold ranked_candidates.
    eapply Permutation_in; [symmetry; apply sort_desc_perm|].
    apply augment_incl. unfold search, PyStr.slice_to. rewrite E. by left. }
  destruct (sort_desc _) as [|h0 t] eqn:E; [done|].
  pose proof (sorted_head_max h0 t h Hsorted Hin') as Hmax.
  specialize (Hranked h0 t eq_refl).
  apply List.Exists_exists. exists h0. split; [done|].
  pose proof (ranked_good st q dpt pid Hc) as Hgood.
  rewrite List.Forall_forall in Hgood.
  eapply accepted_high; [by apply Hgood | lra | lra].
Qed.

Lemma refind_created st lbl dpt parent als nf st' text pid thr v :
  consistent st -> fresh uuid4 st -> (thr <= 1)%R ->
  generate_embedding text = Some v -> nonzero v ->
  generate_embedding (PyStr.replace_char "/" " > " (path_of parent lbl)) = Some v ->
  (best st text dpt pid thr).1 = None ->
  (truthy_id pid = true -> pid = folder_id <$> parent) ->
  _create_folder st lbl dpt parent als = (nf, st') ->
  best st' text dpt pid thr = (Some nf, 1%R).
Proof.
  intros Hc Hf Hthr Htext Hv Hemb Hbest Hpid Hcr.
  destruct (create_folder_state st lbl dpt parent als nf st' Hf Hcr)
    as (Hid & Hpath & Hlbl & Hdep & Hpar & Hcache & Hn & Hbd & Hvs).
  rewrite Hemb in Hvs. destruct Hvs as [Hvs Hembnf].
  set (key := ("folder_" ++ uuid4 (uuids_drawn st))%string) in *.
  set (new_hit := (Some key, 1%R, folder_meta nf) : Hit).
  assert (Hscore : forall y, In y (ranked_candidates st' v dpt pid) ->
                             (hit_score y <= 1)%R).
  { intros y Hy. by apply ranked_In in Hy as [Hy _]. }
  assert (Hranked : exists rest, ranked_candidates st' v dpt pid = new_hit :: rest).
  { assert (Hscan : scan (vector_store st') v (Some (search_filter dpt pid))
                    = (scan (vector_store st) v (Some (search_filter dpt pid))
                         ++ [new_hit])%list).
    { rewrite Hvs, scan_app. cbn [scan].
      rewrite folder_meta_matches; [|done|].
      - by rewrite (cosine_similarity_self v Hv).
      - intros Ht. by rewrite Hpar, (Hpid Ht). }
    revert Hscore. unfold ranked_candidates, search. rewrite Hscan.
    rewrite sort_desc_snoc_max
      by (by apply (scores_below st text dpt pid thr v)).
    unfold PyStr.slice_to. change (0 <=? 5)%Z with true. cbv iota.
    change (Z.to_nat 5) with 5. cbn [firstn].
    match goal with |- context [augment st' v dpt pid (new_hit :: ?l)] =>
      destruct (augment_head st' v dpt pid new_hit l) as [l' ->] end.
    cbn [sort_desc]. intros Hscore. exists (sort_desc l').
    apply insert_desc_max. intros y Hy. apply Hscore.
    eapply Permutation_in; [symmetry; apply insert_desc_perm|]. by right. }
  destruct Hranked as [rest Hranked].
  unfold best_of. rewrite Htext, Hranked. cbn [FolderMatcher.walk].
  change (hit_score new_hit) with 1%R.
  rewrite (proj2 (Rltb_false _ _) Hthr).
  rewrite (resolve_cached (_folder_cache st') dpt new_hit 0 (folder_id nf) nf).
  - rewrite sanity_check_high by lra. done.
  - apply folder_meta_folder_id.
  - rewrite Hcache, Hid. apply lookup_insert_eq.
Qed.


(** *** The three levels on a consistent state *)

Hypothesis backend_total :
  forall t, exists v, embed_content t = Some v /\ nonzero v.
Hypothesis domain_threshold_le_1 : (domain_threshold thresholds <= 1)%R.
Hypothesis subdomain_threshold_le_1 : (subdomain_threshold thresholds <= 1)%R.

Lemma generate_embedding_total t :
  has_nonspace t = true -> exists v, generate_embedding t = Some v /\ nonzero v.
Proof.
  intros H. unfold FolderMatcher.generate_embedding.
  pose proof (has_nonspace_strip t H) as Hs.
  destruct t as [|c t]; [done|]. cbn [PyStr.is_empty orb].
  destruct (PyStr.strip (String c t)); [done|]. cbn [PyStr.is_empty].
  apply backend_total.
Qed.

Lemma replace_no_slash by_ s : no_slash s -> PyStr.replace_char "/" by_ s = s.
Proof.
  unfold no_slash. induction s as [|c s IH]; simpl; [done|].
  destruct (Ascii.eqb c "/"); [done|]. simpl. intros H. by rewrite IH.
Qed.

Lemma replace_app c by_ a b :
  PyStr.replace_char c by_ (a ++ b)
  = PyStr.replace_char c by_ a ++ PyStr.replace_char c by_ b.
Proof.
  induction a as [|d a IH]; simpl; [done|]. rewrite IH.
  by rewrite append_assoc'.
Qed.

Lemma replace_child p lbl :
  top_level p -> no_slash lbl ->
  PyStr.replace_char "/" " > " (path_of (Some p) lbl) = label p ++ " > " ++ lbl.
Proof.
  intros [Hp Hns] Hl. unfold path_of. rewrite replace_app, Hp.
  rewrite (replace_no_slash _ _ Hns).
  change ("/" ++ lbl) with (String "/" lbl). cbn [PyStr.replace_char].
  rewrite Ascii.eqb_refl. by rewrite (replace_no_slash _ _ Hl).
Qed.

Lemma match_domain_reuse st c D s :
  consistent st ->
  best st (la_label (domain c)) 1 None (domain_threshold thresholds) = (Some D, s) ->
  match_domain st c = (reuse DOMAIN D s, st).
Proof.
  intros Hc Hb. unfold FolderMatcher.match_domain.
  by rewrite find_best_match_pure, Hb.
Qed.

Lemma match_subdomain_reuse st c dr D Sf s :
  consistent st -> get_folder dr = Some D ->
  best st (label D ++ " > " ++ la_label (subdomain c)) 2 (Some (folder_id D))
       (subdomain_threshold thresholds) = (Some Sf, s) ->
  match_subdomain st c dr = Some (reuse SUBDOMAIN Sf s, st).
Proof.
  intros Hc HD Hb. unfold FolderMatcher.match_subdomain.
  by rewrite HD, find_best_match_pure, Hb.
Qed.

Lemma match_domain_cases st c :
  consistent st -> fresh uuid4 st ->
  no_slash (la_label (domain c)) -> has_nonspace (la_label (domain c)) = true ->
  exists dr X D s,
    match_domain st c = (dr, X) /\ get_folder dr = Some D /\ top_level D
    /\ consistent X /\ fresh uuid4 X
    /\ best X (la_label (domain c)) 1 None (domain_threshold thresholds) = (Some D, s).
Proof.
  intros Hc Hf Hns Hnb. unfold FolderMatcher.match_domain.
  rewrite find_best_match_pure by done.
  destruct (best st (la_label (domain c)) 1 None (domain_threshold thresholds))
    as [[D|] s] eqn:Hb.
  - eexists _, st, D, s. split; [reflexivity|]. split; [done|].
    split; [by eapply best_top_level|]. repeat (split; [done|]). done.
  - destruct (_create_folder st (la_label (domain c)) 1 None (la_aliases (domain c)))
      as [nf X] eqn:Hcr.
    destruct (create_folder_state _ _ _ _ _ _ _ Hf Hcr)
      as (_ & Hpath & Hlbl & _).
    destruct (create_folder_consistent st (la_label (domain c)) 1 None
                (la_aliases (domain c)) nf X Hc Hf ltac:(done) Hcr)
      as [HcX HfX].
    destruct (generate_embedding_total _ Hnb) as (v & Hv & Hnz).
    eexists _, X, nf, 1%R. split; [reflexivity|]. split; [done|].
    split; [split; [by rewrite Hpath, Hlbl | by rewrite Hlbl]|].
    split; [done|]. split; [done|].
    apply (refind_created st (la_label (domain c)) 1 None (la_aliases (domain c))
             nf X (la_label (domain c)) None (domain_threshold thresholds) v
             Hc Hf domain_threshold_le_1 Hv Hnz); [| by rewrite Hb | done | done].
    cbn [path_of]. by rewrite replace_no_slash.
Qed.

Lemma match_subdomain_cases X c dr D s0 :
  consistent X -> fresh uuid4 X -> no_slash (la_label (subdomain c)) ->
  get_folder dr = Some D -> top_level D ->
  best X (la_label (domain c)) 1 None (domain_threshold thresholds) = (Some D, s0) ->
  exists sr Y Sf s1,
    match_subdomain X c dr = Some (sr, Y) /\ get_folder sr = Some Sf
    /\ consistent Y /\ fresh uuid4 Y
    /\ best Y (la_label (domain c)) 1 None (domain_threshold thresholds) = (Some D, s0)
    /\ best Y (label D ++ " > " ++ la_label (subdomain c)) 2 (Some (folder_id D))
            (subdomain_threshold thresholds) = (Some Sf, s1).
Proof.
  intros Hc Hf Hns HD Htop HbD. unfold FolderMatcher.match_subdomain.
  rewrite HD. rewrite find_best_match_pure by done.
  destruct (best X (label D ++ " > " ++ la_label (subdomain c)) 2
                 (Some (folder_id D)) (subdomain_threshold thresholds))
    as [[Sf|] s] eqn:Hb.
  - eexists _, X, Sf, s. split; [reflexivity|]. repeat (split; [done|]). done.
  - rewrite find_best_match_pure by done. cbv beta iota zeta.
    destruct (_create_folder X (la_label (subdomain c)) 2 (Some D)
                            (la_aliases (subdomain c))) as [nf Y] eqn:Hcr.
    destruct (create_folder_consistent X (la_label (subdomain c)) 2 (Some D)
                (la_aliases (subdomain c)) nf Y Hc Hf ltac:(done) Hcr)
      as [HcY HfY].
    destruct (generate_embedding_total _
                (has_nonspace_arrow (label D) (la_label (subdomain c))))
      as (v & Hv & Hnz).
    eexists _, Y, nf, 1%R. split; [reflexivity|]. split; [done|].
    split; [done|]. split; [done|]. split.
    + rewrite <- HbD.
      by apply (best_frame X (la_label (subdomain c)) 2 (Some D)
                  (la_aliases (subdomain c)) nf Y).
    + apply (refind_created X (la_label (subdomain c)) 2 (Some D)
               (la_aliases (subdomain c)) nf Y
               (label D ++ " > " ++ la_label (subdomain c)) (Some (folder_id D))
               (subdomain_threshold thresholds) v
               Hc Hf subdomain_threshold_le_1 Hv Hnz);
        [| by rewrite Hb | done | done].
      by rewrite replace_child.
Qed.

Lemma match_leaf_get_folder st c sr sr' :
  get_folder sr = get_folder sr' -> match_leaf st c sr = match_leaf st c sr'.
Proof. intros H. unfold FolderMatcher.match_leaf. by rewrite H. Qed.

Lemma match_leaf_cases Y c sr :
  consistent Y -> fresh uuid4 Y ->
  exists lr Z,
    match_leaf Y c sr = (lr, Z) /\ consistent Z
    /\ (forall text dpt pid thr, dpt <> 3%Z ->
          best Z text dpt pid thr = best Y text dpt pid thr)
    /\ ((forall r, lr = Some r -> action r <> ATTACH_AS_CHILD) ->
        Z = Y
        /\ forall r, lr = Some r -> created_by [CREATE_NEW; ATTACH_AS_CHILD] r = []).
Proof.
  intros Hc Hf. unfold FolderMatcher.match_leaf.
  destruct (leaf_topic c) as [leaf|]; [|by eexists _, Y].
  destruct (la_optional leaf && Rltb _ _).
  { eexists _, Y. split; [reflexivity|]. split; [done|]. split; [done|].
    intros _. split; [done|]. by intros r [= <-]. }
  destruct (get_folder sr) as [Sf|]; [|by eexists _, Y].
  rewrite find_best_match_pure by done.
  destruct (best Y _ 3 _ _) as [[f|] s].
  { eexists _, Y. split; [reflexivity|]. split; [done|]. split; [done|].
    intros _. split; [done|]. by intros r [= <-]. }
  destruct (max_depth thresholds <=? depth Sf)%Z.
  { eexists _, Y. split; [reflexivity|]. split; [done|]. split; [done|].
    intros _. split; [done|]. by intros r [= <-]. }
  destruct (la_optional leaf).
  { eexists _, Y. split; [reflexivity|]. split; [done|]. split; [done|].
    intros _. split; [done|]. by intros r [= <-]. }
  destruct (_create_folder Y (la_label leaf) 3 (Some Sf) (la_aliases leaf))
    as [nf Z] eqn:Hcr.
  destruct (create_folder_consistent Y (la_label leaf) 3 (Some Sf) (la_aliases leaf)
              nf Z Hc Hf ltac:(done) Hcr)
    as [HcZ _].
  eexists _, Z. split; [reflexivity|]. split; [done|]. split.
  - intros text dpt pid thr Hd.
    by apply (best_frame Y (la_label leaf) 3 (Some Sf) (la_aliases leaf) nf Z).
  - intros H. exfalso. by eapply H.
Qed.


(** Idempotence with scores read as real numbers. Let the store be
    consistent with the folder cache, the identifiers not yet drawn be
    unused, the backend embed every text as a non-zero vector, and the
    domain and subdomain thresholds be at most 1. For a candidate whose
    domain and subdomain labels hold no "/" and whose domain label is not
    blank, [match] returns twice in sequence, and the second call reuses at
    the domain and at the subdomain level the very folders the first call
    resolved. If moreover the first call created no leaf folder, both calls
    yield the same final path, the second call creates no folder and leaves
    the state as it found it. *)
Lemma match_twice_exact (st : Matcher) (c : TaxonomyCandidate) :
  consistent st -> fresh uuid4 st ->
  no_slash (la_label (domain c)) -> no_slash (la_label (subdomain c)) ->
  has_nonspace (la_label (domain c)) = true ->
  exists m1 st1 m2 st2,
    match_ st c = Some (m1, st1) /\ match_ st1 c = Some (m2, st2)
    /\ action (domain_result m2) = REUSE_EXISTING
    /\ action (subdomain_result m2) = REUSE_EXISTING
    /\ get_folder (domain_result m2) = get_folder (domain_result m1)
    /\ get_folder (subdomain_result m2) = get_folder (subdomain_result m1)
    /\ ((forall r, leaf_result m1 = Some r -> action r <> ATTACH_AS_CHILD) ->
        get_final_path m2 = get_final_path m1
        /\ get_created_folders m2 = [] /\ st2 = st1).
Proof.
  intros Hc Hf HnsD HnsS Hnb.
  destruct (match_domain_cases st c Hc Hf HnsD Hnb)
    as (dr1 & X & D & s0 & E1 & HD1 & Htop & HcX & HfX & HbX).
  destruct (match_subdomain_cases X c dr1 D s0 HcX HfX HnsS HD1 Htop HbX)
    as (sr1 & Y & Sf & s1 & E2 & HS1 & HcY & HfY & HbYD & HbYS).
  destruct (match_leaf_cases Y c sr1 HcY HfY) as (lr1 & Z & E3 & HcZ & Hframe & Hleaf).
  assert (Hm1 : match_ st c
                = Some ({| domain_result := dr1; subdomain_result := sr1;
                           leaf_result := lr1 |}, Z)).
  { unfold FolderMatcher.match_. by rewrite E1, E2, E3. }
  assert (E1' : match_domain Z c = (reuse DOMAIN D s0, Z)).
  { apply match_domain_reuse; [done|]. by rewrite Hframe. }
  assert (E2' : match_subdomain Z c (reuse DOMAIN D s0)
                = Some (reuse SUBDOMAIN Sf s1, Z)).
  { apply (match_subdomain_reuse Z c _ D); [done | done |]. by rewrite Hframe. }
  destruct (match_leaf Z c (reuse SUBDOMAIN Sf s1)) as [lr2 Z2] eqn:E3'.
  eexists _, Z, {| domain_result := reuse DOMAIN D s0;
                   subdomain_result := reuse SUBDOMAIN Sf s1;
                   leaf_result := lr2 |}, Z2.
  split; [exact Hm1|]. split.
  { unfold FolderMatcher.match_. by rewrite E1', E2', E3'. }
  cbn [domain_result subdomain_result leaf_result].
  split; [done|]. split; [done|]. split; [by rewrite HD1|].
  split; [by rewrite HS1|].
  intros Hno. destruct (Hleaf Hno) as [-> Hcreated].
  rewrite (match_leaf_get_folder Y c (reuse SUBDOMAIN Sf s1) sr1) in E3'
    by (by rewrite HS1).
  rewrite E3 in E3'. injection E3' as <- <-.
  split; [|split; [|done]].
  - unfold get_final_path. cbn [domain_result subdomain_result leaf_result].
    by rewrite HD1, HS1.
  - unfold get_created_folders. cbn [domain_result subdomain_result leaf_result].
    destruct lr1 as [r|]; [|done]. by rewrite (Hcreated r eq_refl).
Qed.


End Idempotence.

Lemma empty_domain_first_match :
  exists m1 st1,
    match_ constant_backend sample_uuid4 default_thresholds new_matcher
           empty_domain_candidate = Some (m1, st1)
    /\ action (domain_result m1) = CREATE_NEW
    /\ forall m2 st2,
         match_ constant_backend sample_uuid4 default_thresholds st1
                empty_domain_candidate = Some (m2, st2) ->
         action (domain_result m2) = CREATE_NEW
         /\ get_created_folders m2 <> [].
Proof.
  eexists _, _. split; [reflexivity|]. split; [reflexivity|].
  intros m2 st2. unfold match_, match_domain.
  rewrite find_best_match_embedding_failure by reflexivity.
  destruct (_create_folder _ _ _ _ _ _ _) as [nf st'].
  destruct (match_subdomain _ _ _ _ _ _) as [[sr st'']|]; [|done].
  destruct (match_leaf _ _ _ _ _ _) as [lr st3].
  intros [= <- <-]. by repeat split.
Qed.


Lemma folder_key_inj' a b : "uuid-" ++ a = "uuid-" ++ b -> a = b.
Proof. simpl. by intros [= ->]. Qed.

Lemma sample_uuid4_inj i j : sample_uuid4 i = sample_uuid4 j -> i = j.
Proof.
  unfold sample_uuid4. intros H. apply folder_key_inj' in H.
  apply Unsigned.to_uint_inj.
  pose proof (NilEmpty.usu (Nat.to_uint i)) as Hi.
  pose proof (NilEmpty.usu (Nat.to_uint j)) as Hj.
  rewrite H in Hi. congruence.
Qed.

Lemma new_matcher_consistent : consistent new_matcher.
Proof.
  split.
  - intros k e md [].
  - intros d l f Hl Hin. unfold new_matcher in Hl. cbn [_folders_by_depth] in Hl.
    repeat (apply lookup_insert_Some in Hl as [[_ <-] | [_ Hl]]; [done|]).
    by rewrite lookup_empty in Hl.
Qed.

Lemma new_matcher_fresh uuid4 : fresh uuid4 new_matcher.
Proof. intros k _. split; [apply lookup_empty | by intros []]. Qed.

Lemma constant_backend_total t :
  exists v, constant_backend t = Some v /\ nonzero v.
Proof. exists [1; 0]%R. split; [done|]. apply Exists_cons_hd. lra. Qed.


Lemma constant_backend_moderate t :
  exists v, constant_backend t = Some v /\ nonzero v /\ moderate v.
Proof.
  exists [1; 0]%R. split; [done|]. split; [apply Exists_cons_hd; lra|].
  split; [cbn [length]; lia|].
  assert (H1 : (1 <= 2 ^ 100)%R) by (apply pow_R1_Rle; lra).
  assert (H2 : (/ 2 ^ 100 <= 1)%R).
  { rewrite <- Rinv_1. apply Rinv_le_contravar; lra. }
  apply List.Forall_cons; [right; rewrite Rabs_R1; lra|].
  apply List.Forall_cons; [by left|]. apply List.Forall_nil.
Qed.


(** ** The vector index as a dictionary *)

Lemma has_vector_In vs k : has_vector vs k = true <-> In k (map fst vs).
Proof.
  unfold has_vector. rewrite existsb_exists, in_map_iff. split.
  - intros ([k' v] & Hin & E). apply String.eqb_eq in E. simpl in E. subst.
    by exists (k, v).
  - intros ([k' v] & E & Hin). simpl in E. subst. exists (k, v).
    split; [done|]. apply String.eqb_refl.
Qed.

Lemma get_vector_None vs k : get_vector vs k = None <-> ~ In k (map fst vs).
Proof.
  induction vs as [|[k' v] vs IH]; simpl; [tauto|].
  destruct (String.eqb k' k) eqn:E.
  - apply String.eqb_eq in E. subst. split; [done|]. intros H. exfalso. apply H. by left.
  - apply String.eqb_neq in E. rewrite IH. tauto.
Qed.

Lemma get_vector_In vs k v : get_vector vs k = Some v -> In (k, v) vs.
Proof.
  induction vs as [|[k' v'] vs IH]; simpl; [done|].
  destruct (String.eqb k' k) eqn:E.
  - apply String.eqb_eq in E. subst. intros [= ->]. by left.
  - intros H. right. by apply IH.
Qed.

Lemma del_vector_ids vs k k' :
  In k' (map fst (del_vector vs k)) -> In k' (map fst vs).
Proof.
  induction vs as [|[k0 v] vs IH]; simpl; [done|].
  destruct (String.eqb k0 k); simpl; [by right|].
  intros [H | H]; [by left | right; by apply IH].
Qed.

Lemma del_vector_unique vs k : unique_ids vs -> unique_ids (del_vector vs k).
Proof.
  unfold unique_ids. induction vs as [|[k0 v] vs IH]; simpl; [done|].
  intros H. apply NoDup_cons in H as [H1 H2].
  destruct (String.eqb k0 k); simpl; [done|].
  apply NoDup_cons. split; [|by apply IH].
  rewrite list_elem_of_In in *. intros Hin. apply H1. by eapply del_vector_ids.
Qed.

Lemma get_del_vector vs k k' :
  unique_ids vs ->
  get_vector (del_vector vs k) k' = if String.eqb k k' then None else get_vector vs k'.
Proof.
  unfold unique_ids. induction vs as [|[k0 v] vs IH]; simpl.
  - by destruct (String.eqb k k').
  - intros H. apply NoDup_cons in H as [H1 H2]. rewrite list_elem_of_In in H1.
    destruct (String.eqb k0 k) eqn:E0.
    + apply String.eqb_eq in E0. subst k0.
      destruct (String.eqb k k') eqn:E; [|done].
      apply String.eqb_eq in E. subst k'. by apply get_vector_None.
    + simpl. rewrite (IH H2).
      destruct (String.eqb k0 k') eqn:E1; [|done].
      apply String.eqb_eq in E1. subst k'.
      rewrite String.eqb_sym in E0. by rewrite E0.
Qed.

Lemma del_vector_absent vs k : ~ In k (map fst vs) -> del_vector vs k = vs.
Proof.
  induction vs as [|[k0 v] vs IH]; simpl; [done|]. intros H.
  destruct (String.eqb k0 k) eqn:E.
  - apply String.eqb_eq in E. subst. exfalso. apply H. by left.
  - rewrite IH; [done|]. intros Hin. apply H. by right.
Qed.

(** X1. Storing a vector and reading it back: after [add_vector] the
    identifier written reads as the embedding and metadata just stored, and
    every other identifier reads as before. *)
Theorem get_vector_add_vector (vs : list Stored) (k k' : string) (e : list R)
    (md : gmap string mval) :
  get_vector (add_vector vs k e md) k'
  = if String.eqb k k' then Some (e, md) else get_vector vs k'.
Proof.
  induction vs as [|[k0 v] vs IH]; simpl.
  - by destruct (String.eqb k k').
  - destruct (String.eqb k0 k) eqn:E0; simpl.
    + apply String.eqb_eq in E0. subst k0. by destruct (String.eqb k k').
    + rewrite IH. destruct (String.eqb k0 k') eqn:E1; [|done].
      apply String.eqb_eq in E1. subst k'.
      rewrite String.eqb_sym in E0. by rewrite E0.
Qed.

(** X2. [add_vector] keeps the index a dictionary in insertion order: an
    identifier already stored keeps its position and the list of identifiers
    is unchanged, a new identifier goes last, and no identifier is ever
    stored twice. *)
Theorem add_vector_ids (vs : list Stored) (k : string) (e : list R)
    (md : gmap string mval) :
  map fst (add_vector vs k e md)
  = (if has_vector vs k then map fst vs else map fst vs ++ [k])%list
  /\ (unique_ids vs -> unique_ids (add_vector vs k e md)).
Proof.
  assert (Hids : map fst (add_vector vs k e md)
                 = (if has_vector vs k then map fst vs else map fst vs ++ [k])%list).
  { unfold has_vector. induction vs as [|[k0 v] vs IH]; simpl; [done|].
    destruct (String.eqb k0 k) eqn:E0; simpl; [done|].
    rewrite IH. by case_match. }
  split; [done|]. unfold unique_ids. rewrite Hids.
  destruct (has_vector vs k) eqn:E; [done|]. intros H.
  apply NoDup_app. split; [done|]. split; [|apply NoDup_singleton].
  intros x Hx Hk. apply list_elem_of_In in Hx. apply list_elem_of_In in Hk.
  destruct Hk as [<- | []].
  apply has_vector_In in Hx. congruence.
Qed.

Lemma delete_vector_facts (vs : list Stored) (k : string) :
  unique_ids vs ->
  let '(found, vs') := delete_vector vs k in
  (found = true <-> exists v, get_vector vs k = Some v)
  /\ get_vector vs' k = None
  /\ (forall k', k' <> k -> get_vector vs' k' = get_vector vs k')
  /\ unique_ids vs'
  /\ (found = false -> vs' = vs).
Proof.
  intros Hu. unfold delete_vector. destruct (has_vector vs k) eqn:E.
  - split; [|split; [|split; [|split]]].
    + split; [|done]. intros _. apply has_vector_In in E.
      destruct (get_vector vs k) as [v|] eqn:Hg; [by exists v|].
      by apply get_vector_None in Hg.
    + rewrite get_del_vector by done. by rewrite String.eqb_refl.
    + intros k' Hk. rewrite get_del_vector by done.
      destruct (String.eqb k k') eqn:E'; [|done].
      apply String.eqb_eq in E'. congruence.
    + by apply del_vector_unique.
    + done.
  - assert (Hn : ~ In k (map fst vs)).
    { intros H. apply has_vector_In in H. congruence. }
    split; [|split; [|split; [|split]]]; try done.
    + split; [done|]. intros [v Hv]. apply get_vector_None in Hn. congruence.
    + by apply get_vector_None.
Qed.

(** X3. [delete_vector] on a dictionary: the flag tells whether the
    identifier was stored; afterwards the identifier reads as absent, every
    other identifier reads as before, and deleting an absent identifier
    leaves the store as it was. *)
Theorem delete_vector_spec (vs : list Stored) (k : string) :
  unique_ids vs ->
  let '(found, vs') := delete_vector vs k in
  (found = true <-> exists v, get_vector vs k = Some v)
  /\ get_vector vs' k = None
  /\ (forall k', k' <> k -> get_vector vs' k' = get_vector vs k')
  /\ unique_ids vs'
  /\ (found = false -> vs' = vs).
Proof. apply delete_vector_facts. Qed.

Lemma sample_store_unique : unique_ids sample_store.
Proof.
  unfold unique_ids, sample_store. simpl.
  apply NoDup_cons. split; [by rewrite list_elem_of_In; intros [? | []]|].
  apply NoDup_cons. split; [by rewrite list_elem_of_In; intros []|]. apply NoDup_nil_2.
Qed.

Lemma add_vector_ids_witness :
  unique_ids (add_vector sample_store "c" [1; 1]%R ∅).
Proof.
  apply (proj2 (add_vector_ids sample_store "c" [1; 1]%R ∅)), sample_store_unique.
Defined.

Lemma delete_vector_spec_witness :
  let '(found, vs') := delete_vector sample_store "a" in
  (found = true <-> exists v, get_vector sample_store "a" = Some v)
  /\ get_vector vs' "a" = None
  /\ (forall k', k' <> "a" -> get_vector vs' k' = get_vector sample_store k')
  /\ unique_ids vs'
  /\ (found = false -> vs' = sample_store).
Proof. apply (delete_vector_spec sample_store "a" sample_store_unique). Defined.

(** X4. A deleted vector is never found again: no hit of a [search] over
    the store left by [delete_vector] carries the deleted identifier, and
    every hit it returns is a hit over stored data (its identifier, its
    metadata and its similarity to the query are those of a stored
    vector). *)
Theorem search_after_delete (vs : list Stored) (k : string) (q : list R)
    (top_k : Z) (flt : option (gmap string mval)) (h : Hit) :
  unique_ids vs ->
  In h (search (delete_vector vs k).2 q top_k flt) ->
  hit_id h <> Some k
  /\ exists k' e, hit_id h = Some k' /\ get_vector vs k' = Some (e, hit_meta h)
                  /\ cosine_similarity q e = Some (hit_score h).
Proof.
  intros Hu Hin.
  pose proof (delete_vector_facts vs k Hu) as Hd.
  destruct (delete_vector vs k) as [found vs'] eqn:E. simpl in Hin.
  destruct Hd as (_ & Hnone & Hother & Hu' & _).
  apply search_In, scan_In in Hin as (k' & e & md & Hin & Hh & Hc & _).
  assert (Hg : get_vector vs' k' = Some (e, md)).
  { clear -Hin Hu'. unfold unique_ids in Hu'.
    induction vs' as [|[k0 v] vs' IH]; simpl; [done|].
    simpl in Hu'. apply NoDup_cons in Hu' as [H1 H2]. rewrite list_elem_of_In in H1.
    destruct Hin as [[= -> ->] | Hin]; [by rewrite String.eqb_refl|].
    destruct (String.eqb k0 k') eqn:E0; [|by apply IH].
    apply String.eqb_eq in E0. subst k0. exfalso. apply H1.
    apply in_map_iff. by exists (k', (e, md)). }
  assert (Hne : k' <> k) by (intros ->; congruence).
  rewrite Hh. unfold hit_id, hit_meta, hit_score. simpl. split; [congruence|].
  exists k', e. split; [done|]. split; [|by rewrite Hh in Hc].
  by rewrite <- Hother.
Qed.

Lemma search_after_delete_witness :
  hit_id (Some "b", 1%R, ∅) <> Some "a"
  /\ exists k' e, hit_id (Some "b", 1%R, ∅ : gmap string mval) = Some k'
                  /\ get_vector sample_store k' = Some (e, hit_meta (Some "b", 1%R, ∅))
                  /\ cosine_similarity [0; 1]%R e = Some (hit_score (Some "b", 1%R, ∅)).
Proof.
  apply (search_after_delete sample_store "a" [0; 1]%R 5 None (Some "b", 1%R, ∅)
           sample_store_unique).
  assert (E : cosine_similarity [0; 1]%R [0; 1]%R = Some 1%R).
  { apply cosine_similarity_self. apply Exists_cons_tl, Exists_cons_hd. lra. }
  unfold search, delete_vector. simpl. rewrite E. simpl. by left.
Defined.

(** ** Similarity: algebra *)

Lemma dot_comm (a b : list R) : dot a b = dot b a.
Proof.
  revert b. induction a as [|x a IH]; intros [|y b]; simpl; try done.
  rewrite IH. lra.
Qed.

Lemma cosine_similarity_comm (a b : list R) :
  cosine_similarity a b = cosine_similarity b a.
Proof.
  unfold cosine_similarity. rewrite (Nat.eqb_sym (length b)).
  rewrite (dot_comm b a), (orb_comm (Reqb (norm b) 0)).
  by rewrite (Rmult_comm (norm b)).
Qed.

(** X5. Cosine similarity is symmetric, also in its failure: swapping the
    two vectors gives the same similarity, or the same dimension error. *)
Theorem cosine_similarity_sym (a b : list R) :
  cosine_similarity a b = cosine_similarity b a.
Proof. apply cosine_similarity_comm. Qed.

(** ** [find_most_similar] *)

Lemma insert_scored_perm x l : Permutation (insert_scored x l) (x :: l).
Proof.
  induction l as [|y l IH]; simpl; [done|].
  destruct (Rltb x.2 y.2); [|done].
  rewrite IH. apply perm_swap.
Qed.

Lemma sort_scored_perm l : Permutation (sort_scored l) l.
Proof.
  induction l as [|x l IH]; simpl; [done|].
  rewrite insert_scored_perm. by constructor.
Qed.

Lemma insert_scored_sorted x l :
  StronglySorted scored_desc l -> StronglySorted scored_desc (insert_scored x l).
Proof.
  induction 1 as [|y l Hs IH Hall]; simpl.
  - constructor; constructor.
  - destruct (Rltb x.2 y.2) eqn:E.
    + apply Rltb_true in E. constructor; [done|].
      apply List.Forall_forall. intros z Hz.
      eapply Permutation_in in Hz; [|apply insert_scored_perm].
      destruct Hz as [<- | Hz]; [unfold scored_desc; lra|].
      by eapply List.Forall_forall in Hall.
    + apply Rltb_false in E. constructor; [by constructor|].
      constructor; [done|].
      eapply Forall_impl; [exact Hall|]. unfold scored_desc. intros z Hz. lra.
Qed.

Lemma sort_scored_sorted l : StronglySorted scored_desc (sort_scored l).
Proof.
  induction l as [|x l IH]; simpl; [constructor|]. by apply insert_scored_sorted.
Qed.

Lemma similar_scan_In q cands thr id s :
  In (id, s) (similar_scan q cands thr)
  <-> exists e, In (id, e) cands /\ cosine_similarity q e = Some s /\ (thr <= s)%R.
Proof.
  induction cands as [|[id0 e0] cands IH]; simpl.
  - split; [done | by intros (? & [] & _)].
  - destruct (cosine_similarity q e0) as [s0|] eqn:Hc.
    + destruct (Rltb s0 thr) eqn:Hlt; simpl.
      * rewrite IH. apply Rltb_true in Hlt. split.
        -- intros (e & Hin & Hrest). exists e. split; [by right | done].
        -- intros (e & [[= -> ->] | Hin] & Hs & Ht); [|by exists e].
           rewrite Hc in Hs. injection Hs as ->. lra.
      * apply Rltb_false in Hlt. rewrite IH. split.
        -- intros [[= -> ->] | (e & Hin & Hrest)].
           ++ exists e0. split; [by left | done].
           ++ exists e. split; [by right | done].
        -- intros (e & [[= -> ->] | Hin] & Hs & Ht).
           ++ left. congruence.
           ++ right. by exists e.
    + rewrite IH. split.
      * intros (e & Hin & Hrest). exists e. split; [by right | done].
      * intros (e & [[= -> ->] | Hin] & Hs & Ht); [congruence | by exists e].
Qed.

Lemma similar_scan_length q cands thr :
  length (similar_scan q cands thr) <= length cands.
Proof.
  induction cands as [|[id0 e0] cands IH]; simpl; [done|].
  repeat case_match; simpl; lia.
Qed.

Lemma StronglySorted_firstn {A} (R : A -> A -> Prop) n l :
  StronglySorted R l -> StronglySorted R (firstn n l).
Proof.
  intros H. revert n. induction H as [|x l Hs IH Hall]; intros [|n]; simpl;
    try constructor; [apply IH|].
  apply List.Forall_forall. intros y Hy. eapply List.Forall_forall in Hall; [done|].
  by eapply In_take.
Qed.

(** X7. [find_most_similar] returns at most [top_k] pairs in descending
    order of similarity; each pair is a candidate with its similarity to the
    query, at or above the threshold; candidates of another dimension are
    left out instead of raising; and with [top_k] at least the number of
    candidates, every candidate at or above the threshold is returned. *)
Theorem find_most_similar_spec (q : list R) (cands : list (string * list R))
    (thr : R) (top_k : Z) :
  (0 <= top_k)%Z ->
  let res := find_most_similar q cands thr top_k in
  (Z.of_nat (length res) <= top_k)%Z
  /\ StronglySorted scored_desc res
  /\ (forall id s, In (id, s) res ->
        exists e, In (id, e) cands /\ cosine_similarity q e = Some s /\ (thr <= s)%R)
  /\ ((Z.of_nat (length cands) <= top_k)%Z ->
      forall id e s, In (id, e) cands -> cosine_similarity q e = Some s ->
                     (thr <= s)%R -> In (id, s) res).
Proof.
  intros Hk res. unfold res, find_most_similar. rewrite slice_to_nonneg by done.
  split; [|split; [|split]].
  - rewrite length_firstn. lia.
  - apply StronglySorted_firstn, sort_scored_sorted.
  - intros id s Hin. apply In_take in Hin.
    eapply Permutation_in in Hin; [|apply sort_scored_perm].
    by apply similar_scan_In.
  - intros Hlen id e s Hin Hc Ht.
    rewrite firstn_all2.
    + eapply Permutation_in; [symmetry; apply sort_scored_perm|].
      apply similar_scan_In. by exists e.
    + rewrite (Permutation_length (sort_scored_perm _)).
      pose proof (similar_scan_length q cands thr). lia.
Qed.

Lemma find_most_similar_spec_witness :
  let res := find_most_similar [1; 0]%R [("x", [4; 3]%R); ("y", [1]%R)] 0.5 5 in
  (Z.of_nat (length res) <= 5)%Z
  /\ StronglySorted scored_desc res
  /\ (forall id s, In (id, s) res ->
        exists e, In (id, e) [("x", [4; 3]%R); ("y", [1]%R)]
                  /\ cosine_similarity [1; 0]%R e = Some s /\ (0.5 <= s)%R)
  /\ ((Z.of_nat (length [("x", [4; 3]%R); ("y", [1]%R)]) <= 5)%Z ->
      forall id e s, In (id, e) [("x", [4; 3]%R); ("y", [1]%R)] ->
                     cosine_similarity [1; 0]%R e = Some s ->
                     (0.5 <= s)%R -> In (id, s) res).
Proof.
  apply (find_most_similar_spec [1; 0]%R [("x", [4; 3]%R); ("y", [1]%R)] 0.5 5).
  lia.
Defined.

(** ** Batch embedding and text similarity *)

Section ServiceProps.

Variable embed_content : string -> option (list R).

Local Abbreviation generate_embedding := (FolderMatcher.generate_embedding embed_content).
Local Abbreviation generate_embeddings_batch :=
  (EmbeddingService.generate_embeddings_batch embed_content).
Local Abbreviation compute_text_similarity :=
  (EmbeddingService.compute_text_similarity embed_content).

(** X8. [generate_embeddings_batch] never fails and answers text by text:
    the result has one vector per text, the embedding of the text where it
    can be embedded and the zero vector of the configured dimension where it
    cannot (so also for an empty or blank text); such a placeholder has
    similarity 0 to every vector of that dimension. *)
Theorem generate_embeddings_batch_spec (texts : list string) :
  length (generate_embeddings_batch texts) = length texts
  /\ (forall i text, texts !! i = Some text ->
        generate_embeddings_batch texts !! i
        = Some (default (repeat 0%R dimension) (generate_embedding text)))
  /\ (forall i text, texts !! i = Some text -> has_nonspace text = false ->
        generate_embeddings_batch texts !! i = Some (repeat 0%R dimension))
  /\ (forall v, length v = dimension ->
        cosine_similarity (repeat 0%R dimension) v = Some 0%R).
Proof.
  assert (Hi : forall i text, texts !! i = Some text ->
             generate_embeddings_batch texts !! i
             = Some (default (repeat 0%R dimension) (generate_embedding text))).
  { intros i text. unfold EmbeddingService.generate_embeddings_batch.
    revert i. induction texts as [|t texts IH]; intros [|i]; simpl; try done.
    - intros [= ->]. by destruct (generate_embedding text).
    - apply IH. }
  split; [apply length_map|]. split; [done|]. split.
  - intros i text Ht Hb. rewrite (Hi i text Ht). do 2 f_equal.
    unfold FolderMatcher.generate_embedding.
    destruct text as [|c text]; [done|]. cbn [PyStr.is_empty orb].
    replace (PyStr.strip (String c text)) with "" ; [done|].
    symmetry. clear Hi Ht. revert Hb. generalize (String c text). intros s Hs.
    unfold PyStr.strip.
    assert (Hl : PyStr.lstrip s = "").
    { induction s as [|d s IH]; simpl in *; [done|].
      destruct (PyStr.is_space d); [|done]. by apply IH. }
    by rewrite Hl.
  - intros v Hv. unfold cosine_similarity.
    rewrite repeat_length, Hv, Nat.eqb_refl. cbn [negb].
    rewrite norm_zeros. by rewrite (proj2 (Reqb_true 0 0) eq_refl).
Qed.

Lemma generate_embedding_blank (text : string) :
  has_nonspace text = false -> generate_embedding text = None.
Proof.
  intros Hb. unfold FolderMatcher.generate_embedding.
  destruct text as [|c text]; [done|]. cbn [PyStr.is_empty orb].
  replace (PyStr.strip (String c text)) with ""; [done|].
  symmetry. revert Hb. generalize (String c text). intros s Hs.
  unfold PyStr.strip.
  assert (Hl : PyStr.lstrip s = "").
  { induction s as [|d s IH]; simpl in *; [done|].
    destruct (PyStr.is_space d); [|done]. by apply IH. }
  by rewrite Hl.
Qed.

(** X9. [compute_text_similarity] is symmetric in its two texts; it raises
    exactly when one of the texts cannot be embedded or the two embeddings
    differ in dimension, so for a blank text; and every similarity it
    returns lies in [0,1]. *)
Theorem compute_text_similarity_spec (text_a text_b : string) :
  compute_text_similarity text_a text_b = compute_text_similarity text_b text_a
  /\ (compute_text_similarity text_a text_b = None
      <-> generate_embedding text_a = None \/ generate_embedding text_b = None
          \/ exists va vb, generate_embedding text_a = Some va
                           /\ generate_embedding text_b = Some vb
                           /\ length va <> length vb)
  /\ (has_nonspace text_a = false \/ has_nonspace text_b = false ->
      compute_text_similarity text_a text_b = None)
  /\ (forall s, compute_text_similarity text_a text_b = Some s -> (0 <= s <= 1)%R).
Proof.
  pose proof (generate_embedding_blank text_a) as Ha.
  pose proof (generate_embedding_blank text_b) as Hb.
  unfold EmbeddingService.compute_text_similarity.
  destruct (generate_embedding text_a) as [va|], (generate_embedding text_b) as [vb|].
  - split; [apply cosine_similarity_comm|]. split; [|split].
    + rewrite cosine_similarity_mismatch. split.
      * intros H. right. right. by exists va, vb.
      * intros [H | [H | (va' & vb' & [= <-] & [= <-] & H)]]; done.
    + intros [H | H]; [by specialize (Ha H) | by specialize (Hb H)].
    + apply cosine_similarity_range.
  - split; [done|]. split; [split; [by intros _; right; left | done]|].
    split; [done|]. intros s Hs. discriminate Hs.
  - split; [done|]. split; [split; [by intros _; left | done]|].
    split; [done|]. intros s Hs. discriminate Hs.
  - split; [done|]. split; [split; [by intros _; left | done]|].
    split; [done|]. intros s Hs. discriminate Hs.
Qed.

End ServiceProps.

Lemma compute_text_similarity_spec_witness :
  compute_text_similarity constant_backend " " "a" = None.
Proof.
  apply (compute_text_similarity_spec constant_backend " " "a"). by left.
Defined.

(** ** Keyword overlap and sanity check: algebra *)

Lemma keyword_overlap_comm a b : _keyword_overlap a b = _keyword_overlap b a.
Proof.
  unfold _keyword_overlap. cbv zeta.
  rewrite (orb_comm (bool_decide (_extract_keywords b = ∅))).
  assert (E1 : _extract_keywords b ∩ _extract_keywords a
               = _extract_keywords a ∩ _extract_keywords b) by set_solver.
  assert (E2 : _extract_keywords b ∪ _extract_keywords a
               = _extract_keywords a ∪ _extract_keywords b) by set_solver.
  by rewrite E1, E2.
Qed.

Lemma keyword_overlap_value a b :
  _extract_keywords a <> ∅ -> _extract_keywords b <> ∅ ->
  _keyword_overlap a b
  = (INR (size (_extract_keywords a ∩ _extract_keywords b))
     / INR (size (_extract_keywords a ∪ _extract_keywords b)))%R
  /\ 0 < size (_extract_keywords a ∪ _extract_keywords b).
Proof.
  intros Ha Hb. unfold _keyword_overlap. cbv zeta.
  rewrite (bool_decide_eq_false_2 _ Ha), (bool_decide_eq_false_2 _ Hb). simpl.
  assert (Hu : _extract_keywords a ∪ _extract_keywords b <> ∅).
  { intros Hu. apply Ha. apply leibniz_equiv. apply leibniz_equiv_iff in Hu.
    set_solver. }
  rewrite (bool_decide_eq_false_2 _ Hu). split; [done|].
  destruct (size (_extract_keywords a ∪ _extract_keywords b)) eqn:E; [|lia].
  apply size_empty_inv in E. exfalso. apply Hu. by apply leibniz_equiv.
Qed.

(** X10. The keyword overlap is a symmetric ratio between 0 and 1; it is 1
    exactly when the two texts have the same, non-empty, set of keywords,
    so in particular for a text with a keyword and itself. *)
Theorem keyword_overlap_bounds (a b : string) :
  _keyword_overlap a b = _keyword_overlap b a
  /\ (0 <= _keyword_overlap a b <= 1)%R
  /\ (_keyword_overlap a b = 1%R
      <-> _extract_keywords a = _extract_keywords b /\ _extract_keywords a <> ∅).
Proof.
  split; [apply keyword_overlap_comm|].
  destruct (decide (_extract_keywords a = ∅)) as [Ha|Ha].
  { assert (E : _keyword_overlap a b = 0%R).
    { unfold _keyword_overlap. cbv zeta. by rewrite (bool_decide_eq_true_2 _ Ha). }
    rewrite E. split; [lra|]. split; [lra | by intros [_ ?]]. }
  destruct (decide (_extract_keywords b = ∅)) as [Hb|Hb].
  { assert (E : _keyword_overlap a b = 0%R).
    { unfold _keyword_overlap. cbv zeta. rewrite (bool_decide_eq_true_2 _ Hb).
      by rewrite orb_true_r. }
    rewrite E. split; [lra|]. split; [lra | intros [E' _]; congruence]. }
  destruct (keyword_overlap_value a b Ha Hb) as [-> Hpos].
  set (A := _extract_keywords a) in *. set (B := _extract_keywords b) in *.
  assert (Hle : size (A ∩ B) <= size (A ∪ B)).
  { apply subseteq_size. set_solver. }
  assert (Hu : (0 < INR (size (A ∪ B)))%R) by (apply lt_0_INR; lia).
  assert (Hi : (0 <= INR (size (A ∩ B)))%R) by apply pos_INR.
  assert (Hle' : (INR (size (A ∩ B)) <= INR (size (A ∪ B)))%R) by (by apply le_INR).
  split; [split|].
  - apply Rmult_le_reg_r with (INR (size (A ∪ B))); [done|].
    unfold Rdiv. rewrite Rmult_assoc, Rinv_l by lra. lra.
  - apply Rmult_le_reg_r with (INR (size (A ∪ B))); [done|].
    unfold Rdiv. rewrite Rmult_assoc, Rinv_l by lra. lra.
  - split.
    + intros E. split; [|done].
      assert (E' : INR (size (A ∩ B)) = INR (size (A ∪ B))).
      { apply Rmult_eq_reg_r with (/ INR (size (A ∪ B)))%R.
        - unfold Rdiv in E. rewrite E. rewrite Rinv_r; lra.
        - apply Rinv_neq_0_compat. lra. }
      apply INR_eq in E'.
      assert (Heq : A ∩ B = A ∪ B).
      { apply set_subseteq_size_eq; [set_solver | lia]. }
      set_solver.
    + intros [E _]. rewrite <- E in Hu. rewrite <- E.
      assert (E1 : A ∩ A = A) by set_solver.
      assert (E2 : A ∪ A = A) by set_solver.
      rewrite E1, E2. rewrite E2 in Hu. unfold Rdiv. rewrite Rinv_r; lra.
Qed.

Lemma confused_comm a b : confused a b = confused b a.
Proof.
  unfold confused. induction false_positive_pairs as [|p l IH]; [done|].
  simpl. rewrite IH. f_equal. unfold confusion_pair.
  rewrite (andb_comm (PyStr.contains p.1 (PyStr.lower b))).
  rewrite (andb_comm (PyStr.contains p.2 (PyStr.lower b))).
  apply orb_comm.
Qed.

Lemma lower_char_idem c : PyStr.lower_char (PyStr.lower_char c) = PyStr.lower_char c.
Proof. destruct c as [[] [] [] [] [] [] [] []]; by vm_compute. Qed.

Lemma lower_idem s : PyStr.lower (PyStr.lower s) = PyStr.lower s.
Proof.
  unfold PyStr.lower. induction s as [|c s IH]; simpl; [done|].
  by rewrite lower_char_idem, IH.
Qed.

(** X11. The sanity check does not depend on which label is the candidate
    and which the matched one, nor on the case of the labels. *)
Theorem sanity_check_sym (th : ThresholdConfig) (a b : string) (sim : R) :
  _sanity_check th a b sim = _sanity_check th b a sim
  /\ _sanity_check th (PyStr.lower a) (PyStr.lower b) sim = _sanity_check th a b sim.
Proof.
  split.
  - unfold _sanity_check. by rewrite keyword_overlap_comm, confused_comm.
  - unfold _sanity_check, _keyword_overlap, _extract_keywords, confused.
    by rewrite !lower_idem.
Qed.

(** ** Label cleaning: shape of a cleaned label *)

Lemma all_chars_filter p s : all_chars p (PyStr.filter_chars p s) = true.
Proof.
  induction s as [|c s IH]; simpl; [done|].
  destruct (p c) eqn:E; simpl; [by rewrite E|done].
Qed.

Lemma all_chars_lstrip p s : all_chars p s = true -> all_chars p (PyStr.lstrip s) = true.
Proof.
  induction s as [|c s IH]; simpl; [done|]. intros H.
  apply andb_true_iff in H as [Hc Hs].
  destruct (PyStr.is_space c); [by apply IH|]. simpl. by rewrite Hc, Hs.
Qed.

Lemma all_chars_rstrip p s : all_chars p s = true -> all_chars p (PyStr.rstrip s) = true.
Proof.
  induction s as [|c s IH]; simpl; [done|]. intros H.
  apply andb_true_iff in H as [Hc Hs].
  destruct (PyStr.is_empty (PyStr.rstrip s) && PyStr.is_space c); [done|].
  simpl. by rewrite Hc, IH.
Qed.

Lemma all_chars_count p c s :
  p c = false -> all_chars p s = true -> count_char c s = 0.
Proof.
  intros Hc. induction s as [|d s IH]; simpl; [done|]. intros H.
  apply andb_true_iff in H as [Hd Hs]. rewrite (IH Hs).
  destruct (Ascii.eqb d c) eqn:E; [|done].
  apply Ascii.eqb_eq in E. congruence.
Qed.

Lemma lstrip_head s : no_leading_space (PyStr.lstrip s).
Proof.
  induction s as [|c s IH]; simpl; [done|].
  destruct (PyStr.is_space c) eqn:E; [done|]. by simpl.
Qed.

Lemma lstrip_fixed s : no_leading_space s -> PyStr.lstrip s = s.
Proof. destruct s as [|c s]; simpl; [done|]. by intros ->. Qed.

Lemma rstrip_head s : no_leading_space s -> no_leading_space (PyStr.rstrip s).
Proof.
  destruct s as [|c s]; simpl; [done|]. intros H.
  by rewrite H, andb_false_r.
Qed.

Lemma rstrip_idem s : PyStr.rstrip (PyStr.rstrip s) = PyStr.rstrip s.
Proof.
  induction s as [|c s IH]; simpl; [done|].
  destruct (PyStr.is_empty (PyStr.rstrip s) && PyStr.is_space c) eqn:E; [done|].
  simpl. by rewrite IH, E.
Qed.

Lemma strip_idem s : PyStr.strip (PyStr.strip s) = PyStr.strip s.
Proof.
  unfold PyStr.strip.
  rewrite (lstrip_fixed (PyStr.rstrip (PyStr.lstrip s)))
    by apply rstrip_head, lstrip_head.
  apply rstrip_idem.
Qed.

Lemma has_nonspace_false_split s : has_nonspace s = false -> PyStr.split s = [].
Proof.
  unfold PyStr.split. induction s as [|c s IH]; simpl; [done|].
  destruct (PyStr.is_space c); simpl; [|done]. apply IH.
Qed.

Lemma clean_label_label_chars lbl max_words :
  all_chars label_char (_clean_label lbl max_words) = true.
Proof.
  unfold _clean_label. destruct (PyStr.is_empty lbl); [done|].
  unfold finish_label, PyStr.strip.
  apply all_chars_rstrip, all_chars_lstrip, all_chars_filter.
Qed.

Lemma label_chars_no_slash s : all_chars label_char s = true -> no_slash s.
Proof. by apply (all_chars_count label_char). Qed.

(** X12. A cleaned label holds only word characters, blanks, "&" and "-":
    in particular no path separator "/"; it has no blank at either end
    (stripping it again changes nothing); and a label without a word is
    cleaned to the empty label. *)
Theorem clean_label_shape (lbl : string) (max_words : Z) :
  all_chars label_char (_clean_label lbl max_words) = true
  /\ no_slash (_clean_label lbl max_words)
  /\ PyStr.strip (_clean_label lbl max_words) = _clean_label lbl max_words
  /\ (has_nonspace lbl = false -> _clean_label lbl max_words = "").
Proof.
  split; [apply clean_label_label_chars|].
  split; [apply label_chars_no_slash, clean_label_label_chars|]. split.
  - unfold _clean_label. destruct (PyStr.is_empty lbl); [done|].
    unfold finish_label. apply strip_idem.
  - intros Hb. unfold _clean_label. destruct (PyStr.is_empty lbl); [done|].
    cbv zeta. rewrite split_join_split, (has_nonspace_false_split lbl Hb).
    cbn [List.filter is_nil]. unfold limit_words, PyStr.slice_to.
    by repeat case_match; rewrite ?firstn_nil.
Qed.

Lemma runs_length_filter p q s cur cur' :
  (forall c, p c = false -> q c = true) ->
  (PyStr.is_empty cur = true -> PyStr.is_empty cur' = true) ->
  length (PyStr.runs p (PyStr.filter_chars q s) cur') <= length (PyStr.runs p s cur).
Proof.
  intros Hpq. revert cur cur'. induction s as [|c s IH]; intros cur cur' Hcur; simpl.
  - unfold PyStr.flush. destruct (PyStr.is_empty cur) eqn:E.
    + by rewrite (Hcur eq_refl).
    + destruct (PyStr.is_empty cur'); simpl; lia.
  - destruct (p c) eqn:Hp.
    + destruct (q c) eqn:Hq; simpl.
      * rewrite Hp. apply IH. intros H. by destruct cur.
      * apply IH. intros H. by destruct cur.
    + rewrite (Hpq c Hp). simpl. rewrite Hp. rewrite !length_app.
      pose proof (IH "" "" (fun H => H)).
      assert (length (PyStr.flush cur') <= length (PyStr.flush cur)); [|lia].
      unfold PyStr.flush. destruct (PyStr.is_empty cur) eqn:E.
      * by rewrite (Hcur eq_refl).
      * destruct (PyStr.is_empty cur'); simpl; lia.
Qed.

Lemma cased_not_space c :
  PyStr.is_cased c = true ->
  PyStr.is_space c = false /\ PyStr.is_space (PyStr.lower_char c) = false
  /\ PyStr.is_space (PyStr.upper_char c) = false.
Proof.
  destruct c as [[] [] [] [] [] [] [] []]; vm_compute; intros; (done || by repeat split).
Qed.

Lemma runs_length_title prev s cur cur' :
  PyStr.is_empty cur' = PyStr.is_empty cur ->
  length (PyStr.runs (fun c => negb (PyStr.is_space c)) (PyStr.title_from prev s) cur')
  = length (PyStr.runs (fun c => negb (PyStr.is_space c)) s cur).
Proof.
  revert prev cur cur'. induction s as [|c s IH]; intros prev cur cur' Hcur; simpl.
  - unfold PyStr.flush. rewrite Hcur. by destruct (PyStr.is_empty cur).
  - destruct (PyStr.is_cased c) eqn:Hc; simpl.
    + destruct (cased_not_space c Hc) as (H1 & H2 & H3).
      rewrite H1. destruct prev; rewrite ?H2, ?H3; simpl;
        apply IH; by destruct cur, cur'.
    + destruct (PyStr.is_space c); simpl.
      * rewrite !length_app. rewrite (IH false "" "" eq_refl).
        unfold PyStr.flush. rewrite Hcur. by destruct (PyStr.is_empty cur).
      * apply IH. by destruct cur, cur'.
Qed.

Lemma runs_lstrip s :
  PyStr.runs (fun c => negb (PyStr.is_space c)) (PyStr.lstrip s) ""
  = PyStr.runs (fun c => negb (PyStr.is_space c)) s "".
Proof.
  induction s as [|c s IH]; simpl; [done|].
  destruct (PyStr.is_space c) eqn:E; simpl; [done|]. by rewrite E.
Qed.

Lemma runs_rstrip s cur :
  PyStr.runs (fun c => negb (PyStr.is_space c)) (PyStr.rstrip s) cur
  = PyStr.runs (fun c => negb (PyStr.is_space c)) s cur.
Proof.
  revert cur. induction s as [|c s IH]; intros cur; simpl; [done|].
  destruct (PyStr.is_empty (PyStr.rstrip s) && PyStr.is_space c) eqn:E.
  - apply andb_true_iff in E as [E1 E2]. rewrite E2. simpl.
    rewrite <- IH. destruct (PyStr.rstrip s); [|done]. simpl.
    by rewrite app_nil_r.
  - simpl. destruct (PyStr.is_space c); simpl; by rewrite IH.
Qed.

Lemma split_strip s : PyStr.split (PyStr.strip s) = PyStr.split s.
Proof. unfold PyStr.split, PyStr.strip. by rewrite runs_rstrip, runs_lstrip. Qed.

Lemma limit_words_length (k : Z) (ws : list string) :
  (0 <= k)%Z -> length (limit_words k ws) <= Z.to_nat k.
Proof.
  intros Hk. unfold limit_words. destruct (k <? Z.of_nat (length ws))%Z eqn:E.
  - rewrite slice_to_nonneg by done. rewrite length_firstn. lia.
  - apply Z.ltb_ge in E. lia.
Qed.

Lemma limit_words_incl (k : Z) (ws : list string) w :
  In w (limit_words k ws) -> In w ws.
Proof.
  unfold limit_words, PyStr.slice_to. repeat case_match; try done; apply In_take.
Qed.

Lemma finish_label_words (ws : list string) :
  Forall (field_ok (fun c => negb (PyStr.is_space c))) ws ->
  length (PyStr.split (finish_label ws)) <= length ws.
Proof.
  intros Hws. unfold finish_label. rewrite split_strip. unfold PyStr.split.
  etransitivity.
  { apply (runs_length_filter _ label_char _ "" "").
    - intros c Hc. apply negb_false_iff in Hc. unfold label_char.
      rewrite Hc. by rewrite orb_true_r.
    - done. }
  unfold PyStr.title. rewrite (runs_length_title false _ "" "") by done.
  by rewrite runs_join.
Qed.

(** X13. With a non-negative word limit, a cleaned label has at most
    [max_words] words. *)
Theorem clean_label_word_limit (lbl : string) (max_words : Z) :
  (0 <= max_words)%Z ->
  (Z.of_nat (length (PyStr.split (_clean_label lbl max_words))) <= max_words)%Z.
Proof.
  intros Hk. unfold _clean_label. destruct (PyStr.is_empty lbl); [simpl; lia|].
  cbv zeta. rewrite split_join_split.
  set (words := PyStr.split lbl).
  set (cleaned := if is_nil _ then words else _).
  assert (Hwords : Forall (field_ok (fun c => negb (PyStr.is_space c))) words).
  { by apply runs_fields_ok. }
  assert (Hcl : Forall (field_ok (fun c => negb (PyStr.is_space c))) cleaned).
  { unfold cleaned. destruct (is_nil _); [done|].
    apply List.Forall_forall. intros w Hw. apply filter_In in Hw as [Hw _].
    by eapply List.Forall_forall in Hwords. }
  assert (Hlim : Forall (field_ok (fun c => negb (PyStr.is_space c)))
                        (limit_words max_words cleaned)).
  { apply List.Forall_forall. intros w Hw. apply limit_words_incl in Hw.
    by eapply List.Forall_forall in Hcl. }
  pose proof (finish_label_words _ Hlim).
  pose proof (limit_words_length max_words cleaned Hk). lia.
Qed.

Lemma clean_label_word_limit_witness :
  (Z.of_nat (length (PyStr.split (_clean_label "my saved pasta recipes from italy" 4)))
   <= 4)%Z.
Proof. apply (clean_label_word_limit "my saved pasta recipes from italy" 4). lia. Defined.

(** ** The alias map *)

Lemma add_aliases_Forall (P : string -> string -> Prop) canonical aliases m :
  (forall alias, P (PyStr.lower alias) canonical) ->
  map_Forall P m -> map_Forall P (add_aliases canonical aliases m).
Proof.
  intros Hc. unfold add_aliases. revert m.
  induction aliases as [|a aliases IH]; intros m Hm; simpl; [done|].
  apply IH. by apply map_Forall_insert_2.
Qed.

Lemma alias_domain_Forall (seeds : list SeedDomain) d m :
  In d seeds ->
  map_Forall (fun k v => canonical_name seeds v /\ PyStr.lower k = k) m ->
  map_Forall (fun k v => canonical_name seeds v /\ PyStr.lower k = k) (alias_domain m d).
Proof.
  intros Hd Hm. unfold alias_domain. cbv zeta.
  assert (Hdom : canonical_name seeds (sd_label d)).
  { exists d. split; [done | by left]. }
  assert (Hsub : forall subs m',
             incl subs (sd_subdomains d) ->
             map_Forall (fun k v => canonical_name seeds v /\ PyStr.lower k = k) m' ->
             map_Forall (fun k v => canonical_name seeds v /\ PyStr.lower k = k)
                        (fold_left (alias_subdomain (sd_label d)) subs m')).
  { induction subs as [|s subs IH]; intros m' Hincl Hm'; simpl; [done|].
    apply IH; [intros x Hx; apply Hincl; by right|].
    assert (Hs : canonical_name seeds (sd_label d ++ "/" ++ ss_label s)).
    { exists d. split; [done|]. right. exists s. split; [|done].
      apply Hincl. by left. }
    unfold alias_subdomain. cbv zeta. apply add_aliases_Forall.
    - intros alias. split; [done | apply lower_idem].
    - apply map_Forall_insert_2; [|done]. split; [done | apply lower_idem]. }
  apply Hsub; [apply incl_refl|]. apply add_aliases_Forall.
  - intros alias. split; [done | apply lower_idem].
  - apply map_Forall_insert_2; [|done]. split; [done | apply lower_idem].
Qed.

Lemma alias_map_values k v :
  ALIAS_MAP !! k = Some v -> canonical_name SEED_DOMAINS v /\ PyStr.lower k = k.
Proof.
  unfold ALIAS_MAP, build_alias_map.
  assert (H : forall ds m,
             incl ds SEED_DOMAINS ->
             map_Forall (fun k v => canonical_name SEED_DOMAINS v /\ PyStr.lower k = k) m ->
             map_Forall (fun k v => canonical_name SEED_DOMAINS v /\ PyStr.lower k = k)
                        (fold_left alias_domain ds m)).
  { induction ds as [|d ds IH]; intros m Hincl Hm; simpl; [done|].
    apply IH; [intros x Hx; apply Hincl; by right|].
    apply alias_domain_Forall; [|done]. apply Hincl. by left. }
  intros Hk. eapply (H SEED_DOMAINS ∅); [apply incl_refl | apply map_Forall_empty | exact Hk].
Qed.

(** X14. Every entry of the alias map leads from a lower-case key to a
    canonical name of the seed taxonomy: the label of a seed domain, or a
    seed domain label, "/", the label of one of its subdomains. *)
Theorem alias_map_canonical (k v : string) :
  ALIAS_MAP !! k = Some v -> canonical_name SEED_DOMAINS v /\ PyStr.lower k = k.
Proof. apply alias_map_values. Qed.

Lemma alias_map_canonical_witness :
  canonical_name SEED_DOMAINS "Computer Science/Frontend" /\ PyStr.lower "react" = "react".
Proof. apply (alias_map_canonical "react" "Computer Science/Frontend"). by vm_compute. Defined.

(** ** Paths and separators *)

Lemma prefix_empty s : String.prefix "" s = true.
Proof. by destruct s. Qed.

Lemma contains_slash s : PyStr.contains "/" s = false <-> no_slash s.
Proof.
  unfold no_slash. induction s as [|c s IH]; [done|].
  cbn [PyStr.contains count_char String.prefix].
  destruct (Ascii.eqb c "/") eqn:E.
  - apply Ascii.eqb_eq in E. subst c. simpl. rewrite prefix_empty. simpl.
    split; [done | lia].
  - assert (E' : (if ascii_dec "/" c then String.prefix "" s else false) = false).
    { destruct (ascii_dec "/" c) as [<-|]; [|done]. by rewrite Ascii.eqb_refl in E. }
    rewrite E'. simpl. exact IH.
Qed.

Lemma split_fields_no_sep sep s :
  count_char sep s = 0 -> PyStr.split_fields sep s = (s, []).
Proof.
  induction s as [|c s IH]; simpl; [done|].
  destruct (Ascii.eqb c sep); [done|]. simpl. intros H. by rewrite (IH H).
Qed.

Lemma split_on_child sep a b :
  count_char sep a = 0 ->
  PyStr.split_on sep (a ++ String sep b) = a :: PyStr.split_on sep b.
Proof.
  unfold PyStr.split_on. induction a as [|c a IH]; simpl.
  - intros _. rewrite Ascii.eqb_refl. by destruct (PyStr.split_fields sep b).
  - destruct (Ascii.eqb c sep) eqn:E; [done|]. simpl. intros H.
    specialize (IH H). destruct (PyStr.split_fields sep (a ++ String sep b)) as [w ws].
    destruct (PyStr.split_fields sep b) as [w' ws']. by injection IH as -> ->.
Qed.

Lemma split_fields_no_slash sep s :
  count_char sep (PyStr.split_fields sep s).1 = 0
  /\ Forall (fun w => count_char sep w = 0) (PyStr.split_fields sep s).2.
Proof.
  induction s as [|c s [IH1 IH2]]; simpl; [by split|].
  destruct (PyStr.split_fields sep s) as [w ws]. simpl in *.
  destruct (Ascii.eqb c sep) eqn:E; simpl.
  - split; [done|]. by constructor.
  - rewrite E. by split.
Qed.

Lemma split_on_no_slash s : Forall no_slash (PyStr.split_on "/" s).
Proof.
  unfold PyStr.split_on. pose proof (split_fields_no_slash "/" s) as [H1 H2].
  destruct (PyStr.split_fields "/" s) as [w ws]. by constructor.
Qed.

Lemma nth_no_slash n s : no_slash (nth n (PyStr.split_on "/" s) "").
Proof.
  pose proof (split_on_no_slash s) as H.
  destruct (nth_in_or_default n (PyStr.split_on "/" s) "") as [Hin | ->]; [|done].
  by eapply List.Forall_forall in H.
Qed.

Lemma seed_labels_no_slash sd :
  In sd SEED_DOMAINS ->
  no_slash (sd_label sd)
  /\ forall ss, In ss (sd_subdomains sd) -> no_slash (ss_label ss).
Proof.
  intros Hin. pose proof SEED_DOMAINS_slash_free as H.
  eapply List.Forall_forall in H; [|exact Hin]. destruct H as [H1 H2].
  split; [done|]. intros ss Hss. by eapply List.Forall_forall in H2.
Qed.

Lemma seed_path_no_slash d s : seed_path d s -> no_slash d /\ no_slash s.
Proof.
  intros (sd & Hin & <- & Hs). destruct (seed_labels_no_slash sd Hin) as [H1 H2].
  split; [done|]. destruct Hs as [-> | (ss & Hss & <-)]; [done | by apply H2].
Qed.

Lemma truncate_length k s : String.length (PyStr.truncate k s) <= k.
Proof.
  unfold PyStr.truncate. revert s. induction k as [|k IH]; intros [|c s]; simpl; try lia.
  specialize (IH s). lia.
Qed.

(** ** The generator *)

#[local] Opaque ALIAS_MAP.

Section GeneratorProps.

Variable py_str : json -> string.
Variable configured : bool.
Variable llm_parsed : ItemInput -> option json.
Variable config : TaxonomyConfig.

Local Abbreviation _validate_and_build_candidate :=
  (TaxonomyGenerator._validate_and_build_candidate py_str config).
Local Abbreviation generate :=
  (TaxonomyGenerator.generate py_str configured llm_parsed config).

Lemma clean_label_value_no_slash v k s :
  clean_label_value v k = Some s -> no_slash s.
Proof.
  unfold clean_label_value. destruct v; try (case_match; by intros [= <-]).
  intros [= <-]. apply label_chars_no_slash, clean_label_label_chars.
Qed.

Lemma validate_well_formed parsed item c :
  _validate_and_build_candidate parsed item = Some c ->
  well_formed c /\ String.length (rationale c) <= 500.
Proof.
  unfold TaxonomyGenerator._validate_and_build_candidate. intros H.
  destruct (dict_get parsed "domain" _) as [domain_data|]; [|done]. cbn [mbind option_bind] in H.
  destruct (dict_get (as_label_data domain_data []) "label" _) as [domain_raw|];
    [|done]. cbn [mbind option_bind] in H.
  destruct (clean_label_value domain_raw _) as [domain_label|] eqn:Hdl; [|done].
  cbn [mbind option_bind] in H.
  destruct (dict_get (as_label_data domain_data []) "aliases" _) as [da|]; [|done].
  cbn [mbind option_bind] in H.
  destruct (dict_get parsed "subdomain" _) as [subdomain_data|]; [|done]. cbn [mbind option_bind] in H.
  destruct (dict_get (as_label_data subdomain_data []) "label" _) as [subdomain_raw|];
    [|done]. cbn [mbind option_bind] in H.
  destruct (clean_label_value subdomain_raw _) as [subdomain_label|] eqn:Hsl; [|done].
  cbn [mbind option_bind] in H.
  destruct (dict_get (as_label_data subdomain_data []) "aliases" _) as [sa|]; [|done].
  cbn [mbind option_bind] in H.
  destruct (dict_get parsed "leaf_topic" _) as [leaf_data|]; [|done]. cbn [mbind option_bind] in H.
  match type of H with
  | context [mbind _ ?x] => destruct x as [leaf|] eqn:Hleaf; [|done]
  end.
  cbn [mbind option_bind] in H.
  destruct (dict_get parsed "tags" _) as [tags_raw|]; [|done]. cbn [mbind option_bind] in H.
  destruct (dict_get parsed "confidence" _) as [confidence_raw|]; [|done]. cbn [mbind option_bind] in H.
  destruct (dict_get parsed "rationale" _) as [rationale_raw|]; [|done]. cbn [mbind option_bind] in H.
  remember (ALIAS_MAP !! PyStr.lower domain_label) as looked eqn:Hlook.
  injection H as Hc. rewrite <- Hc. clear Hc.
  split; [|cbn [rationale]; apply truncate_length].
  unfold well_formed. cbn [domain subdomain leaf_topic tags confidence la_label].
  split; [|split; [|split; [|split]]].
  - clear -Hdl. destruct looked as [canonical|];
      [|by eapply clean_label_value_no_slash].
    destruct (PyStr.contains "/" canonical) eqn:E; cbn [negb].
    + by eapply clean_label_value_no_slash.
    + by apply contains_slash.
  - clear -Hsl. by eapply clean_label_value_no_slash.
  - clear -Hleaf. intros lf ->. destruct (json_truthy leaf_data); [|done].
    destruct (dict_get (as_label_data leaf_data _) "label" _) as [leaf_raw|];
      [|done]. cbn [mbind option_bind] in Hleaf.
    destruct (clean_label_value leaf_raw _) as [leaf_label|] eqn:Hll; [|done].
    cbn [mbind option_bind] in Hleaf. destruct (PyStr.is_empty leaf_label) eqn:He; [done|].
    cbn [mbind option_bind] in Hleaf.
    destruct (dict_get (as_label_data leaf_data _) "aliases" _); [|done].
    cbn [mbind option_bind] in Hleaf.
    destruct (dict_get (as_label_data leaf_data _) "optional" _); [|done].
    cbn [mbind option_bind] in Hleaf. injection Hleaf as <-. cbn [la_label].
    split; [by eapply clean_label_value_no_slash|]. by destruct leaf_label.
  - apply clamp01_range.
  - rewrite length_firstn. lia.
Qed.

(** X15. Whatever the model answers, a candidate built by
    [_validate_and_build_candidate] has a domain and a subdomain label
    without "/", a leaf (if any) whose label is not empty and holds no "/",
    a confidence within [0,1], at most ten tags and a rationale of at most
    500 characters. *)
Theorem validate_and_build_contract (parsed : json) (item : ItemInput)
    (c : TaxonomyCandidate) :
  _validate_and_build_candidate parsed item = Some c ->
  well_formed c /\ String.length (rationale c) <= 500.
Proof. apply validate_well_formed. Qed.

(** *** The fallback *)

Lemma fallback_scan_seed text ds best :
  incl ds SEED_DOMAINS ->
  (forall d s, best.1 = (Some d, s) -> exists s', s = Some s' /\ seed_path d s') ->
  forall d s, (fold_left (fallback_domain text) ds best).1 = (Some d, s) ->
              exists s', s = Some s' /\ seed_path d s'.
Proof.
  revert best. induction ds as [|sd ds IH]; intros best Hincl Hbest; simpl; [done|].
  apply IH; [intros x Hx; apply Hincl; by right|].
  assert (Hsd : In sd SEED_DOMAINS) by (apply Hincl; by left).
  unfold fallback_domain. cbv zeta.
  set (score := count_aliases (sd_aliases sd) text).
  assert (Hb1 : forall d s,
             (if best.2 <? score then (Some (sd_label sd), Some "General", score)
              else best).1 = (Some d, s) ->
             exists s', s = Some s' /\ seed_path d s').
  { destruct (best.2 <? score); [|done]. simpl. intros d s [= <- <-].
    exists "General". split; [done|]. exists sd. split; [done|]. split; [done|].
    by left. }
  revert Hb1. generalize (if best.2 <? score
                          then (Some (sd_label sd), Some "General", score) else best).
  assert (Hsubs : incl (sd_subdomains sd) (sd_subdomains sd)) by apply incl_refl.
  revert Hsubs. generalize (sd_subdomains sd) at 1 3.
  induction l as [|ss subs IHs]; intros Hsubs b Hb; simpl; [done|].
  apply IHs; [intros x Hx; apply Hsubs; by right|].
  unfold fallback_subdomain. cbv zeta.
  destruct (b.2 <? score + count_aliases (ss_aliases ss) text); [|done].
  simpl. intros d s [= <- <-]. exists (ss_label ss). split; [done|].
  exists sd. split; [done|]. split; [done|]. right. exists ss.
  split; [|done]. apply Hsubs. by left.
Qed.

Lemma fallback_scan_none text ds best :
  best.2 = 0 ->
  Forall (fun sd => count_aliases (sd_aliases sd) text = 0
                    /\ Forall (fun ss => count_aliases (ss_aliases ss) text = 0)
                              (sd_subdomains sd)) ds ->
  fold_left (fallback_domain text) ds best = best.
Proof.
  intros Hb H. revert best Hb. induction H as [|sd ds [H1 H2] _ IH]; intros best Hb;
    simpl; [done|].
  assert (E : fallback_domain text best sd = best).
  { unfold fallback_domain. cbv zeta. rewrite H1, Hb. simpl.
    induction H2 as [|ss subs Hs _ IHs]; simpl; [done|].
    unfold fallback_subdomain at 2. cbv zeta. rewrite Hs, Hb. simpl. exact IHs. }
  rewrite E. by apply IH.
Qed.

Lemma personal_ideas : seed_path "Personal" "Ideas".
Proof.
  eexists {| sd_label := "Personal" |}. split; [|split; [reflexivity|]].
  - unfold SEED_DOMAINS. repeat (first [left; reflexivity | right]).
  - right. eexists {| ss_label := "Ideas" |}. split; [|reflexivity].
    simpl. unfold sub. repeat (first [left; reflexivity | right]).
Qed.

Lemma fallback_seed_path item :
  let c := _fallback_classification item in
  seed_path (la_label (domain c)) (la_label (subdomain c))
  /\ leaf_topic c = None /\ confidence c = 0.5%R /\ length (tags c) <= 5.
Proof.
  unfold _fallback_classification. cbv zeta.
  assert (Hscan := fallback_scan_seed
                     (PyStr.lower (raw_topic item ++ " " ++ summary item))
                     SEED_DOMAINS (None, None, 0) (incl_refl _)).
  assert (H0 : forall (d : string) (s : option string),
             (None : option string, None : option string, 0).1 = (Some d, s) ->
             exists s', s = Some s' /\ seed_path d s') by (by intros d s [=]).
  specialize (Hscan H0). clear H0.
  destruct (fold_left (fallback_domain _) SEED_DOMAINS (None, None, 0))
    as [[bd bs] n].
  assert (Hp : seed_path
                 (if truthy_id bd then (default "" bd, default "" bs)
                  else ("Personal", "Ideas")).1
                 (if truthy_id bd then (default "" bd, default "" bs)
                  else ("Personal", "Ideas")).2).
  { destruct bd as [d|]; simpl; [|apply personal_ideas].
    destruct (PyStr.is_empty d); simpl; [apply personal_ideas|].
    destruct (Hscan d bs eq_refl) as (s' & -> & Hs). done. }
  destruct (if truthy_id bd then _ else _) as [d s]. simpl in *.
  split; [done|]. split; [done|]. split; [done|]. rewrite length_firstn. lia.
Qed.

(** X16. The keyword fallback always files under the seed taxonomy: the
    candidate names a seed domain together with "General" or one of that
    domain's seed subdomains, has no leaf, confidence 0.5 and at most five
    tags; and when no alias of the seed taxonomy occurs in the item's text
    it is "Personal/Ideas". *)
Theorem fallback_classification_spec (item : ItemInput) :
  let c := _fallback_classification item in
  let text := PyStr.lower (raw_topic item ++ " " ++ summary item) in
  seed_path (la_label (domain c)) (la_label (subdomain c))
  /\ leaf_topic c = None /\ confidence c = 0.5%R /\ length (tags c) <= 5
  /\ (Forall (fun sd => count_aliases (sd_aliases sd) text = 0
                        /\ Forall (fun ss => count_aliases (ss_aliases ss) text = 0)
                                  (sd_subdomains sd)) SEED_DOMAINS ->
      la_label (domain c) = "Personal" /\ la_label (subdomain c) = "Ideas").
Proof.
  intros c text. destruct (fallback_seed_path item) as (H1 & H2 & H3 & H4).
  repeat (split; [done|]). intros Hnone. unfold c, _fallback_classification.
  cbv zeta. fold text.
  by rewrite (fallback_scan_none text SEED_DOMAINS (None, None, 0) eq_refl Hnone).
Qed.

(** *** [generate] *)

Lemma quick_match_seed t c :
  quick_match t = Some c ->
  seed_path (la_label (domain c)) (la_label (subdomain c))
  /\ ALIAS_MAP !! t = Some (la_label (domain c) ++ "/" ++ la_label (subdomain c))
  /\ leaf_topic c = None /\ confidence c = 0.95%R /\ tags c = [t].
Proof.
  unfold quick_match. destruct (ALIAS_MAP !! t) as [path|] eqn:Hk; [|discriminate].
  destruct (alias_map_values t path Hk) as [(sd & Hin & Hv) _].
  destruct (seed_labels_no_slash sd Hin) as [Hd Hs].
  destruct Hv as [-> | (ss & Hss & ->)].
  - unfold PyStr.split_on. rewrite (split_fields_no_sep "/" _ Hd). discriminate.
  - change (sd_label sd ++ "/" ++ ss_label ss)
      with (sd_label sd ++ String "/" (ss_label ss)).
    rewrite (split_on_child "/" _ _ Hd). unfold PyStr.split_on.
    rewrite (split_fields_no_sep "/" _ (Hs ss Hss)).
    cbn [length Nat.leb nth]. intros Hc. injection Hc as Hc. rewrite <- Hc.
    cbn [domain subdomain leaf_topic confidence tags la_label label_only].
    split; [|repeat split; reflexivity].
    exists sd. split; [exact Hin|]. split; [reflexivity|]. right. exists ss.
    split; [exact Hss | reflexivity].
Qed.

Lemma quick_match_well_formed t c : quick_match t = Some c -> well_formed c.
Proof.
  intros Hq. destruct (quick_match_seed _ _ Hq) as (Hp & _ & Hl & Hc & Ht).
  clear Hq. destruct (seed_path_no_slash _ _ Hp) as [H1 H2]. clear Hp.
  unfold well_formed. rewrite Hl, Hc, Ht.
  split; [exact H1|]. split; [exact H2|]. split; [intros leaf; discriminate|].
  split; [lra | simpl; lia].
Qed.

Lemma fallback_well_formed item : well_formed (_fallback_classification item).
Proof.
  destruct (fallback_seed_path item) as (Hp & Hl & Hc & Ht).
  destruct (seed_path_no_slash _ _ Hp) as [H1 H2]. clear Hp.
  unfold well_formed. rewrite Hl, Hc.
  split; [exact H1|]. split; [exact H2|]. split; [intros leaf; discriminate|].
  split; [lra | lia].
Qed.

Lemma generate_well_formed item c : generate item = Some c -> well_formed c.
Proof.
  unfold TaxonomyGenerator.generate.
  destruct (PyStr.is_empty (raw_topic item) && PyStr.is_empty (summary item)).
  { intros Hc. injection Hc as <-. unfold well_formed.
    cbn [domain subdomain leaf_topic confidence tags la_label label_only].
    split; [reflexivity|]. split; [reflexivity|]. split; [intros leaf; discriminate|].
    split; [lra | simpl; lia]. }
  destruct (quick_match _) as [q|] eqn:Hq.
  { intros Hc. injection Hc as <-. by eapply quick_match_well_formed. }
  clear Hq. destruct configured; [|discriminate].
  destruct (llm_parsed item ≫= _) as [v|] eqn:Hv.
  - intros Hc. injection Hc as <-. destruct (llm_parsed item) as [parsed|];
      [|discriminate]. cbn [mbind option_bind] in Hv.
    apply validate_well_formed in Hv. exact (proj1 Hv).
  - intros Hc. injection Hc as <-. apply fallback_well_formed.
Qed.

(** X17. [generate] keeps the matcher's contract on every path (the empty
    item, the alias shortcut, the model's answer, the keyword fallback):
    labels without "/", a non-empty leaf label if any, a confidence within
    [0,1], at most ten tags; and once configured it always returns a
    candidate, whatever the model does. *)
Theorem generate_contract (item : ItemInput) :
  (forall c, generate item = Some c -> well_formed c)
  /\ (configured = true -> exists c, generate item = Some c).
Proof.
  split; [apply generate_well_formed|]. intros Hc.
  unfold TaxonomyGenerator.generate. rewrite Hc.
  destruct (PyStr.is_empty (raw_topic item) && PyStr.is_empty (summary item));
    [eexists; reflexivity|].
  destruct (quick_match _); [eexists; reflexivity|].
  destruct (llm_parsed item ≫= _); eexists; reflexivity.
Qed.

(** X18. The alias shortcut needs no model: when the trimmed, lower-cased
    raw topic is a key of the alias map for a "domain/subdomain" name,
    [generate] returns that seed domain and subdomain with confidence 0.95,
    no leaf and the topic as only tag, also when the model is not
    configured. *)
Theorem generate_quick_match (item : ItemInput) (path : string) :
  raw_topic item <> "" ->
  ALIAS_MAP !! PyStr.strip (PyStr.lower (raw_topic item)) = Some path ->
  PyStr.contains "/" path = true ->
  exists c, generate item = Some c
    /\ seed_path (la_label (domain c)) (la_label (subdomain c))
    /\ path = la_label (domain c) ++ "/" ++ la_label (subdomain c)
    /\ leaf_topic c = None /\ confidence c = 0.95%R
    /\ tags c = [PyStr.strip (PyStr.lower (raw_topic item))].
Proof.
  intros Hne. assert (He : PyStr.is_empty (raw_topic item) = false).
  { destruct (raw_topic item); [contradiction | reflexivity]. }
  clear Hne. intros Hk Hslash. unfold TaxonomyGenerator.generate.
  rewrite He. cbn [andb negb].
  destruct (quick_match (PyStr.strip (PyStr.lower (raw_topic item)))) as [q|] eqn:Hq.
  - destruct (quick_match_seed _ _ Hq) as (Hp & Hk' & Hl & Hc & Ht). clear Hq.
    exists q. split; [reflexivity|]. split; [exact Hp|].
    split; [|split; [exact Hl | split; [exact Hc | exact Ht]]].
    rewrite Hk in Hk'. injection Hk' as Hk'. exact Hk'.
  - exfalso. unfold quick_match in Hq. rewrite Hk in Hq.
    destruct (alias_map_values _ path Hk) as [(sd & Hin & Hv) _]. clear Hk.
    destruct (seed_labels_no_slash sd Hin) as [Hd Hs]. clear Hin.
    destruct Hv as [-> | (ss & Hss & ->)].
    + apply contains_slash in Hd. congruence.
    + change (sd_label sd ++ "/" ++ ss_label ss)
        with (sd_label sd ++ String "/" (ss_label ss)) in Hq.
      rewrite (split_on_child "/" _ _ Hd) in Hq. unfold PyStr.split_on in Hq.
      rewrite (split_fields_no_sep "/" _ (Hs ss Hss)) in Hq. discriminate.
Qed.

End GeneratorProps.

#[local] Transparent ALIAS_MAP.

Lemma fallback_classification_spec_witness :
  la_label (domain (_fallback_classification unmatched_item)) = "Personal"
  /\ la_label (subdomain (_fallback_classification unmatched_item)) = "Ideas".
Proof.
  apply (proj2 (proj2 (proj2 (proj2 (fallback_classification_spec unmatched_item))))).
  unfold SEED_DOMAINS.
  repeat (apply List.Forall_cons;
          [split; [vm_compute; reflexivity
                  | cbn [sd_subdomains];
                    repeat (apply List.Forall_cons; [vm_compute; reflexivity|]);
                    apply List.Forall_nil]|]).
  apply List.Forall_nil.
Defined.

Lemma validate_and_build_contract_witness :
  exists c,
    _validate_and_build_candidate (fun _ => "") default_taxonomy_config
      react_answer paper_item = Some c
    /\ well_formed c /\ String.length (rationale c) <= 500.
Proof.
  eexists. split; [reflexivity|].
  apply (validate_and_build_contract (fun _ => "") default_taxonomy_config
           react_answer paper_item).
  reflexivity.
Defined.

Lemma generate_contract_witness :
  exists c, generate (fun _ => "") true (fun _ => Some react_answer)
                     default_taxonomy_config paper_item = Some c.
Proof.
  apply (generate_contract (fun _ => "") true (fun _ => Some react_answer)
           default_taxonomy_config paper_item).
  reflexivity.
Defined.

Lemma generate_quick_match_witness :
  exists c, generate (fun _ => "") false (fun _ => None) default_taxonomy_config
                     react_item = Some c
    /\ seed_path (la_label (domain c)) (la_label (subdomain c))
    /\ "Computer Science/Frontend" = la_label (domain c) ++ "/" ++ la_label (subdomain c)
    /\ leaf_topic c = None /\ confidence c = 0.95%R
    /\ tags c = [PyStr.strip (PyStr.lower (raw_topic react_item))].
Proof.
  apply (generate_quick_match (fun _ => "") false (fun _ => None)
           default_taxonomy_config react_item "Computer Science/Frontend").
  - done.
  - by vm_compute.
  - by vm_compute.
Defined.

(** ** The state invariant of the matcher *)

Lemma segments_pos s : (1 <= segments s)%Z.
Proof. unfold segments. rewrite split_on_length. lia. Qed.

Lemma search_filter_parent dpt pid :
  truthy_id pid = true -> search_filter dpt pid !! "parent_id" = Some (opt_mval pid).
Proof. intros H. unfold search_filter. rewrite H. by simplify_map_eq. Qed.

Lemma opt_mval_eqb a b : mval_eqb (opt_mval a) (opt_mval b) = true -> a = b.
Proof.
  destruct a as [a|], b as [b|]; simpl; try done.
  intros H. apply String.eqb_eq in H. by subst.
Qed.

Lemma linked_insert cache k x f :
  cache !! k = None -> linked cache f -> linked (<[k := x]> cache) f.
Proof.
  intros Hk. unfold linked. destruct (parent_id f) as [p|]; [|done].
  intros (P & HP & Hpath). exists P. split; [|done].
  rewrite lookup_insert_ne; [done|]. congruence.
Qed.

Lemma folder_wf_insert cache k x f :
  cache !! k = None -> folder_wf cache f -> folder_wf (<[k := x]> cache) f.
Proof.
  intros Hk (H1 & H2 & H3 & H4). repeat (split; [done|]). by apply linked_insert.
Qed.

Lemma final_path_two (a b : string) : PyStr.join "/" [a; b] = a ++ "/" ++ b.
Proof. done. Qed.

Lemma final_path_three (a b c : string) :
  PyStr.join "/" [a; b; c] = (a ++ "/" ++ b) ++ "/" ++ c.
Proof. unfold PyStr.join. simpl. by rewrite append_assoc'. Qed.

Section Invariant.

Variable embed_content : string -> option (list R).
Variable uuid4 : nat -> string.
Variable thresholds : ThresholdConfig.

Local Abbreviation generate_embedding := (FolderMatcher.generate_embedding embed_content).
Local Abbreviation _find_best_match := (FolderMatcher._find_best_match embed_content uuid4 thresholds).
Local Abbreviation _create_folder := (FolderMatcher._create_folder embed_content uuid4).
Local Abbreviation store_folder := (FolderMatcher.store_folder embed_content).
Local Abbreviation match_domain := (FolderMatcher.match_domain embed_content uuid4 thresholds).
Local Abbreviation match_subdomain := (FolderMatcher.match_subdomain embed_content uuid4 thresholds).
Local Abbreviation match_leaf := (FolderMatcher.match_leaf embed_content uuid4 thresholds).
Local Abbreviation match_ := (FolderMatcher.match_ embed_content uuid4 thresholds).
Local Abbreviation walk := (FolderMatcher.walk uuid4 thresholds).

(** *** A level search on a state in normal form *)

Lemma ranked_found st q dpt pid :
  state_wf st ->
  Forall (good_hit (_folder_cache st) (found_ok st dpt pid))
         (ranked_candidates st q dpt pid).
Proof.
  intros (K1 & K2 & K3). apply List.Forall_forall. intros h Hh.
  unfold ranked_candidates in Hh.
  eapply Permutation_in in Hh; [|apply sort_desc_perm].
  apply augment_In in Hh as [Hh | (f & Hin & Hm & _)].
  - apply search_In, scan_In in Hh as (k & e & md & Hin & Hh & _ & Hm).
    destruct (K1 k e md Hin) as (f & Hid & Hc & Hd & Hp).
    exists (folder_id f), f. rewrite Hh. unfold hit_meta. simpl.
    split; [done|]. split; [done|]. split; [done|]. split.
    + pose proof (md_matches_depth _ _ _ Hm) as Hdm. rewrite Hd in Hdm.
      simpl in Hdm. by apply Z.eqb_eq.
    + intros Ht. apply opt_mval_eqb. rewrite <- Hp.
      eapply md_matches_exact; [exact Hm|]. by apply search_filter_parent.
  - exists (folder_id f), f. rewrite Hm, cache_hit_meta_folder_id.
    split; [done|]. unfold depth_candidates in Hin.
    destruct (_folders_by_depth st !! dpt) as [l|] eqn:Hl; simpl in Hin.
    + destruct (truthy_id pid) eqn:Ht.
      * apply filter_In in Hin as [Hin Hp]. apply bool_decide_eq_true_1 in Hp.
        destruct (K2 dpt l f Hl Hin) as [Hc Hd]. split; [exact Hc|].
        split; [exact Hc|]. split; [exact Hd|]. intros _. exact Hp.
      * destruct (K2 dpt l f Hl Hin) as [Hc Hd]. split; [exact Hc|].
        split; [exact Hc|]. split; [exact Hd|]. intros Hx. congruence.
    + by destruct (truthy_id pid).
Qed.

Lemma find_best_match_wf st text dpt pid thr :
  state_wf st ->
  exists o s, _find_best_match st text dpt pid thr = ((o, s), st)
              /\ forall f, o = Some f -> found_ok st dpt pid f.
Proof.
  intros Hwf. unfold FolderMatcher._find_best_match.
  destruct (generate_embedding text) as [q|]; [|by eexists _, _].
  destruct (walk_cached uuid4 thresholds (_folder_cache st) _ text dpt thr _
              (uuids_drawn st) (ranked_found st q dpt pid Hwf)) as [-> HP].
  destruct (walk _ _ _ _ _ 0) as [[o s] n]. simpl in *.
  exists o, s. by rewrite set_uuids_drawn_same.
Qed.

(** *** A creation on a state in normal form *)

Hypothesis uuid4_inj : forall i j, uuid4 i = uuid4 j -> i = j.
Hypothesis uuid4_nonempty : forall i, uuid4 i <> "".

Lemma create_folder_wf st lbl dpt parent als nf st' :
  state_wf st -> fresh uuid4 st ->
  (1 <= dpt <= 3)%Z -> dpt = segments (path_of parent lbl) ->
  (forall p, parent = Some p -> cached st p) ->
  _create_folder st lbl dpt parent als = (nf, st') ->
  state_wf st' /\ fresh uuid4 st'
  /\ cached st' nf /\ depth nf = dpt /\ label nf = lbl
  /\ path nf = path_of parent lbl /\ parent_id nf = folder_id <$> parent
  /\ uuids_drawn st' = S (uuids_drawn st)
  /\ (forall f, cached st f -> cached st' f).
Proof.
  intros (K1 & K2 & K3) Hf Hrange Hseg Hpar Hcr.
  destruct (create_folder_state embed_content uuid4 st lbl dpt parent als nf st' Hf Hcr)
    as (Hid & Hpath & Hlbl & Hdep & Hpid & Hcache & Hn & Hbd & Hvs).
  destruct (Hf (uuids_drawn st) (le_n _)) as [Hnone Hkey].
  assert (Hold : forall f, cached st f -> cached st' f).
  { intros f Hc. unfold cached in *. rewrite Hcache, lookup_insert_ne; [done|].
    congruence. }
  assert (Hnew : cached st' nf).
  { unfold cached. rewrite Hcache, Hid. apply lookup_insert_eq. }
  assert (Hnf : folder_wf (_folder_cache st') nf).
  { split; [rewrite Hid; apply uuid4_nonempty|].
    split; [by rewrite Hdep, Hpath|]. split; [by rewrite Hdep|].
    unfold linked. rewrite Hpid, Hpath, Hlbl. destruct parent as [p|]; simpl; [|done].
    exists p. split; [|done]. apply Hold. by apply Hpar. }
  split; [split; [|split]|].
  - intros k e md Hin.
    assert (Hcase : In (k, (e, md)) (vector_store st) \/ md = folder_meta nf).
    { destruct (generate_embedding _) as [v|].
      - destruct Hvs as [Hvs _]. rewrite Hvs in Hin.
        apply in_app_or in Hin as [Hin | [[= _ _ <-] | []]]; [by left | by right].
      - rewrite Hvs in Hin. by left. }
    destruct Hcase as [Hin' | ->].
    + destruct (K1 k e md Hin') as (f & H1 & H2 & H3 & H4).
      exists f. split; [done|]. split; [by apply Hold | done].
    + exists nf. rewrite folder_meta_folder_id, folder_meta_depth, folder_meta_parent_id.
      by repeat split.
  - intros d l f Hl Hin.
    assert (Hcase : (exists l0, _folders_by_depth st !! d = Some l0 /\ In f l0)
                    \/ (f = nf /\ d = dpt)).
    { rewrite Hbd in Hl. destruct (dpt <=? 3)%Z; [|left; by exists l].
      unfold by_depth_append in Hl.
      apply lookup_insert_Some in Hl as [[<- <-] | [_ Hl]]; [|left; by exists l].
      apply in_app_or in Hin as [Hin | [<- | []]]; [|by right].
      left. destruct (_folders_by_depth st !! dpt) as [l0|]; [|done].
      by exists l0. }
    destruct Hcase as [(l0 & Hl0 & Hin0) | [-> ->]].
    + destruct (K2 d l0 f Hl0 Hin0) as [Hc Hd]. split; [by apply Hold | done].
    + by split.
  - intros s f. rewrite Hcache. intros Hs.
    apply lookup_insert_Some in Hs as [[<- <-] | [Hne Hs]].
    + split; [done|]. by rewrite <- Hcache.
    + destruct (K3 s f Hs) as [H1 H2]. split; [done|]. by apply folder_wf_insert.
  - split; [|by repeat split].
    intros k Hk. rewrite Hn in Hk. destruct (Hf k ltac:(lia)) as [Hc Hv].
    assert (Hne : uuid4 k <> uuid4 (uuids_drawn st)).
    { intros E. apply uuid4_inj in E. lia. }
    split.
    + rewrite Hcache, lookup_insert_ne; [done|]. congruence.
    + destruct (generate_embedding _) as [v|]; [|by rewrite Hvs].
      destruct Hvs as [Hvs _]. rewrite Hvs, map_app. intros Hin.
      apply in_app_or in Hin as [Hin | [E | []]]; [done|].
      simpl in E. apply Hne. symmetry. by apply folder_key_inj.
Qed.

Lemma cached_wf st f : state_wf st -> cached st f -> folder_wf (_folder_cache st) f.
Proof. intros (_ & _ & K3) Hc. by destruct (K3 _ _ Hc). Qed.

(** *** The three levels *)

Lemma match_domain_wf st c :
  state_wf st -> fresh uuid4 st -> no_slash (la_label (domain c)) ->
  exists dr st1 D,
    match_domain st c = (dr, st1) /\ get_folder dr = Some D
    /\ state_wf st1 /\ fresh uuid4 st1
    /\ cached st1 D /\ depth D = 1%Z
    /\ result_ok dr /\ (action dr = REUSE_EXISTING \/ action dr = CREATE_NEW)
    /\ uuids_drawn st1 = uuids_drawn st + length (created_by [CREATE_NEW] dr)
    /\ (forall f, cached st f -> cached st1 f).
Proof.
  intros Hwf Hf Hns. unfold FolderMatcher.match_domain.
  destruct (find_best_match_wf st (la_label (domain c)) 1 None
              (domain_threshold thresholds) Hwf) as (o & s & -> & Ho).
  destruct o as [D|].
  - destruct (Ho D eq_refl) as (Hc & Hd & _).
    eexists _, st, D. split; [reflexivity|]. split; [done|].
    repeat (split; [done|]). split.
    + split; [by eexists | done].
    + split; [by left|]. split; [simpl; lia | done].
  - destruct (_create_folder st (la_label (domain c)) 1 None _) as [nf st1] eqn:Hcr.
    assert (Hseg : 1%Z = segments (path_of None (la_label (domain c)))).
    { simpl. symmetry. by apply segments_no_slash. }
    assert (Hpar : forall p, (None : option FolderEntity) = Some p -> cached st p)
      by (by intros p [=]).
    destruct (create_folder_wf st _ 1 None _ nf st1 Hwf Hf ltac:(lia) Hseg Hpar Hcr)
      as (Hwf1 & Hf1 & Hc & Hd & Hl & Hp & Hpid & Hn & Hold).
    eexists _, st1, nf. split; [reflexivity|]. split; [done|].
    repeat (split; [done|]). split.
    + split; [done|]. split; [by eexists | done].
    + split; [by right|]. split; [simpl; lia | done].
Qed.

Lemma match_subdomain_wf st c dr D :
  state_wf st -> fresh uuid4 st -> no_slash (la_label (subdomain c)) ->
  get_folder dr = Some D -> cached st D -> depth D = 1%Z ->
  exists sr st2 S,
    match_subdomain st c dr = Some (sr, st2) /\ get_folder sr = Some S
    /\ state_wf st2 /\ fresh uuid4 st2
    /\ cached st2 S /\ depth S = 2%Z /\ parent_id S = Some (folder_id D)
    /\ result_ok sr /\ (action sr = REUSE_EXISTING \/ action sr = ATTACH_AS_CHILD)
    /\ uuids_drawn st2
       = uuids_drawn st + length (created_by [CREATE_NEW; ATTACH_AS_CHILD] sr)
    /\ (forall f, cached st f -> cached st2 f).
Proof.
  intros Hwf Hf Hns HD HcD HdD. unfold FolderMatcher.match_subdomain. rewrite HD.
  destruct (cached_wf st D Hwf HcD) as (Hid & Hseg & _ & _).
  assert (Ht : truthy_id (Some (folder_id D)) = true).
  { simpl. by destruct (folder_id D). }
  destruct (find_best_match_wf st (label D ++ " > " ++ la_label (subdomain c)) 2
              (Some (folder_id D)) (subdomain_threshold thresholds) Hwf)
    as (o & s & -> & Ho).
  destruct o as [S|].
  - destruct (Ho S eq_refl) as (Hc & Hd & Hp).
    eexists _, st, S. split; [reflexivity|]. split; [done|].
    repeat (split; [done|]). split; [by apply Hp|]. split.
    + split; [by eexists | done].
    + split; [by left|]. split; [simpl; lia | done].
  - destruct (find_best_match_wf st (la_label (subdomain c)) 2 None
                (subdomain_threshold thresholds) Hwf) as (o' & s' & -> & _).
    destruct (_create_folder st (la_label (subdomain c)) 2 (Some D) _)
      as [nf st2] eqn:Hcr.
    assert (Hseg2 : 2%Z = segments (path_of (Some D) (la_label (subdomain c)))).
    { cbn [path_of]. rewrite segments_child, <- Hseg, HdD.
      apply segments_no_slash in Hns. by rewrite Hns. }
    assert (Hpar : forall p, Some D = Some p -> cached st p) by (by intros p [= <-]).
    destruct (create_folder_wf st _ 2 (Some D) _ nf st2 Hwf Hf ltac:(lia) Hseg2 Hpar Hcr)
      as (Hwf2 & Hf2 & Hc & Hd & Hl & Hp & Hpid & Hn & Hold).
    eexists _, st2, nf. split; [reflexivity|]. split; [done|].
    repeat (split; [done|]). split.
    + split; [done|]. split; [by eexists | done].
    + split; [by right|]. split; [simpl; lia | done].
Qed.

Lemma match_leaf_wf st c sr S :
  state_wf st -> fresh uuid4 st ->
  (forall leaf, leaf_topic c = Some leaf -> no_slash (la_label leaf)) ->
  get_folder sr = Some S -> cached st S -> depth S = 2%Z ->
  exists lr st3,
    match_leaf st c sr = (lr, st3)
    /\ state_wf st3 /\ fresh uuid4 st3
    /\ (forall f, cached st f -> cached st3 f)
    /\ (lr = None <-> leaf_topic c = None)
    /\ uuids_drawn st3
       = uuids_drawn st
         + match lr with
           | Some r => length (created_by [CREATE_NEW; ATTACH_AS_CHILD] r)
           | None => 0
           end
    /\ forall r, lr = Some r ->
         result_ok r
         /\ (action r = SKIP
             \/ ((action r = REUSE_EXISTING \/ action r = ATTACH_AS_CHILD)
                 /\ exists L, get_folder r = Some L /\ cached st3 L
                              /\ depth L = 3%Z /\ parent_id L = Some (folder_id S))).
Proof.
  intros Hwf Hf Hns HS HcS HdS. unfold FolderMatcher.match_leaf.
  destruct (leaf_topic c) as [leaf|] eqn:Hleaf.
  2:{ eexists None, st. split; [reflexivity|]. split; [done|]. split; [done|].
      split; [done|]. split; [done|]. split; [lia|]. intros r Hr. discriminate Hr. }
  assert (Hskip : exists lr st3,
             (Some (skip_leaf leaf), st) = (lr, st3)
             /\ state_wf st3 /\ fresh uuid4 st3
             /\ (forall f, cached st f -> cached st3 f)
             /\ (lr = None <-> Some leaf = None)
             /\ uuids_drawn st3
                = uuids_drawn st
                  + match lr with
                    | Some r => length (created_by [CREATE_NEW; ATTACH_AS_CHILD] r)
                    | None => 0
                    end
             /\ forall r, lr = Some r ->
                  result_ok r
                  /\ (action r = SKIP
                      \/ ((action r = REUSE_EXISTING \/ action r = ATTACH_AS_CHILD)
                          /\ exists L, get_folder r = Some L /\ cached st3 L
                                       /\ depth L = 3%Z
                                       /\ parent_id L = Some (folder_id S)))).
  { eexists _, st. split; [reflexivity|]. split; [done|]. split; [done|].
    split; [done|]. split; [done|]. split; [simpl; lia|].
    intros r [= <-]. split; [done | by left]. }
  destruct (la_optional leaf && Rltb _ _); [exact Hskip|]. rewrite HS.
  destruct (cached_wf st S Hwf HcS) as (Hid & Hseg & _ & _).
  assert (Ht : truthy_id (Some (folder_id S)) = true).
  { simpl. by destruct (folder_id S). }
  destruct (find_best_match_wf st (path S ++ " > " ++ la_label leaf) 3
              (Some (folder_id S)) (leaf_threshold thresholds) Hwf)
    as (o & s & -> & Ho).
  destruct o as [L|].
  - destruct (Ho L eq_refl) as (Hc & Hd & Hp).
    eexists _, st. split; [reflexivity|]. split; [done|]. split; [done|].
    split; [done|]. split; [done|]. split; [simpl; lia|].
    intros r [= <-]. split.
    + split; [by eexists | done].
    + right. split; [by left|]. exists L.
      split; [done|]. split; [done|]. split; [done | by apply Hp].
  - destruct (max_depth thresholds <=? depth S)%Z; [exact Hskip|].
    destruct (la_optional leaf); [exact Hskip|].
    destruct (_create_folder st (la_label leaf) 3 (Some S) _) as [nf st3] eqn:Hcr.
    assert (Hseg3 : 3%Z = segments (path_of (Some S) (la_label leaf))).
    { cbn [path_of]. rewrite segments_child, <- Hseg, HdS.
      specialize (Hns leaf eq_refl). apply segments_no_slash in Hns. by rewrite Hns. }
    assert (Hpar : forall p, Some S = Some p -> cached st p) by (by intros p [= <-]).
    destruct (create_folder_wf st _ 3 (Some S) _ nf st3 Hwf Hf ltac:(lia) Hseg3 Hpar Hcr)
      as (Hwf3 & Hf3 & Hc & Hd & Hl & Hp & Hpid & Hn & Hold).
    eexists _, st3. split; [reflexivity|]. split; [done|]. split; [done|].
    split; [done|]. split; [done|]. split; [simpl; lia|].
    intros r [= <-]. split.
    + split; [done|]. split; [by eexists | done].
    + right. split; [by right|]. exists nf.
      split; [done|]. split; [done|]. split; [done | exact Hpid].
Qed.

(** *** The whole match *)

Lemma linked_root cache f :
  folder_wf cache f -> depth f = 1%Z -> path f = label f.
Proof.
  intros (_ & Hseg & _ & Hl) Hd. unfold linked in Hl.
  destruct (parent_id f) as [p|]; [|done]. destruct Hl as (P & _ & Hp).
  rewrite Hp, segments_child in Hseg.
  pose proof (segments_pos (path P)). pose proof (segments_pos (label f)). lia.
Qed.

Lemma linked_child st f P :
  state_wf st -> cached st f -> cached st P -> parent_id f = Some (folder_id P) ->
  path f = path P ++ "/" ++ label f.
Proof.
  intros Hwf Hf HP Hp. destruct (cached_wf st f Hwf Hf) as (_ & _ & _ & Hl).
  unfold linked in Hl. rewrite Hp in Hl. destruct Hl as (P' & HP' & ->).
  unfold cached in HP. congruence.
Qed.

Lemma match_wf st c :
  state_wf st -> fresh uuid4 st -> slash_free c ->
  exists m st' F,
    match_ st c = Some (m, st') /\ state_wf st' /\ fresh uuid4 st'
    /\ final_folder m = Some F /\ cached st' F /\ get_final_path m = path F
    /\ (2 <= depth F <= 3)%Z
    /\ uuids_drawn st' = uuids_drawn st + length (get_created_folders m)
    /\ (forall f, cached st f -> cached st' f)
    /\ result_ok (domain_result m) /\ result_ok (subdomain_result m)
    /\ (forall r, leaf_result m = Some r -> result_ok r).
Proof.
  intros Hwf Hf (HnsD & HnsS & HnsL). unfold FolderMatcher.match_.
  destruct (match_domain_wf st c Hwf Hf HnsD)
    as (dr & st1 & D & -> & HD & Hwf1 & Hf1 & HcD & HdD & HokD & _ & Hn1 & Hold1).
  destruct (match_subdomain_wf st1 c dr D Hwf1 Hf1 HnsS HD HcD HdD)
    as (sr & st2 & S & -> & HS & Hwf2 & Hf2 & HcS & HdS & HpS & HokS & _ & Hn2 & Hold2).
  destruct (match_leaf_wf st2 c sr S Hwf2 Hf2 HnsL HS HcS HdS)
    as (lr & st3 & -> & Hwf3 & Hf3 & Hold3 & _ & Hn3 & Hlr).
  assert (HpathD : path D = label D).
  { eapply linked_root; [|done]. eapply cached_wf; [exact Hwf1 | done]. }
  assert (HpathS : path S = label D ++ "/" ++ label S).
  { rewrite <- HpathD. eapply (linked_child st2); try done. by apply Hold2. }
  assert (Hcount : uuids_drawn st3
                   = uuids_drawn st
                     + length (get_created_folders
                                 {| domain_result := dr; subdomain_result := sr;
                                    leaf_result := lr |})).
  { unfold get_created_folders. cbn [domain_result subdomain_result leaf_result].
    rewrite !length_app. destruct lr; cbn [length]; lia. }
  assert (Hold : forall f, cached st f -> cached st3 f).
  { intros f Hc. by apply Hold3, Hold2, Hold1. }
  assert (Hsub : exists F,
             get_folder sr = Some F /\ cached st3 F
             /\ PyStr.join "/" (folder_labels (get_folder dr)
                                ++ folder_labels (get_folder sr)) = path F
             /\ (2 <= depth F <= 3)%Z).
  { exists S. split; [done|]. split; [by apply Hold3|]. rewrite HD, HS. simpl.
    split; [by rewrite HpathS | lia]. }
  destruct lr as [r|].
  2:{ destruct Hsub as (F & HF & HcF & Hp & Hd). eexists _, st3, F.
      split; [reflexivity|]. unfold final_folder, get_final_path.
      cbn [domain_result subdomain_result leaf_result].
      split; [done|]. split; [done|]. split; [done|]. split; [done|].
      split; [done|]. split; [done|]. split; [done|]. split; [done|].
      split; [done|]. split; [done|]. intros r Hr. discriminate Hr. }
  destruct (Hlr r eq_refl) as [Hokr [Hskip | (_ & L & HL & HcL & HdL & HpL)]].
  - destruct Hsub as (F & HF & HcF & Hp & Hd). eexists _, st3, F.
    split; [reflexivity|]. unfold final_folder, get_final_path.
    cbn [domain_result subdomain_result leaf_result].
    split; [done|]. split; [done|].
    rewrite Hskip. cbn [action_eqb negb].
    split; [by destruct (get_folder r)|]. split; [done|].
    split; [by destruct (get_folder r)|]. split; [done|]. split; [done|].
    split; [done|]. split; [done|]. split; [done|]. by intros r' [= <-].
  - assert (Hns : negb (action_eqb (action r) SKIP) = true).
    { unfold result_ok in Hokr. unfold get_folder in HL.
      destruct (action r); try done. destruct Hokr as [Hm Hnew].
      rewrite Hm, Hnew in HL. discriminate HL. }
    eexists _, st3, L. split; [reflexivity|]. unfold final_folder, get_final_path.
    cbn [domain_result subdomain_result leaf_result].
    split; [done|]. split; [done|].
    rewrite HL, Hns. split; [done|]. split; [done|]. split.
    + rewrite HD, HS. cbn [folder_labels app]. rewrite final_path_three.
      rewrite <- HpathS. symmetry. eapply (linked_child st3); try done.
      by apply Hold3.
    + split; [lia|]. split; [done|]. split; [done|]. split; [done|].
      split; [done|]. by intros r' [= <-].
Qed.

(** X19. On a state in normal form whose unused identifiers are fresh,
    matching a candidate with labels free of "/" returns, keeps the state in
    normal form (every stored vector describes a cached folder, every
    cached folder has a depth between 1 and 3 equal to the number of
    segments of its path, which extends its parent's path), and files the
    item under a cached folder of depth 2 or 3 whose path is the final path
    reported. *)
Theorem match_keeps_invariant (st : Matcher) (c : TaxonomyCandidate) :
  state_wf st -> fresh uuid4 st -> slash_free c ->
  exists m st' F,
    match_ st c = Some (m, st') /\ state_wf st' /\ fresh uuid4 st'
    /\ final_folder m = Some F /\ cached st' F /\ get_final_path m = path F
    /\ depth F = segments (path F) /\ (2 <= depth F <= 3)%Z.
Proof.
  intros Hwf Hf Hc.
  destruct (match_wf st c Hwf Hf Hc)
    as (m & st' & F & Hm & Hwf' & Hf' & HF & HcF & Hp & Hd & _).
  exists m, st', F. repeat (split; [done|]). split; [|done].
  by destruct (cached_wf st' F Hwf' HcF) as (_ & Hseg & _).
Qed.

(** X20. On a state in normal form, a match draws exactly one identifier
    per folder it creates, every folder cached before is still cached
    unchanged, and each level result has the shape of its action: a reuse
    carries the matched folder only, a creation the new folder only at
    similarity 0, a skip no folder. *)
Theorem match_accounting (st : Matcher) (c : TaxonomyCandidate) :
  state_wf st -> fresh uuid4 st -> slash_free c ->
  exists m st',
    match_ st c = Some (m, st')
    /\ uuids_drawn st' = uuids_drawn st + length (get_created_folders m)
    /\ (forall f, cached st f -> cached st' f)
    /\ result_ok (domain_result m) /\ result_ok (subdomain_result m)
    /\ (forall r, leaf_result m = Some r -> result_ok r).
Proof.
  intros Hwf Hf Hc.
  destruct (match_wf st c Hwf Hf Hc)
    as (m & st' & F & Hm & _ & _ & _ & _ & _ & _ & Hn & Hold & H1 & H2 & H3).
  by exists m, st'.
Qed.

End Invariant.

Lemma new_matcher_wf : state_wf new_matcher.
Proof.
  split; [|split].
  - intros k e md [].
  - intros d l f Hl Hin. unfold new_matcher in Hl. cbn [_folders_by_depth] in Hl.
    repeat (apply lookup_insert_Some in Hl as [[_ <-] | [_ Hl]]; [done|]).
    by rewrite lookup_empty in Hl.
  - intros s f Hs. unfold new_matcher in Hs. cbn [_folder_cache] in Hs.
    by rewrite lookup_empty in Hs.
Qed.

Lemma sample_uuid4_nonempty i : sample_uuid4 i <> "".
Proof. done. Qed.

Lemma astronomy_slash_free : slash_free astronomy.
Proof. by repeat split. Qed.

Lemma match_keeps_invariant_witness :
  exists m st' F,
    match_ constant_backend sample_uuid4 default_thresholds new_matcher astronomy
      = Some (m, st')
    /\ state_wf st' /\ fresh sample_uuid4 st'
    /\ final_folder m = Some F /\ cached st' F /\ get_final_path m = path F
    /\ depth F = segments (path F) /\ (2 <= depth F <= 3)%Z.
Proof.
  apply (match_keeps_invariant constant_backend sample_uuid4 default_thresholds
           sample_uuid4_inj sample_uuid4_nonempty new_matcher astronomy).
  - apply new_matcher_wf.
  - apply new_matcher_fresh.
  - apply astronomy_slash_free.
Defined.

Lemma match_accounting_witness :
  exists m st',
    match_ constant_backend sample_uuid4 default_thresholds new_matcher astronomy
      = Some (m, st')
    /\ uuids_drawn st' = uuids_drawn new_matcher + length (get_created_folders m)
    /\ (forall f, cached new_matcher f -> cached st' f)
    /\ result_ok (domain_result m) /\ result_ok (subdomain_result m)
    /\ (forall r, leaf_result m = Some r -> result_ok r).
Proof.
  apply (match_accounting constant_backend sample_uuid4 default_thresholds
           sample_uuid4_inj sample_uuid4_nonempty new_matcher astronomy).
  - apply new_matcher_wf.
  - apply new_matcher_fresh.
  - apply astronomy_slash_free.
Defined.

(** ** Loading folders *)

Lemma by_depth_append_lookup m e f d :
  default [] (by_depth_append m e f !! d)
  = (default [] (m !! d) ++ (if (e =? d)%Z then [f] else []))%list.
Proof.
  unfold by_depth_append. destruct (e =? d)%Z eqn:E.
  - apply Z.eqb_eq in E. subst. by rewrite lookup_insert_eq.
  - apply Z.eqb_neq in E. rewrite lookup_insert_ne by done. by rewrite app_nil_r.
Qed.

Lemma load_existing_folders_lists st folders d :
  (d <= 3)%Z ->
  default [] (_folders_by_depth (load_existing_folders st folders) !! d)
  = (default [] (_folders_by_depth st !! d) ++ loaded_at d folders)%list.
Proof.
  intros Hd. unfold load_existing_folders, loaded_at. revert st.
  induction folders as [|f folders IH]; intros st; cbn [fold_left List.filter map].
  { by rewrite app_nil_r. }
  rewrite IH. unfold load_folder. cbn [_folders_by_depth].
  change (depth (loaded_entity f)) with (segments (ef_path f)).
  destruct (segments (ef_path f) =? d)%Z eqn:E.
  - assert (Hle : (segments (ef_path f) <=? 3)%Z = true).
    { apply Z.eqb_eq in E. apply Z.leb_le. lia. }
    rewrite Hle, by_depth_append_lookup, E. cbn [map]. by rewrite <- app_assoc.
  - destruct (segments (ef_path f) <=? 3)%Z; [|done].
    by rewrite by_depth_append_lookup, E, app_nil_r.
Qed.

Lemma load_existing_folders_frame st folders :
  vector_store (load_existing_folders st folders) = vector_store st
  /\ uuids_drawn (load_existing_folders st folders) = uuids_drawn st
  /\ (forall d, (3 < d)%Z ->
        _folders_by_depth (load_existing_folders st folders) !! d
        = _folders_by_depth st !! d)
  /\ (forall k, is_Some (_folder_cache st !! k) ->
        is_Some (_folder_cache (load_existing_folders st folders) !! k)).
Proof.
  unfold load_existing_folders. revert st.
  induction folders as [|f folders IH]; intros st; simpl; [done|].
  destruct (IH (load_folder st f)) as (H1 & H2 & H3 & H4).
  split; [by rewrite H1|]. split; [by rewrite H2|]. split.
  - intros d Hd. rewrite (H3 d Hd). unfold load_folder. cbn [_folders_by_depth].
    destruct (depth (loaded_entity f) <=? 3)%Z eqn:E; [|done].
    apply Z.leb_le in E. unfold by_depth_append.
    rewrite lookup_insert_ne; [done | lia].
  - intros k Hk. apply H4. unfold load_folder. cbn [_folder_cache].
    destruct (decide (ef_folder_id f = k)) as [->|Hne].
    + rewrite lookup_insert_eq. by eexists.
    + by rewrite lookup_insert_ne.
Qed.

Lemma load_existing_folders_cached st folders f :
  In f folders ->
  is_Some (_folder_cache (load_existing_folders st folders) !! ef_folder_id f).
Proof.
  unfold load_existing_folders. revert st.
  induction folders as [|g folders IH]; intros st; simpl; [done|].
  intros [-> | Hin]; [|by apply IH].
  apply (proj2 (proj2 (proj2 (load_existing_folders_frame (load_folder st f) folders)))).
  unfold load_folder. cbn [_folder_cache]. rewrite lookup_insert_eq. by eexists.
Qed.

(** X21. [load_existing_folders] files every folder under the number of
    segments of its path, in the order given, with the last segment as
    label and no parent: the list of depth [d] (up to 3) grows by exactly
    the loaded folders with [d] segments; folders with more than three
    segments are cached but not listed; the vector store and the identifier
    counter are untouched. *)
Theorem load_existing_folders_spec (st : Matcher) (folders : list ExistingFolder) :
  (forall d, (d <= 3)%Z ->
     default [] (_folders_by_depth (load_existing_folders st folders) !! d)
     = (default [] (_folders_by_depth st !! d) ++ loaded_at d folders)%list)
  /\ (forall d, (3 < d)%Z ->
        _folders_by_depth (load_existing_folders st folders) !! d
        = _folders_by_depth st !! d)
  /\ (forall f, In f folders ->
        is_Some (_folder_cache (load_existing_folders st folders) !! ef_folder_id f))
  /\ vector_store (load_existing_folders st folders) = vector_store st
  /\ uuids_drawn (load_existing_folders st folders) = uuids_drawn st.
Proof.
  destruct (load_existing_folders_frame st folders) as (H1 & H2 & H3 & _).
  split; [intros d Hd; by apply load_existing_folders_lists|].
  split; [done|]. split; [|done].
  intros f Hf. by apply load_existing_folders_cached.
Qed.

Lemma load_existing_folders_spec_witness :
  default [] (_folders_by_depth
                (load_existing_folders new_matcher
                   [{| ef_folder_id := "f1"; ef_path := "Cooking/Baking";
                       ef_embedding_id := None; ef_embedding := None;
                       ef_item_count := 0 |}]) !! 2%Z)
  = (default [] (_folders_by_depth new_matcher !! 2%Z)
     ++ loaded_at 2 [{| ef_folder_id := "f1"; ef_path := "Cooking/Baking";
                        ef_embedding_id := None; ef_embedding := None;
                        ef_item_count := 0 |}])%list.
Proof.
  apply (load_existing_folders_spec new_matcher
           [{| ef_folder_id := "f1"; ef_path := "Cooking/Baking";
               ef_embedding_id := None; ef_embedding := None;
               ef_item_count := 0 |}]).
  lia.
Defined.

(** ** Seeding *)

Lemma seed_meta_folder_id f : md_get (seed_meta f) "folder_id" = MStr (folder_id f).
Proof. unfold seed_meta, md_get. destruct (parent_id f); by simplify_map_eq. Qed.

Lemma seed_meta_depth f : md_get (seed_meta f) "depth" = MInt (depth f).
Proof. unfold seed_meta, md_get. destruct (parent_id f); by simplify_map_eq. Qed.

Lemma seed_meta_parent_id f : md_get (seed_meta f) "parent_id" = opt_mval (parent_id f).
Proof. unfold seed_meta, md_get. destruct (parent_id f); by simplify_map_eq. Qed.

Section Seeding.

Variable embed_content : string -> option (list R).
Variable uuid4 : nat -> string.

Local Abbreviation generate_embedding := (FolderMatcher.generate_embedding embed_content).
Local Abbreviation store_folder := (FolderMatcher.store_folder embed_content).
Local Abbreviation seed_subdomain := (FolderMatcher.seed_subdomain embed_content uuid4).
Local Abbreviation seed_domain := (FolderMatcher.seed_domain embed_content uuid4).
Local Abbreviation initialize_seed_folders :=
  (FolderMatcher.initialize_seed_folders embed_content uuid4).

Hypothesis uuid4_inj : forall i j, uuid4 i = uuid4 j -> i = j.
Hypothesis uuid4_nonempty : forall i, uuid4 i <> "".

Lemma store_folder_wf st folder text meta nf st' :
  state_wf st -> fresh uuid4 st ->
  folder_id folder = uuid4 (uuids_drawn st) ->
  (1 <= depth folder <= 3)%Z -> depth folder = segments (path folder) ->
  match parent_id folder with
  | None => path folder = label folder
  | Some p => exists P, cached st P /\ folder_id P = p
                        /\ path folder = path P ++ "/" ++ label folder
  end ->
  md_get meta "folder_id" = MStr (folder_id folder) ->
  md_get meta "depth" = MInt (depth folder) ->
  md_get meta "parent_id" = opt_mval (parent_id folder) ->
  store_folder st folder text meta = (nf, st') ->
  state_wf st' /\ fresh uuid4 st' /\ cached st' nf
  /\ folder_id nf = folder_id folder /\ path nf = path folder
  /\ label nf = label folder /\ depth nf = depth folder
  /\ parent_id nf = parent_id folder /\ is_seed nf = is_seed folder
  /\ uuids_drawn st' = S (uuids_drawn st)
  /\ (forall f, cached st f -> cached st' f).
Proof.
  intros (K1 & K2 & K3) Hf Hid Hrange Hseg Hlink Hm1 Hm2 Hm3 Hst.
  destruct (Hf (uuids_drawn st) (le_n _)) as [Hnone Hkey].
  unfold FolderMatcher.store_folder in Hst.
  set (stored := match generate_embedding text with
                 | Some emb =>
                     (with_embedding folder ("folder_" ++ folder_id folder) emb,
                      add_vector (vector_store st) ("folder_" ++ folder_id folder)
                                 emb meta)
                 | None => (folder, vector_store st)
                 end) in Hst.
  assert (Hfields : folder_id stored.1 = folder_id folder /\ path stored.1 = path folder
                    /\ label stored.1 = label folder /\ depth stored.1 = depth folder
                    /\ parent_id stored.1 = parent_id folder
                    /\ is_seed stored.1 = is_seed folder).
  { unfold stored. by destruct (generate_embedding text). }
  assert (Hstore : forall k e md, In (k, (e, md)) stored.2 ->
                     In (k, (e, md)) (vector_store st) \/ md = meta).
  { unfold stored. destruct (generate_embedding text) as [emb|]; simpl; [|by left].
    rewrite add_vector_fresh by (by rewrite Hid).
    intros k e md Hin. apply in_app_or in Hin as [Hin | [[= _ _ <-] | []]];
      [by left | by right]. }
  assert (Hids : forall k, In k (map fst stored.2) ->
                   In k (map fst (vector_store st)) \/ k = "folder_" ++ folder_id folder).
  { unfold stored. destruct (generate_embedding text) as [emb|]; simpl; [|by left].
    rewrite add_vector_fresh by (by rewrite Hid). intros k. rewrite map_app.
    intros Hin. apply in_app_or in Hin as [Hin | [<- | []]]; [by left | by right]. }
  destruct stored as [nf0 vs]. simpl in Hfields, Hstore, Hids.
  destruct Hfields as (F1 & F2 & F3 & F4 & F5 & F6).
  injection Hst as <- <-.
  assert (Hold : forall f, cached st f ->
                   <[folder_id nf0 := nf0]> (_folder_cache st) !! folder_id f = Some f).
  { intros f Hc. unfold cached in Hc. rewrite lookup_insert_ne; [done|].
    rewrite F1, Hid. congruence. }
  assert (Hnf : folder_wf (<[folder_id nf0 := nf0]> (_folder_cache st)) nf0).
  { split; [rewrite F1, Hid; apply uuid4_nonempty|].
    split; [by rewrite F4, F2|]. split; [by rewrite F4|].
    unfold linked. rewrite F5, F2, F3. destruct (parent_id folder) as [p|]; [|done].
    destruct Hlink as (P & HcP & <- & Hp). exists P. split; [by apply Hold | done]. }
  unfold cached, state_wf. cbn [vector_store _folder_cache _folders_by_depth uuids_drawn].
  split; [split; [|split]|].
  - intros k e md Hin. destruct (Hstore k e md Hin) as [Hin' | ->].
    + destruct (K1 k e md Hin') as (f & H1 & H2 & H3 & H4).
      exists f. split; [done|]. split; [by apply Hold | done].
    + exists nf0. rewrite Hm1, Hm2, Hm3, F1, F4, F5.
      split; [done|]. split; [|done]. rewrite <- F1. apply lookup_insert_eq.
  - intros d l f Hl Hin.
    assert (Hcase : (exists l0, _folders_by_depth st !! d = Some l0 /\ In f l0)
                    \/ (f = nf0 /\ d = depth nf0)).
    { destruct (depth nf0 <=? 3)%Z; [|left; by exists l].
      unfold by_depth_append in Hl.
      apply lookup_insert_Some in Hl as [[<- <-] | [_ Hl]]; [|left; by exists l].
      apply in_app_or in Hin as [Hin | [<- | []]]; [|by right].
      left. destruct (_folders_by_depth st !! depth nf0) as [l0|]; [|done].
      by exists l0. }
    destruct Hcase as [(l0 & Hl0 & Hin0) | [-> ->]].
    + destruct (K2 d l0 f Hl0 Hin0) as [Hc Hd]. split; [by apply Hold | done].
    + split; [apply lookup_insert_eq | done].
  - intros s f Hs. apply lookup_insert_Some in Hs as [[<- <-] | [Hne Hs]].
    + by split.
    + destruct (K3 s f Hs) as [H1 H2]. split; [done|].
      apply folder_wf_insert; [|done]. by rewrite F1, Hid.
  - split.
    + intros k Hk. cbn [uuids_drawn] in Hk. destruct (Hf k ltac:(lia)) as [Hc Hv].
      assert (Hne : uuid4 k <> uuid4 (uuids_drawn st)).
      { intros E. apply uuid4_inj in E. lia. }
      cbn [_folder_cache vector_store]. split.
      * rewrite lookup_insert_ne; [done|]. rewrite F1, Hid. congruence.
      * intros Hin. destruct (Hids _ Hin) as [Hin' | E]; [done|].
        apply folder_key_inj in E. rewrite Hid in E. done.
    + split; [apply lookup_insert_eq|]. by repeat split.
Qed.

Lemma seed_subdomain_wf D acc st s :
  state_wf st -> fresh uuid4 st -> cached st D -> depth D = 1%Z ->
  path D = label D -> no_slash (ss_label s) ->
  Forall (cached st) acc ->
  exists created st',
    seed_subdomain D (acc, st) s = (created, st')
    /\ state_wf st' /\ fresh uuid4 st' /\ cached st' D
    /\ Forall (cached st') created /\ length created = S (length acc)
    /\ uuids_drawn st' = S (uuids_drawn st)
    /\ (forall f, cached st f -> cached st' f).
Proof.
  intros Hwf Hf HcD HdD HpD Hns Hacc. unfold FolderMatcher.seed_subdomain.
  set (entity := {| folder_id := uuid4 (uuids_drawn st);
                    path := label D ++ "/" ++ ss_label s; label := ss_label s;
                    depth := 2; parent_id := Some (folder_id D);
                    aliases := ss_aliases s; embedding_id := None; embedding := None;
                    item_count := 0; is_seed := true |}).
  destruct (store_folder st entity _ (seed_meta entity)) as [nf st'] eqn:Hst.
  destruct (cached_wf st D Hwf HcD) as (_ & Hseg & _).
  assert (Hseg2 : depth entity = segments (path entity)).
  { unfold entity. cbn [depth path]. rewrite segments_child, <- HpD, <- Hseg, HdD.
    apply segments_no_slash in Hns. by rewrite Hns. }
  assert (Hlink : match parent_id entity with
                  | None => path entity = label entity
                  | Some p => exists P, cached st P /\ folder_id P = p
                                        /\ path entity = path P ++ "/" ++ label entity
                  end).
  { unfold entity. cbn [parent_id path label]. exists D.
    split; [done|]. split; [done|]. by rewrite HpD. }
  destruct (store_folder_wf st entity _ _ nf st' Hwf Hf eq_refl ltac:(simpl; lia)
              Hseg2 Hlink (seed_meta_folder_id _) (seed_meta_depth _)
              (seed_meta_parent_id _) Hst)
    as (Hwf' & Hf' & Hc & _ & _ & _ & _ & _ & _ & Hn & Hold).
  eexists _, st'. split; [reflexivity|]. split; [done|]. split; [done|].
  split; [by apply Hold|]. split.
  - apply Forall_app. split; [|by constructor].
    eapply Forall_impl; [exact Hacc|]. intros f. apply Hold.
  - split; [rewrite length_app; simpl; lia|]. by split.
Qed.

Lemma seed_subdomains_wf D subs acc st :
  state_wf st -> fresh uuid4 st -> cached st D -> depth D = 1%Z ->
  path D = label D -> Forall (fun s => no_slash (ss_label s)) subs ->
  Forall (cached st) acc ->
  exists created st',
    fold_left (seed_subdomain D) subs (acc, st) = (created, st')
    /\ state_wf st' /\ fresh uuid4 st'
    /\ Forall (cached st') created /\ length created = length acc + length subs
    /\ uuids_drawn st' = uuids_drawn st + length subs
    /\ (forall f, cached st f -> cached st' f).
Proof.
  intros Hwf Hf HcD HdD HpD Hsubs. revert acc st Hwf Hf HcD.
  induction Hsubs as [|s subs Hs _ IH]; intros acc st Hwf Hf HcD Hacc; cbn [fold_left].
  { eexists _, st. split; [reflexivity|]. split; [done|]. split; [done|].
    split; [done|]. split; [simpl; lia|]. split; [simpl; lia | done]. }
  destruct (seed_subdomain_wf D acc st s Hwf Hf HcD HdD HpD Hs Hacc)
    as (c1 & st1 & -> & Hwf1 & Hf1 & HcD1 & Hc1 & Hl1 & Hn1 & Hold1).
  destruct (IH c1 st1 Hwf1 Hf1 HcD1 Hc1)
    as (c2 & st2 & -> & Hwf2 & Hf2 & Hc2 & Hl2 & Hn2 & Hold2).
  eexists _, st2. split; [reflexivity|]. split; [done|]. split; [done|].
  split; [done|]. split; [simpl; lia|]. split; [simpl; lia|].
  intros f Hc. by apply Hold2, Hold1.
Qed.

Lemma seed_domain_wf acc st d :
  state_wf st -> fresh uuid4 st -> seed_slash_free d -> Forall (cached st) acc ->
  exists created st',
    seed_domain (acc, st) d = (created, st')
    /\ state_wf st' /\ fresh uuid4 st'
    /\ Forall (cached st') created
    /\ length created = length acc + S (length (sd_subdomains d))
    /\ uuids_drawn st' = uuids_drawn st + S (length (sd_subdomains d))
    /\ (forall f, cached st f -> cached st' f).
Proof.
  intros Hwf Hf [HnsD Hsubs] Hacc. unfold FolderMatcher.seed_domain.
  set (entity := {| folder_id := uuid4 (uuids_drawn st); path := sd_label d;
                    label := sd_label d; depth := 1; parent_id := None;
                    aliases := sd_aliases d; embedding_id := None; embedding := None;
                    item_count := 0; is_seed := true |}).
  destruct (store_folder st entity _ (seed_meta entity)) as [nf st1] eqn:Hst.
  assert (Hseg : depth entity = segments (path entity)).
  { simpl. symmetry. by apply segments_no_slash. }
  destruct (store_folder_wf st entity _ _ nf st1 Hwf Hf eq_refl ltac:(simpl; lia)
              Hseg eq_refl (seed_meta_folder_id _) (seed_meta_depth _)
              (seed_meta_parent_id _) Hst)
    as (Hwf1 & Hf1 & Hc & _ & Hp & Hl & Hd & _ & _ & Hn & Hold).
  assert (Hacc1 : Forall (cached st1) (acc ++ [nf])).
  { apply Forall_app. split; [|by constructor].
    eapply Forall_impl; [exact Hacc|]. intros f. apply Hold. }
  destruct (seed_subdomains_wf nf (sd_subdomains d) (acc ++ [nf])%list st1 Hwf1 Hf1 Hc
              Hd ltac:(by rewrite Hp, Hl) Hsubs Hacc1)
    as (c2 & st2 & -> & Hwf2 & Hf2 & Hc2 & Hl2 & Hn2 & Hold2).
  eexists _, st2. split; [reflexivity|]. split; [done|]. split; [done|].
  split; [done|]. split; [rewrite Hl2, length_app; simpl; lia|]. split; [lia|].
  intros f Hcf. by apply Hold2, Hold.
Qed.

Lemma seed_domains_wf ds acc st :
  state_wf st -> fresh uuid4 st -> Forall seed_slash_free ds -> Forall (cached st) acc ->
  exists created st',
    fold_left seed_domain ds (acc, st) = (created, st')
    /\ state_wf st' /\ fresh uuid4 st'
    /\ Forall (cached st') created
    /\ length created = length acc + seed_count ds
    /\ uuids_drawn st' = uuids_drawn st + seed_count ds
    /\ (forall f, cached st f -> cached st' f).
Proof.
  intros Hwf Hf Hds. revert acc st Hwf Hf.
  induction Hds as [|d ds Hd _ IH]; intros acc st Hwf Hf Hacc; cbn [fold_left];
    change (seed_count (d :: ds)) with (S (length (sd_subdomains d)) + seed_count ds)
    || change (seed_count []) with 0.
  { eexists _, st. split; [reflexivity|]. split; [done|]. split; [done|].
    split; [done|]. split; [lia|]. split; [lia | done]. }
  destruct (seed_domain_wf acc st d Hwf Hf Hd Hacc)
    as (c1 & st1 & -> & Hwf1 & Hf1 & Hc1 & Hl1 & Hn1 & Hold1).
  destruct (IH c1 st1 Hwf1 Hf1 Hc1)
    as (c2 & st2 & -> & Hwf2 & Hf2 & Hc2 & Hl2 & Hn2 & Hold2).
  eexists _, st2. split; [reflexivity|]. split; [done|]. split; [done|].
  split; [done|]. split; [lia|]. split; [lia|].
  intros f Hc. by apply Hold2, Hold1.
Qed.

Lemma initialize_seed_folders_wf st :
  state_wf st -> fresh uuid4 st ->
  exists created st',
    initialize_seed_folders st = (created, st')
    /\ state_wf st' /\ fresh uuid4 st'
    /\ Forall (cached st') created /\ length created = 81
    /\ uuids_drawn st' = uuids_drawn st + 81
    /\ (forall f, cached st f -> cached st' f).
Proof.
  intros Hwf Hf. unfold FolderMatcher.initialize_seed_folders.
  destruct (seed_domains_wf SEED_DOMAINS [] st Hwf Hf SEED_DOMAINS_slash_free
              ltac:(constructor))
    as (c & st' & -> & Hwf' & Hf' & Hc & Hl & Hn & Hold).
  by eexists _, st'.
Qed.

(** X22. Seeding a state in normal form keeps it in normal form: the 81
    folders of the seed taxonomy (14 domains and their 67 subdomains) are
    created, one identifier each, all cached under their identifiers, and
    every folder cached before is still cached. *)
Theorem initialize_seed_folders_spec (st : Matcher) :
  state_wf st -> fresh uuid4 st ->
  exists created st',
    initialize_seed_folders st = (created, st')
    /\ state_wf st' /\ fresh uuid4 st'
    /\ Forall (cached st') created /\ length created = 81
    /\ uuids_drawn st' = uuids_drawn st + 81
    /\ (forall f, cached st f -> cached st' f).
Proof. apply initialize_seed_folders_wf. Qed.

End Seeding.

Lemma initialize_seed_folders_spec_witness :
  exists created st',
    initialize_seed_folders constant_backend sample_uuid4 new_matcher = (created, st')
    /\ state_wf st' /\ fresh sample_uuid4 st'
    /\ Forall (cached st') created /\ length created = 81
    /\ uuids_drawn st' = uuids_drawn new_matcher + 81
    /\ (forall f, cached new_matcher f -> cached st' f).
Proof.
  apply (initialize_seed_folders_spec constant_backend sample_uuid4
           sample_uuid4_inj sample_uuid4_nonempty new_matcher).
  - apply new_matcher_wf.
  - apply new_matcher_fresh.
Defined.


(** ** The orchestrator *)

Lemma output_ok_mono st st' o :
  (forall f, cached st f -> cached st' f) -> output_ok st o -> output_ok st' o.
Proof.
  intros Hold [H | (F & Hc & Hrest)]; [by left|]. right. exists F.
  split; [by apply Hold | done].
Qed.

Lemma well_formed_slash_free c : well_formed c -> slash_free c.
Proof.
  intros (H1 & H2 & H3 & _). split; [done|]. split; [done|].
  intros leaf Hl. by destruct (H3 leaf Hl).
Qed.

Lemma list_sum_snoc l n : list_sum (l ++ [n]) = list_sum l + n.
Proof. rewrite list_sum_app. simpl. lia. Qed.

Lemma total_of_cons f o l : total_of f (o :: l) = length (f o) + total_of f l.
Proof. done. Qed.

Lemma confident_cons o l :
  length (confident (o :: l))
  = (if Rltb 0 (out_confidence o) then 1 else 0) + length (confident l).
Proof. unfold confident. simpl. by destruct (Rltb 0 (out_confidence o)). Qed.

Section Orchestration.

Variable embed_content : string -> option (list R).
Variable uuid4 : nat -> string.
Variable thresholds : ThresholdConfig.
Variable py_str : json -> string.
Variable configured : bool.
Variable llm_parsed : ItemInput -> option json.
Variable config : TaxonomyConfig.

Local Abbreviation generate :=
  (TaxonomyGenerator.generate py_str configured llm_parsed config).
Local Abbreviation match_ := (FolderMatcher.match_ embed_content uuid4 thresholds).
Local Abbreviation initialize_seed_folders :=
  (FolderMatcher.initialize_seed_folders embed_content uuid4).
Local Abbreviation _ensure_initialized :=
  (AutoFolder._ensure_initialized embed_content uuid4).
Local Abbreviation classify :=
  (AutoFolder.classify embed_content uuid4 thresholds py_str configured llm_parsed config).
Local Abbreviation batch_step :=
  (AutoFolder.batch_step embed_content uuid4 thresholds py_str configured llm_parsed
     config).
Local Abbreviation classify_batch :=
  (AutoFolder.classify_batch embed_content uuid4 thresholds py_str configured
     llm_parsed config).

(** *** Accounting of a batch *)

Lemma batch_fold_accounting items b0 st :
  exists outs,
    let b := (fold_left batch_step items (b0, st)).1 in
    results b = (results b0 ++ outs)%list /\ length outs = length items
    /\ total_items b = total_items b0
    /\ successful b = successful b0 + length (confident outs)
    /\ successful b + failed b = successful b0 + failed b0 + length items
    /\ new_folders_created b = new_folders_created b0 + total_of created_folders outs
    /\ folders_reused b = folders_reused b0 + total_of reused_folders outs.
Proof.
  revert b0 st. induction items as [|item items IH]; intros b0 st; cbn [fold_left].
  { exists []. cbn [fst]. rewrite app_nil_r. unfold total_of. simpl.
    repeat split; lia. }
  destruct (batch_step (b0, st) item) as [b1 st1] eqn:Hstep.
  unfold AutoFolder.batch_step in Hstep. destruct (classify st item) as [o st1'].
  injection Hstep as Hb1 Hst1. subst b1 st1.
  match goal with |- context [fold_left _ items (?b1, st1')] =>
    destruct (IH b1 st1') as (outs & H); exists (o :: outs);
    set (b := (fold_left batch_step items (b1, st1')).1) in *; clearbody b end.
  cbv zeta in *. destruct H as (H1 & H2 & H3 & H4 & H5 & H6 & H7).
  cbn [results total_items successful failed new_folders_created folders_reused]
    in H1, H3, H4, H5, H6, H7.
  rewrite H1, H3, H4, H6, H7.
  split; [by rewrite <- app_assoc|]. split; [simpl; lia|]. split; [done|].
  rewrite !total_of_cons, confident_cons. cbn [length].
  destruct (Rltb 0 (out_confidence o)); repeat split; lia.
Qed.

(** X23. The counters of a batch add up: [classify_batch] returns one
    output per item, in order; [total_items] is the number of items and
    equals [successful + failed]; [successful] counts the outputs with a
    positive confidence; [new_folders_created] and [folders_reused] are the
    numbers of created and reused folders listed by the outputs. *)
Theorem classify_batch_accounting (st : Matcher) (items : list ItemInput) :
  let b := (classify_batch st items).1 in
  length (results b) = length items
  /\ total_items b = length items
  /\ successful b + failed b = total_items b
  /\ successful b = length (confident (results b))
  /\ new_folders_created b = total_of created_folders (results b)
  /\ folders_reused b = total_of reused_folders (results b).
Proof.
  unfold AutoFolder.classify_batch.
  match goal with |- context [fold_left _ items (?b0, st)] =>
    destruct (batch_fold_accounting items b0 st) as (outs & H);
    set (b := (fold_left batch_step items (b0, st)).1) in *; clearbody b end.
  cbv zeta in *. destruct H as (H1 & H2 & H3 & H4 & H5 & H6 & H7).
  cbn [results total_items successful failed new_folders_created folders_reused]
    in H1, H3, H4, H5, H6, H7.
  rewrite H1, H3, H4, H6, H7. cbn [app].
  repeat split; lia.
Qed.

(** *** The invariant along a batch *)

Hypothesis uuid4_inj : forall i j, uuid4 i = uuid4 j -> i = j.
Hypothesis uuid4_nonempty : forall i, uuid4 i <> "".

Lemma classify_wf st item :
  state_wf st -> fresh uuid4 st ->
  exists o st',
    classify st item = (o, st') /\ state_wf st' /\ fresh uuid4 st'
    /\ output_ok st' o /\ (forall f, cached st f -> cached st' f).
Proof.
  intros Hwf Hf. unfold AutoFolder.classify.
  destruct (generate item) as [c|] eqn:Hg.
  2:{ eexists _, st. split; [reflexivity|]. split; [done|]. split; [done|].
      split; [by left | done]. }
  pose proof (generate_well_formed py_str configured llm_parsed config item c Hg)
    as Hc.
  destruct (match_wf embed_content uuid4 thresholds uuid4_inj uuid4_nonempty st c
              Hwf Hf (well_formed_slash_free c Hc))
    as (m & st' & F & -> & Hwf' & Hf' & HF & HcF & Hp & Hd & _ & Hold & _).
  eexists _, st'. split; [reflexivity|]. split; [done|]. split; [done|].
  split; [|done]. right. exists F. cbn [final_path out_confidence from_hierarchical_match].
  split; [done|]. split; [done|]. split; [done|].
  by destruct Hc as (_ & _ & _ & Hconf & _).
Qed.

Lemma batch_fold_wf items b0 st :
  state_wf st -> fresh uuid4 st -> Forall (output_ok st) (results b0) ->
  exists b st',
    fold_left batch_step items (b0, st) = (b, st')
    /\ state_wf st' /\ fresh uuid4 st' /\ Forall (output_ok st') (results b)
    /\ (forall f, cached st f -> cached st' f).
Proof.
  revert b0 st. induction items as [|item items IH]; intros b0 st Hwf Hf Hres;
    cbn [fold_left].
  { by eexists _, st. }
  destruct (batch_step (b0, st) item) as [b1 st1] eqn:Hstep.
  unfold AutoFolder.batch_step in Hstep.
  destruct (classify_wf st item Hwf Hf) as (o & st1' & E & Hwf1 & Hf1 & Ho & Hold1).
  rewrite E in Hstep. injection Hstep as Hb1 Hst1. subst b1 st1.
  match goal with |- context [fold_left _ items (?b1, st1')] =>
    destruct (IH b1 st1' Hwf1 Hf1) as (b & st' & -> & Hwf' & Hf' & Hres' & Hold') end.
  { cbn [results]. apply Forall_app. split; [|by constructor].
    eapply Forall_impl; [exact Hres|]. intros x. by apply output_ok_mono. }
  eexists _, st'. split; [reflexivity|]. split; [done|]. split; [done|].
  split; [done|]. intros f Hc. by apply Hold', Hold1.
Qed.

(** X24. An invariant of the whole pipeline: from a state in normal form,
    whatever the items, the model's answers and the embedding backend,
    [classify_batch] leaves the state in normal form (every cached folder has
    a depth between 1 and 3 equal to the number of segments of its path,
    which extends its parent's path), and every output is the error output
    or names, as its final path, the path of a cached folder of depth 2 or 3,
    with a confidence within [0,1]. *)
Theorem classify_batch_invariant (st : Matcher) (items : list ItemInput) :
  state_wf st -> fresh uuid4 st ->
  exists b st',
    classify_batch st items = (b, st')
    /\ state_wf st' /\ fresh uuid4 st' /\ Forall (output_ok st') (results b)
    /\ (forall f, cached st f -> cached st' f).
Proof.
  intros Hwf Hf. unfold AutoFolder.classify_batch.
  apply batch_fold_wf; [done | done | constructor].
Qed.

(** *** The first run *)

Lemma is_nil_map {A B} (f : A -> B) l : is_nil (map f l) = is_nil l.
Proof. by destruct l. Qed.

Lemma is_nil_filter {A} (p : A -> bool) l :
  is_nil (List.filter p l) = true <-> forall x, In x l -> p x = false.
Proof.
  induction l as [|x l IH]; simpl; [by split|].
  destruct (p x) eqn:E; simpl.
  - split; [done|]. intros H. specialize (H x (or_introl eq_refl)). congruence.
  - rewrite IH. split.
    + intros H y [<- | Hy]; [done | by apply H].
    + intros H y Hy. apply H. by right.
Qed.

Lemma In_omap {A B} (f : A -> option B) l y :
  In y (omap f l) <-> exists x, In x l /\ f x = Some y.
Proof.
  induction l as [|a l IH]; simpl.
  - split; [done | by intros (x & [] & _)].
  - destruct (f a) as [b|] eqn:E; simpl; rewrite IH; split.
    + intros [<- | (x & Hx & Hf)]; [by exists a; split; [left|] |].
      exists x. split; [by right | done].
    + intros (x & [<- | Hx] & Hf); [left; congruence | right; by exists x].
    + intros (x & Hx & Hf). exists x. split; [by right | done].
    + intros (x & [<- | Hx] & Hf); [congruence | by exists x].
Qed.

(** X25. [_ensure_initialized] seeds the taxonomy exactly when the store
    holds no folder vector with a one-segment path (the depth is read off the
    path, not off the stored depth); on an empty store it leaves the 81 seed
    folders in a state in normal form. *)
Theorem ensure_initialized_spec (vs : list Stored) :
  ((forall v f, In v vs -> stored_folder v = Some f -> ~ no_slash (ef_path f)) ->
   _ensure_initialized (matcher_over vs)
   = (initialize_seed_folders (load_folders_from_store (matcher_over vs))).2)
  /\ ((exists v f, In v vs /\ stored_folder v = Some f /\ no_slash (ef_path f)) ->
      _ensure_initialized (matcher_over vs) = load_folders_from_store (matcher_over vs))
  /\ state_wf (_ensure_initialized new_matcher)
  /\ fresh uuid4 (_ensure_initialized new_matcher)
  /\ uuids_drawn (_ensure_initialized new_matcher) = 81.
Proof.
  assert (Hnil : is_nil (default [] (_folders_by_depth
                                       (load_folders_from_store (matcher_over vs)) !! 1%Z))
                 = true
                 <-> forall v f, In v vs -> stored_folder v = Some f ->
                                 ~ no_slash (ef_path f)).
  { unfold load_folders_from_store, get_all_vectors.
    rewrite load_existing_folders_lists by lia.
    change (default [] (_folders_by_depth (matcher_over vs) !! 1%Z)) with (@nil FolderEntity).
    cbn [app]. unfold loaded_at. rewrite is_nil_map, is_nil_filter.
    cbn [vector_store matcher_over]. split.
    - intros H v f Hv Hs Hns. apply segments_no_slash in Hns.
      assert (Hin : In f (omap stored_folder vs)) by (apply In_omap; by exists v).
      specialize (H f Hin). apply Z.eqb_neq in H. done.
    - intros H f Hin. apply In_omap in Hin as (v & Hv & Hs). apply Z.eqb_neq.
      intros E. apply (H v f Hv Hs). by apply segments_no_slash. }
  split; [|split].
  - intros H. unfold AutoFolder._ensure_initialized. cbv zeta.
    by rewrite (proj2 Hnil H).
  - intros (v & f & Hv & Hs & Hns). unfold AutoFolder._ensure_initialized. cbv zeta.
    destruct (is_nil _) eqn:E; [|done]. exfalso.
    by apply (proj1 Hnil eq_refl v f Hv Hs).
  - destruct (initialize_seed_folders_wf embed_content uuid4 uuid4_inj uuid4_nonempty
                new_matcher new_matcher_wf (new_matcher_fresh uuid4))
      as (created & st' & E & Hwf & Hf & _ & _ & Hn & _).
    assert (E0 : _ensure_initialized new_matcher = st').
    { unfold AutoFolder._ensure_initialized. cbv zeta.
      change (load_folders_from_store new_matcher) with new_matcher.
      change (is_nil (default [] (_folders_by_depth new_matcher !! 1%Z))) with true.
      cbv iota. by rewrite E. }
    rewrite E0. split; [done|]. split; [done|]. by rewrite Hn.
Qed.

End Orchestration.

Lemma classify_batch_invariant_witness :
  exists b st',
    classify_batch constant_backend sample_uuid4 default_thresholds
      (fun _ => "") true (fun _ => Some react_answer) default_taxonomy_config
      new_matcher [paper_item; react_item] = (b, st')
    /\ state_wf st' /\ fresh sample_uuid4 st' /\ Forall (output_ok st') (results b)
    /\ (forall f, cached new_matcher f -> cached st' f).
Proof.
  apply (classify_batch_invariant constant_backend sample_uuid4 default_thresholds
           (fun _ => "") true (fun _ => Some react_answer) default_taxonomy_config
           sample_uuid4_inj sample_uuid4_nonempty new_matcher [paper_item; react_item]).
  - apply new_matcher_wf.
  - apply new_matcher_fresh.
Defined.

Lemma ensure_initialized_spec_witness :
  state_wf (_ensure_initialized constant_backend sample_uuid4 new_matcher)
  /\ fresh sample_uuid4 (_ensure_initialized constant_backend sample_uuid4 new_matcher)
  /\ uuids_drawn (_ensure_initialized constant_backend sample_uuid4 new_matcher) = 81.
Proof.
  apply (ensure_initialized_spec constant_backend sample_uuid4
           sample_uuid4_inj sample_uuid4_nonempty []).
Defined.


(** ** What a match never does *)

Lemma extends_refl st : extends st st.
Proof.
  split; [lia|]. split; [done|]. split; [done|].
  intros d l Hl. exists []. by rewrite app_nil_r.
Qed.

Lemma extends_trans st1 st2 st3 : extends st1 st2 -> extends st2 st3 -> extends st1 st3.
Proof.
  intros (A1 & A2 & A3 & A4) (B1 & B2 & B3 & B4).
  split; [lia|]. split; [by intros k Hk; apply B2, A2|].
  split; [by intros k Hk; apply B3, A3|].
  intros d l Hl. destruct (A4 d l Hl) as [l1 H1]. destruct (B4 d _ H1) as [l2 H2].
  exists (l1 ++ l2)%list. by rewrite app_assoc.
Qed.

Lemma add_vector_keeps vs k e md k' :
  In k' (map fst vs) -> In k' (map fst (add_vector vs k e md)).
Proof.
  induction vs as [|[k0 v] vs IH]; simpl; [done|].
  destruct (String.eqb k0 k); simpl; [done|].
  intros [H | H]; [by left | right; by apply IH].
Qed.

Section Frame.

Variable embed_content : string -> option (list R).
Variable uuid4 : nat -> string.
Variable thresholds : ThresholdConfig.

Local Abbreviation generate_embedding := (FolderMatcher.generate_embedding embed_content).
Local Abbreviation _find_best_match := (FolderMatcher._find_best_match embed_content uuid4 thresholds).
Local Abbreviation _create_folder := (FolderMatcher._create_folder embed_content uuid4).
Local Abbreviation store_folder := (FolderMatcher.store_folder embed_content).
Local Abbreviation match_domain := (FolderMatcher.match_domain embed_content uuid4 thresholds).
Local Abbreviation match_subdomain := (FolderMatcher.match_subdomain embed_content uuid4 thresholds).
Local Abbreviation match_leaf := (FolderMatcher.match_leaf embed_content uuid4 thresholds).
Local Abbreviation match_ := (FolderMatcher.match_ embed_content uuid4 thresholds).
Local Abbreviation walk := (FolderMatcher.walk uuid4 thresholds).
Local Abbreviation resolve := (FolderMatcher.resolve uuid4).

Lemma resolve_counter cache dpt r n : n <= (resolve cache dpt r n).2.
Proof.
  unfold FolderMatcher.resolve.
  destruct (match md_get (hit_meta r) "folder_id" with MStr s => cache !! s | _ => None end);
    [simpl; lia|].
  destruct (md_get (hit_meta r) "path") as [| | |p]; try (simpl; lia).
  destruct (PyStr.is_empty p); [simpl; lia|].
  destruct (md_get (hit_meta r) "folder_id") as [| | |s]; try (simpl; lia).
  destruct (PyStr.is_empty s); simpl; lia.
Qed.

Lemma walk_counter cache text dpt thr l n : n <= (walk cache text dpt thr l n).2.
Proof.
  revert n. induction l as [|r l IH]; intros n; simpl; [lia|].
  destruct (Rltb (hit_score r) thr); [apply IH|].
  pose proof (resolve_counter cache dpt r n) as Hr.
  destruct (resolve cache dpt r n) as [[f|] n']; simpl in Hr.
  - destruct (_sanity_check _ _ _ _); simpl; [lia|].
    specialize (IH n'). lia.
  - specialize (IH n'). lia.
Qed.

Lemma find_best_match_extends st text dpt pid thr :
  extends st (_find_best_match st text dpt pid thr).2.
Proof.
  unfold FolderMatcher._find_best_match.
  destruct (generate_embedding text) as [q|]; [|apply extends_refl].
  pose proof (walk_counter (_folder_cache st) text dpt thr
                (ranked_candidates st q dpt pid) (uuids_drawn st)) as Hn.
  destruct (walk _ _ _ _ _ _) as [[o s] n]. simpl in *.
  split; [done|]. split; [done|]. split; [done|].
  intros d l Hl. exists []. by rewrite app_nil_r.
Qed.

Lemma store_folder_extends st folder text meta :
  extends st (store_folder st folder text meta).2.
Proof.
  unfold FolderMatcher.store_folder.
  destruct (generate_embedding text) as [emb|]; unfold extends; simpl.
  - split; [lia|]. split; [intros k; apply add_vector_keeps|]. split.
    + intros k Hk. destruct (decide (folder_id folder = k)) as [->|Hne].
      * rewrite lookup_insert_eq. by eexists.
      * by rewrite lookup_insert_ne.
    + intros d l Hl. destruct (depth folder <=? 3)%Z.
      * unfold by_depth_append. destruct (decide (depth folder = d)) as [->|Hne].
        -- rewrite lookup_insert_eq, Hl. by eexists.
        -- rewrite lookup_insert_ne by done. exists []. by rewrite app_nil_r.
      * exists []. by rewrite app_nil_r.
  - split; [lia|]. split; [done|]. split.
    + intros k Hk. destruct (decide (folder_id folder = k)) as [->|Hne].
      * rewrite lookup_insert_eq. by eexists.
      * by rewrite lookup_insert_ne.
    + intros d l Hl. destruct (depth folder <=? 3)%Z.
      * unfold by_depth_append. destruct (decide (depth folder = d)) as [->|Hne].
        -- rewrite lookup_insert_eq, Hl. by eexists.
        -- rewrite lookup_insert_ne by done. exists []. by rewrite app_nil_r.
      * exists []. by rewrite app_nil_r.
Qed.

Lemma create_folder_extends st lbl dpt parent als :
  extends st (_create_folder st lbl dpt parent als).2.
Proof. unfold FolderMatcher._create_folder. apply store_folder_extends. Qed.

Lemma match_domain_extends st c : extends st (match_domain st c).2.
Proof.
  unfold FolderMatcher.match_domain.
  pose proof (find_best_match_extends st (la_label (domain c)) 1 None
                (domain_threshold thresholds)) as H1.
  destruct (_find_best_match _ _ _ _ _) as [[[f|] s] st1]; simpl in *; [done|].
  pose proof (create_folder_extends st1 (la_label (domain c)) 1 None
                (la_aliases (domain c))) as H2.
  destruct (_create_folder _ _ _ _ _) as [nf st2]. simpl in *.
  by eapply extends_trans.
Qed.

Lemma match_subdomain_extends st c dr sr st' :
  match_subdomain st c dr = Some (sr, st') -> extends st st'.
Proof.
  unfold FolderMatcher.match_subdomain. destruct (get_folder dr) as [D|]; [|done].
  pose proof (find_best_match_extends st (label D ++ " > " ++ la_label (subdomain c)) 2
                (Some (folder_id D)) (subdomain_threshold thresholds)) as H1.
  destruct (_find_best_match _ _ _ _ _) as [[[f|] s] st1]; simpl in H1.
  { by intros [= <- <-]. }
  pose proof (find_best_match_extends st1 (la_label (subdomain c)) 2 None
                (subdomain_threshold thresholds)) as H2.
  destruct (_find_best_match st1 _ _ _ _) as [probe st2]. simpl in H2.
  pose proof (create_folder_extends st2 (la_label (subdomain c)) 2 (Some D)
                (la_aliases (subdomain c))) as H3.
  destruct (_create_folder _ _ _ _ _) as [nf st3]. simpl in H3.
  intros [= <- <-]. eapply extends_trans; [|exact H3]. by eapply extends_trans.
Qed.

Lemma match_leaf_extends st c sr : extends st (match_leaf st c sr).2.
Proof.
  unfold FolderMatcher.match_leaf.
  destruct (leaf_topic c) as [leaf|]; [|apply extends_refl].
  destruct (la_optional leaf && Rltb _ _); [apply extends_refl|].
  destruct (get_folder sr) as [S|]; [|apply extends_refl].
  pose proof (find_best_match_extends st (path S ++ " > " ++ la_label leaf) 3
                (Some (folder_id S)) (leaf_threshold thresholds)) as H1.
  destruct (_find_best_match _ _ _ _ _) as [[[f|] s] st1]; simpl in *; [done|].
  destruct (max_depth thresholds <=? depth S)%Z; [done|].
  destruct (la_optional leaf); [done|].
  pose proof (create_folder_extends st1 (la_label leaf) 3 (Some S) (la_aliases leaf))
    as H2.
  destruct (_create_folder _ _ _ _ _) as [nf st2]. simpl in *.
  by eapply extends_trans.
Qed.

Lemma match_domain_folder st c : is_Some (get_folder (match_domain st c).1).
Proof.
  unfold FolderMatcher.match_domain.
  destruct (_find_best_match _ _ _ _ _) as [[[f|] s] st1]; [by eexists|].
  destruct (_create_folder _ _ _ _ _) as [nf st2]. by eexists.
Qed.

Lemma match_subdomain_returns st c dr :
  is_Some (get_folder dr) -> is_Some (match_subdomain st c dr).
Proof.
  intros [D HD]. unfold FolderMatcher.match_subdomain. rewrite HD.
  destruct (_find_best_match _ _ _ _ _) as [[[f|] s] st1]; [by eexists|].
  destruct (_find_best_match st1 _ _ _ _) as [probe st2].
  destruct (_create_folder _ _ _ _ _) as [nf st3]. by eexists.
Qed.

Lemma match_extends (st : Matcher) (c : TaxonomyCandidate) :
  exists m st',
    match_ st c = Some (m, st')
    /\ extends st st' /\ length (get_created_folders m) <= 3.
Proof.
  unfold FolderMatcher.match_.
  pose proof (match_domain_extends st c) as H1.
  pose proof (match_domain_folder st c) as Hd.
  destruct (match_domain st c) as [dr st1]. cbn [fst snd] in H1, Hd.
  destruct (match_subdomain_returns st1 c dr Hd) as [[sr st2] E2]. rewrite E2.
  apply match_subdomain_extends in E2.
  pose proof (match_leaf_extends st2 c sr) as H3.
  destruct (match_leaf st2 c sr) as [lr st3]. cbn [snd] in H3.
  eexists _, _. split; [reflexivity|]. split.
  - eapply extends_trans; [|exact H3]. by eapply extends_trans.
  - unfold get_created_folders, created_by. simpl. rewrite !length_app.
    repeat case_match; simpl; lia.
Qed.

(** X26. A match always returns and never forgets: whatever the state,
    the candidate and the embedding backend, [match] raises no error;
    afterwards the identifier counter has not gone back, every vector
    identifier stored before is still stored, every folder identifier
    cached before is still cached, every list of folders by depth has only
    grown at its end; and at most three folders are created. *)
Theorem match_never_forgets (st : Matcher) (c : TaxonomyCandidate) :
  exists m st',
    match_ st c = Some (m, st')
    /\ extends st st' /\ length (get_created_folders m) <= 3.
Proof. apply match_extends. Qed.

(** *** An unreachable backend *)

Lemma generate_embedding_unreachable :
  (forall t, embed_content t = None) -> forall t, generate_embedding t = None.
Proof.
  intros H t. unfold FolderMatcher.generate_embedding. by case_match.
Qed.

(** X27. With an unreachable embedding backend (and a maximal depth above
    2) [match] files the item exactly where the candidate says: the final
    path is the candidate's full path, the domain is created, the subdomain
    attached, a leaf that is not optional attached and an optional one
    skipped; nothing is written to the vector store. *)
Theorem match_unreachable_backend (st : Matcher) (c : TaxonomyCandidate) :
  (forall t, embed_content t = None) -> (2 < max_depth thresholds)%Z ->
  exists m st',
    match_ st c = Some (m, st')
    /\ get_final_path m = get_full_path c true
    /\ action (domain_result m) = CREATE_NEW
    /\ action (subdomain_result m) = ATTACH_AS_CHILD
    /\ (forall leaf, leaf_topic c = Some leaf ->
          exists r, leaf_result m = Some r
            /\ action r = if la_optional leaf then SKIP else ATTACH_AS_CHILD)
    /\ vector_store st' = vector_store st.
Proof.
  intros Hb Hmax. pose proof (generate_embedding_unreachable Hb) as Hg.
  apply Z.leb_gt in Hmax.
  unfold FolderMatcher.match_, FolderMatcher.match_domain, FolderMatcher.match_subdomain,
    FolderMatcher.match_leaf, FolderMatcher._find_best_match,
    FolderMatcher._create_folder, FolderMatcher.store_folder, get_full_path.
  rewrite !Hg. cbn -[Z.leb String.append]. rewrite ?Hg. cbn -[Z.leb String.append].
  rewrite ?Hg. cbn -[Z.leb String.append].
  destruct (leaf_topic c) as [leaf|] eqn:Hleaf.
  2:{ eexists _, _. split; [reflexivity|]. by repeat split. }
  destruct (la_optional leaf) eqn:Ho; cbn -[Z.leb String.append].
  - destruct (Rltb (confidence c) (leaf_confidence_threshold thresholds));
      cbn -[Z.leb String.append]; rewrite ?Hg; cbn -[Z.leb String.append];
      rewrite ?Hmax; cbn -[Z.leb String.append];
      (eexists _, _; split; [reflexivity|]; repeat split; try done;
       intros l [= <-]; rewrite Ho; by eexists).
  - rewrite ?Hg. cbn -[Z.leb String.append]. rewrite Hmax.
    cbn -[Z.leb String.append]. rewrite ?Hg.
    eexists _, _. split; [reflexivity|]. cbn -[Z.leb String.append].
    split; [reflexivity|]. repeat split; try done.
    intros l [= <-]. rewrite Ho. by eexists.
Qed.

End Frame.

Lemma match_unreachable_backend_witness :
  exists m st',
    match_ unreachable_backend sample_uuid4 default_thresholds new_matcher astronomy_leaf
      = Some (m, st')
    /\ get_final_path m = get_full_path astronomy_leaf true
    /\ action (domain_result m) = CREATE_NEW
    /\ action (subdomain_result m) = ATTACH_AS_CHILD
    /\ (forall leaf, leaf_topic astronomy_leaf = Some leaf ->
          exists r, leaf_result m = Some r
            /\ action r = if la_optional leaf then SKIP else ATTACH_AS_CHILD)
    /\ vector_store st' = vector_store new_matcher.
Proof.
  apply (match_unreachable_backend unreachable_backend sample_uuid4 default_thresholds
           new_matcher astronomy_leaf).
  - reflexivity.
  - simpl. lia.
Defined.


(** ** A created folder read back from the store *)

Lemma last_split_child sep p lbl d :
  List.last (PyStr.split_on sep (p ++ String sep lbl)) d
  = List.last (PyStr.split_on sep lbl) d.
Proof.
  induction p as [|c p IH].
  - unfold PyStr.split_on. cbn [String.append PyStr.split_fields].
    rewrite Ascii.eqb_refl. by destruct (PyStr.split_fields sep lbl).
  - pose proof (split_on_length sep (p ++ String sep lbl)) as Hlen.
    rewrite <- IH. unfold PyStr.split_on in *.
    cbn [String.append PyStr.split_fields].
    destruct (PyStr.split_fields sep (p ++ String sep lbl)) as [w ws].
    destruct ws as [|w' ws].
    { exfalso. cbn [length] in Hlen. injection Hlen as Hlen.
      assert (H : forall q, 0 < count_char sep (q ++ String sep lbl)).
      { clear. induction q as [|a q IH]; simpl.
        - rewrite Ascii.eqb_refl. lia.
        - destruct (Ascii.eqb a sep); lia. }
      specialize (H p). lia. }
    by destruct (Ascii.eqb c sep).
Qed.

Lemma last_field_label parent lbl :
  no_slash lbl ->
  last_field (match parent with Some p => path p ++ "/" ++ lbl | None => lbl end) = lbl.
Proof.
  intros H. unfold last_field. destruct parent as [p|].
  - change (path p ++ "/" ++ lbl) with (path p ++ String "/" lbl).
    rewrite last_split_child. unfold PyStr.split_on.
    by rewrite (split_fields_no_sep _ _ H).
  - unfold PyStr.split_on. by rewrite (split_fields_no_sep _ _ H).
Qed.

Lemma load_existing_folders_last st folders f k :
  k = ef_folder_id f ->
  _folder_cache (load_existing_folders st (folders ++ [f])) !! k
  = Some (loaded_entity f).
Proof.
  intros ->. unfold load_existing_folders. rewrite fold_left_app. cbn [fold_left].
  unfold load_folder at 1. cbn [_folder_cache]. by rewrite lookup_insert_eq.
Qed.

Lemma folder_meta_fields f k :
  md_string (folder_meta f) "folder_id" k = folder_id f
  /\ md_string (folder_meta f) "path" "" = path f
  /\ md_int (folder_meta f) "item_count" 0 = 0%Z.
Proof. unfold folder_meta, md_string, md_int. by simplify_map_eq. Qed.

Section Reload.

Variable embed_content : string -> option (list R).
Variable uuid4 : nat -> string.

Local Abbreviation generate_embedding := (FolderMatcher.generate_embedding embed_content).
Local Abbreviation _create_folder := (FolderMatcher._create_folder embed_content uuid4).

(** X28. A folder created with a label without "/" whose embedding could be
    generated can be read back: a new matcher over the resulting store that
    runs [load_folders_from_store] caches, under the folder's identifier, a
    folder with the same path, label, embedding and item count; its parent
    link and its aliases are lost, and its depth is the number of segments
    of its path. *)
Theorem created_folder_reloads (st : Matcher) (lbl : string) (dpt : Z)
    (parent : option FolderEntity) (als : list string)
    (nf : FolderEntity) (st' : Matcher) :
  fresh uuid4 st -> no_slash lbl ->
  _create_folder st lbl dpt parent als = (nf, st') ->
  embedding nf <> None ->
  _folder_cache (load_folders_from_store (matcher_over (vector_store st')))
    !! folder_id nf = Some (reloaded nf).
Proof.
  intros Hfresh Hlbl Hc Hemb.
  unfold FolderMatcher._create_folder, FolderMatcher.store_folder in Hc.
  set (folder := {| folder_id := uuid4 (uuids_drawn st) |}) in Hc.
  assert (Hlast : last_field (path folder) = label folder)
    by apply (last_field_label parent lbl Hlbl).
  assert (Hcount : item_count folder = 0%Z) by reflexivity.
  assert (Hfid : folder_id folder = uuid4 (uuids_drawn st)) by reflexivity.
  assert (Hnone : embedding folder = None) by reflexivity.
  clearbody folder.
  destruct (generate_embedding _) as [emb|] eqn:Hg.
  2:{ injection Hc as <- <-. by destruct Hemb. }
  injection Hc as <- <-. cbn [vector_store folder_id with_embedding].
  destruct (Hfresh (uuids_drawn st) (le_n _)) as [_ Hnew].
  rewrite <- Hfid in Hnew. rewrite (add_vector_fresh _ _ _ _ Hnew).
  unfold load_folders_from_store, get_all_vectors, matcher_over at 2.
  cbn [vector_store]. rewrite omap_app. cbn [omap list_omap stored_folder].
  rewrite folder_meta_type. cbn [mval_eqb String.eqb Ascii.eqb Bool.eqb].
  destruct (folder_meta_fields folder ("folder_" ++ folder_id folder)) as (E1 & E2 & E3).
  rewrite E1, E2, E3.
  erewrite load_existing_folders_last; [|reflexivity].
  f_equal. unfold loaded_entity, reloaded.
  cbn [ef_folder_id ef_path ef_embedding_id ef_embedding ef_item_count
       folder_id path label embedding_id embedding item_count with_embedding].
  by rewrite Hlast, Hcount.
Qed.

End Reload.

Lemma created_folder_reloads_witness :
  _folder_cache
    (load_folders_from_store (matcher_over (vector_store astronomy_created.2)))
    !! folder_id astronomy_created.1
  = Some (reloaded astronomy_created.1).
Proof.
  apply (created_folder_reloads constant_backend sample_uuid4 new_matcher
           "Astronomy" 1 None []).
  - apply new_matcher_fresh.
  - reflexivity.
  - reflexivity.
  - simpl. discriminate.
Defined.


(** ** The folder tree *)

Lemma fold_domains (l : list FolderEntity) :
  let t := fold_left tree_add_domain l ∅ in
  (forall p node, t !! p = Some node ->
     exists f, In f l /\ path f = p /\ node = domain_node f)
  /\ (forall f, In f l -> is_Some (t !! path f)).
Proof.
  induction l as [|x l IH] using rev_ind; cbn zeta.
  { cbn [fold_left].
    split; [intros p node H; by rewrite lookup_empty in H | intros f []]. }
  rewrite fold_left_app. cbn [fold_left]. cbn zeta in IH. destruct IH as [A B].
  set (t := fold_left tree_add_domain l ∅) in *. clearbody t.
  unfold tree_add_domain. split.
  - intros p node H. destruct (decide (path x = p)) as [<-|Hne].
    + rewrite lookup_insert_eq in H. injection H as <-. exists x.
      split; [apply in_app_iff; right; by left | done].
    + rewrite lookup_insert_ne in H by done.
      destruct (A _ _ H) as (f & Hin & Hp & Hn). exists f.
      split; [apply in_app_iff; by left | done].
  - intros f Hin. apply in_app_iff in Hin as [Hin | [<- | []]].
    + destruct (decide (path x = path f)) as [E|Hne].
      * rewrite E, lookup_insert_eq. by eexists.
      * rewrite lookup_insert_ne by done. by apply B.
    + rewrite lookup_insert_eq. by eexists.
Qed.

Lemma fold_subdomains (l : list FolderEntity) (t0 : gmap string DomainNode) :
  let t := fold_left tree_add_subdomain l t0 in
  (forall p node, t !! p = Some node ->
     exists node0, t0 !! p = Some node0
       /\ dn_id node = dn_id node0 /\ dn_label node = dn_label node0
       /\ dn_item_count node = dn_item_count node0
       /\ forall s sub, dn_children node !! s = Some sub ->
            dn_children node0 !! s = Some sub
            \/ exists f, In f l /\ parent_path (path f) = p /\ label f = s
                         /\ sub = subdomain_node f)
  /\ (forall p node0, t0 !! p = Some node0 ->
        exists node, t !! p = Some node
          /\ (forall s, is_Some (dn_children node0 !! s) ->
                is_Some (dn_children node !! s))
          /\ forall f, In f l -> parent_path (path f) = p ->
               is_Some (dn_children node !! label f)).
Proof.
  induction l as [|x l IH] using rev_ind; cbn zeta.
  { split.
    - intros p node H. exists node. cbn [fold_left] in H.
      repeat (split; [done|]). intros s sub Hs. by left.
    - intros p node0 H. exists node0. cbn [fold_left]. split; [done|].
      split; [done|]. intros f []. }
  rewrite fold_left_app. cbn [fold_left]. cbn zeta in IH. destruct IH as [A B].
  set (t := fold_left tree_add_subdomain l t0) in *. clearbody t.
  unfold tree_add_subdomain. set (pp := parent_path (path x)).
  assert (Hlift : forall p s sub node0,
            (dn_children node0 !! s = Some sub
             \/ exists f, In f l /\ parent_path (path f) = p /\ label f = s
                          /\ sub = subdomain_node f) ->
            dn_children node0 !! s = Some sub
            \/ exists f, In f (l ++ [x]) /\ parent_path (path f) = p /\ label f = s
                         /\ sub = subdomain_node f).
  { intros p s sub node0 [H | (f & Hin & H)]; [by left|]. right. exists f.
    split; [apply in_app_iff; by left | done]. }
  split.
  - intros p node H. destruct (t !! pp) as [nx|] eqn:E.
    + destruct (decide (pp = p)) as [<-|Hne].
      * rewrite lookup_insert_eq in H. injection H as <-.
        destruct (A _ _ E) as (node0 & H0 & E1 & E2 & E3 & Hch).
        exists node0. cbn [dn_with_children dn_id dn_label dn_item_count dn_children].
        repeat (split; [done|]). intros s sub Hs.
        destruct (decide (label x = s)) as [<-|Hs'].
        -- rewrite lookup_insert_eq in Hs. injection Hs as <-. right. exists x.
           split; [apply in_app_iff; right; by left | done].
        -- rewrite lookup_insert_ne in Hs by done. by apply Hlift, Hch.
      * rewrite lookup_insert_ne in H by done.
        destruct (A _ _ H) as (node0 & H0 & E1 & E2 & E3 & Hch).
        exists node0. repeat (split; [done|]). intros s sub Hs. by apply Hlift, Hch.
    + destruct (A _ _ H) as (node0 & H0 & E1 & E2 & E3 & Hch).
      exists node0. repeat (split; [done|]). intros s sub Hs. by apply Hlift, Hch.
  - intros p node0 H0. destruct (B _ _ H0) as (node & Hn & Hold & Hnew).
    destruct (t !! pp) as [nx|] eqn:E.
    + destruct (decide (pp = p)) as [Hp|Hne].
      * subst p. rewrite E in Hn. injection Hn as ->.
        eexists. split; [by rewrite lookup_insert_eq|]. cbn [dn_with_children dn_children].
        assert (Hkeep : forall s, is_Some (dn_children node !! s) ->
                  is_Some (<[label x := subdomain_node x]> (dn_children node) !! s)).
        { intros s Hs. destruct (decide (label x = s)) as [<-|Hs'].
          - rewrite lookup_insert_eq. by eexists.
          - by rewrite lookup_insert_ne. }
        split; [intros s Hs; by apply Hkeep, Hold|].
        intros f Hin Hf. apply in_app_iff in Hin as [Hin | [<- | []]].
        -- by apply Hkeep, Hnew.
        -- rewrite lookup_insert_eq. by eexists.
      * exists node. split; [by rewrite lookup_insert_ne|]. split; [done|].
        intros f Hin Hf. apply in_app_iff in Hin as [Hin | [<- | []]].
        -- by apply Hnew.
        -- by destruct Hne.
    + exists node. split; [done|]. split; [done|].
      intros f Hin Hf. apply in_app_iff in Hin as [Hin | [<- | []]].
      * by apply Hnew.
      * fold pp in Hf. subst p. by rewrite E in Hn.
Qed.

Lemma fold_leaves (l : list FolderEntity) (t0 : gmap string DomainNode) :
  let t := fold_left tree_add_leaf l t0 in
  (forall p node, t !! p = Some node ->
     exists node0, t0 !! p = Some node0
       /\ dn_id node = dn_id node0 /\ dn_label node = dn_label node0
       /\ dn_item_count node = dn_item_count node0
       /\ forall s sub, dn_children node !! s = Some sub ->
            exists sub0, dn_children node0 !! s = Some sub0
              /\ sn_id sub = sn_id sub0 /\ sn_label sub = sn_label sub0
              /\ sn_path sub = sn_path sub0
              /\ sn_item_count sub = sn_item_count sub0
              /\ forall k lf, sn_children sub !! k = Some lf ->
                   sn_children sub0 !! k = Some lf
                   \/ exists f, In f l /\ leaf_under f p s /\ label f = k
                                /\ lf = leaf_node f)
  /\ (forall p node0, t0 !! p = Some node0 ->
        exists node, t !! p = Some node
          /\ forall s sub0, dn_children node0 !! s = Some sub0 ->
               exists sub, dn_children node !! s = Some sub
                 /\ (forall k, is_Some (sn_children sub0 !! k) ->
                       is_Some (sn_children sub !! k))
                 /\ forall f, In f l -> leaf_under f p s ->
                      is_Some (sn_children sub !! label f)).
Proof.
  induction l as [|x l IH] using rev_ind; cbn zeta.
  { cbn [fold_left]. split.
    - intros p node H. exists node. repeat (split; [done|]).
      intros s sub Hs. exists sub. repeat (split; [done|]).
      intros k lf Hk. by left.
    - intros p node0 H. exists node0. split; [done|].
      intros s sub0 Hs. exists sub0. split; [done|]. split; [done|]. intros f []. }
  rewrite fold_left_app. cbn [fold_left]. cbn zeta in IH. destruct IH as [A B].
  set (t := fold_left tree_add_leaf l t0) in *. clearbody t.
  assert (A' : forall p node, t !! p = Some node ->
     exists node0, t0 !! p = Some node0
       /\ dn_id node = dn_id node0 /\ dn_label node = dn_label node0
       /\ dn_item_count node = dn_item_count node0
       /\ forall s sub, dn_children node !! s = Some sub ->
            exists sub0, dn_children node0 !! s = Some sub0
              /\ sn_id sub = sn_id sub0 /\ sn_label sub = sn_label sub0
              /\ sn_path sub = sn_path sub0
              /\ sn_item_count sub = sn_item_count sub0
              /\ forall k lf, sn_children sub !! k = Some lf ->
                   sn_children sub0 !! k = Some lf
                   \/ exists f, In f (l ++ [x]) /\ leaf_under f p s /\ label f = k
                                /\ lf = leaf_node f).
  { intros p node H. destruct (A _ _ H) as (node0 & H0 & E1 & E2 & E3 & Hch).
    exists node0. repeat (split; [done|]). intros s sub Hs.
    destruct (Hch _ _ Hs) as (sub0 & Hs0 & F1 & F2 & F3 & F4 & Hlf).
    exists sub0. repeat (split; [done|]). intros k lf Hk.
    destruct (Hlf _ _ Hk) as [Hl | (f & Hin & Hf)]; [by left|]. right. exists f.
    split; [apply in_app_iff; by left | done]. }
  clear A. unfold tree_add_leaf.
  set (parts := PyStr.split_on "/" (path x)).
  set (dp := nth 0 parts ""). set (sl := nth 1 parts "").
  split.
  - intros p node H. destruct (3 <=? length parts) eqn:Hlen; [|by apply A'].
    destruct (t !! dp) as [nx|] eqn:E; [|by apply A'].
    destruct (dn_children nx !! sl) as [sx|] eqn:Es; [|by apply A'].
    destruct (decide (dp = p)) as [<-|Hne].
    2:{ rewrite lookup_insert_ne in H by done. by apply A'. }
    rewrite lookup_insert_eq in H. injection H as <-.
    destruct (A' _ _ E) as (node0 & H0 & E1 & E2 & E3 & Hch).
    exists node0. cbn [dn_with_children dn_id dn_label dn_item_count dn_children].
    repeat (split; [done|]). intros s sub Hs.
    destruct (decide (sl = s)) as [<-|Hs'].
    2:{ rewrite lookup_insert_ne in Hs by done. by apply Hch. }
    rewrite lookup_insert_eq in Hs. injection Hs as <-.
    destruct (Hch _ _ Es) as (sub0 & Hs0 & F1 & F2 & F3 & F4 & Hlf).
    exists sub0.
    cbn [sn_with_children sn_id sn_label sn_path sn_item_count sn_children].
    repeat (split; [done|]). intros k lf Hk.
    destruct (decide (label x = k)) as [<-|Hk'].
    2:{ rewrite lookup_insert_ne in Hk by done. by apply Hlf. }
    rewrite lookup_insert_eq in Hk. injection Hk as <-. right. exists x.
    split; [apply in_app_iff; right; by left|].
    split; [|done]. split; [by apply Nat.leb_le | done].
  - intros p node0 H0. destruct (B _ _ H0) as (node & Hn & Hsub).
    assert (Hsame : forall s, (leaf_under x p s -> False) ->
              forall sub0, dn_children node0 !! s = Some sub0 ->
              exists sub, dn_children node !! s = Some sub
                /\ (forall k, is_Some (sn_children sub0 !! k) ->
                      is_Some (sn_children sub !! k))
                /\ forall f, In f (l ++ [x]) -> leaf_under f p s ->
                     is_Some (sn_children sub !! label f)).
    { intros s Hno sub0 Hs0. destruct (Hsub _ _ Hs0) as (sub & Hs & Hold & Hnew).
      exists sub. split; [done|]. split; [done|]. intros f Hin Hf.
      apply in_app_iff in Hin as [Hin | [<- | []]]; [by apply Hnew | by destruct Hno]. }
    destruct (3 <=? length parts) eqn:Hlen.
    2:{ exists node. split; [done|]. intros s sub0 Hs0. apply Hsame; [|done].
        intros (Hl & _). apply Nat.leb_gt in Hlen. fold parts in Hl. lia. }
    destruct (t !! dp) as [nx|] eqn:E.
    2:{ exists node. split; [done|]. intros s sub0 Hs0. apply Hsame; [|done].
        intros (_ & Hp & _). fold parts in Hp. fold dp in Hp. subst p.
        by rewrite E in Hn. }
    destruct (dn_children nx !! sl) as [sx|] eqn:Es.
    2:{ exists node. split; [done|]. intros s sub0 Hs0. apply Hsame; [|done].
        intros (_ & Hp & Hs). fold parts in Hp, Hs. fold dp in Hp. fold sl in Hs.
        subst p s. rewrite E in Hn. injection Hn as ->.
        destruct (Hsub _ _ Hs0) as (sub & Hsome & _). by rewrite Es in Hsome. }
    destruct (decide (dp = p)) as [Hp|Hne].
    2:{ exists node. split; [by rewrite lookup_insert_ne|]. intros s sub0 Hs0.
        apply Hsame; [|done]. intros (_ & Hp & _). by destruct Hne. }
    subst p. rewrite E in Hn. injection Hn as ->.
    eexists. split; [by rewrite lookup_insert_eq|]. cbn [dn_with_children dn_children].
    intros s sub0 Hs0. destruct (decide (sl = s)) as [Hs|Hs'].
    2:{ rewrite lookup_insert_ne by done. apply Hsame; [|done].
        intros (_ & _ & Hs). by destruct Hs'. }
    subst s. rewrite lookup_insert_eq.
    destruct (Hsub _ _ Hs0) as (sub & Hsome & Hold & Hnew).
    rewrite Es in Hsome. injection Hsome as ->.
    eexists. split; [reflexivity|]. cbn [sn_with_children sn_children].
    assert (Hkeep : forall k, is_Some (sn_children sub !! k) ->
              is_Some (<[label x := leaf_node x]> (sn_children sub) !! k)).
    { intros k Hk. destruct (decide (label x = k)) as [<-|Hk'].
      - rewrite lookup_insert_eq. by eexists.
      - by rewrite lookup_insert_ne. }
    split; [intros k Hk; by apply Hkeep, Hold|].
    intros f Hin Hf. apply in_app_iff in Hin as [Hin | [<- | []]].
    + by apply Hkeep, Hnew.
    + rewrite lookup_insert_eq. by eexists.
Qed.

(** X29. The tree [get_folder_tree] returns shows the listed folders and
    nothing else. Its keys are the paths of the folders listed at depth 1;
    the children of the node at [p] are the labels of the folders listed at
    depth 2 whose path without its last segment is [p]; the children of the
    child [s] of [p] are the labels of the folders listed at depth 3 whose
    path has three segments or more, the first [p] and the second [s]. Each
    node carries the identifier, label, path and item count of such a folder.
    A listed folder whose parent node is missing is not shown. *)
Theorem get_folder_tree_spec (st : Matcher) :
  let tree := get_folder_tree st in
  (forall p node, tree !! p = Some node ->
     exists f, In f (listed st 1) /\ path f = p /\ dn_id node = folder_id f
       /\ dn_label node = label f /\ dn_item_count node = item_count f)
  /\ (forall f, In f (listed st 1) -> is_Some (tree !! path f))
  /\ (forall p node s sub, tree !! p = Some node -> dn_children node !! s = Some sub ->
        exists f, In f (listed st 2) /\ parent_path (path f) = p /\ label f = s
          /\ sn_id sub = folder_id f /\ sn_label sub = label f
          /\ sn_path sub = path f /\ sn_item_count sub = item_count f)
  /\ (forall f, In f (listed st 2) ->
        match tree !! parent_path (path f) with
        | Some node => is_Some (dn_children node !! label f)
        | None => True
        end)
  /\ (forall p node s sub k lf,
        tree !! p = Some node -> dn_children node !! s = Some sub ->
        sn_children sub !! k = Some lf ->
        exists f, In f (listed st 3) /\ leaf_under f p s /\ label f = k
          /\ lf = leaf_node f)
  /\ (forall f p s, In f (listed st 3) -> leaf_under f p s ->
        match tree !! p with
        | Some node =>
            match dn_children node !! s with
            | Some sub => is_Some (sn_children sub !! label f)
            | None => True
            end
        | None => True
        end).
Proof.
  unfold get_folder_tree, listed. cbn zeta.
  set (l1 := default [] (_folders_by_depth st !! 1%Z)).
  set (l2 := default [] (_folders_by_depth st !! 2%Z)).
  set (l3 := default [] (_folders_by_depth st !! 3%Z)).
  destruct (fold_domains l1) as [A1 B1]. cbn zeta in A1, B1.
  set (t1 := fold_left tree_add_domain l1 ∅) in *.
  destruct (fold_subdomains l2 t1) as [A2 B2]. cbn zeta in A2, B2.
  set (t2 := fold_left tree_add_subdomain l2 t1) in *.
  destruct (fold_leaves l3 t2) as [A3 B3]. cbn zeta in A3, B3.
  set (t3 := fold_left tree_add_leaf l3 t2) in *.
  clearbody t1 t2 t3 l1 l2 l3.
  assert (Hsub2 : forall p node2 s sub2,
            t2 !! p = Some node2 -> dn_children node2 !! s = Some sub2 ->
            exists f, In f l2 /\ parent_path (path f) = p /\ label f = s
                      /\ sub2 = subdomain_node f).
  { intros p node2 s sub2 H2 Hs.
    destruct (A2 _ _ H2) as (node1 & H1 & _ & _ & _ & Hch).
    destruct (Hch _ _ Hs) as [Hs1 | Hf]; [|done].
    destruct (A1 _ _ H1) as (f & _ & _ & ->). cbn [domain_node dn_children] in Hs1.
    by rewrite lookup_empty in Hs1. }
  split; [|split; [|split; [|split; [|split]]]].
  - intros p node H3.
    destruct (A3 _ _ H3) as (node2 & H2 & E1 & E2 & E3 & _).
    destruct (A2 _ _ H2) as (node1 & H1 & F1 & F2 & F3 & _).
    destruct (A1 _ _ H1) as (f & Hin & Hp & ->). exists f.
    rewrite E1, E2, E3, F1, F2, F3. by repeat split.
  - intros f Hin. destruct (B1 _ Hin) as [node1 H1].
    destruct (B2 _ _ H1) as (node2 & H2 & _).
    destruct (B3 _ _ H2) as (node3 & H3 & _). by eexists.
  - intros p node s sub H3 Hs.
    destruct (A3 _ _ H3) as (node2 & H2 & _ & _ & _ & Hch).
    destruct (Hch _ _ Hs) as (sub2 & Hs2 & E1 & E2 & E3 & E4 & _).
    destruct (Hsub2 _ _ _ _ H2 Hs2) as (f & Hin & Hp & Hl & ->). exists f.
    rewrite E1, E2, E3, E4. by repeat split.
  - intros f Hin. destruct (t3 !! parent_path (path f)) as [node|] eqn:H3; [|done].
    destruct (A3 _ _ H3) as (node2 & H2 & _).
    destruct (A2 _ _ H2) as (node1 & H1 & _).
    destruct (B2 _ _ H1) as (node2' & H2' & _ & Hnew).
    rewrite H2 in H2'. injection H2' as <-.
    destruct (Hnew f Hin eq_refl) as [sub2 Hs2].
    destruct (B3 _ _ H2) as (node' & H3' & Hsub).
    rewrite H3 in H3'. injection H3' as <-.
    destruct (Hsub _ _ Hs2) as (sub & Hs & _). by eexists.
  - intros p node s sub k lf H3 Hs Hk.
    destruct (A3 _ _ H3) as (node2 & H2 & _ & _ & _ & Hch).
    destruct (Hch _ _ Hs) as (sub2 & Hs2 & _ & _ & _ & _ & Hlf).
    destruct (Hlf _ _ Hk) as [Hk2 | Hf]; [|done].
    destruct (Hsub2 _ _ _ _ H2 Hs2) as (f & _ & _ & _ & ->).
    cbn [subdomain_node sn_children] in Hk2. by rewrite lookup_empty in Hk2.
  - intros f p s Hin Hf. destruct (t3 !! p) as [node|] eqn:H3; [|done].
    destruct (dn_children node !! s) as [sub|] eqn:Hs; [|done].
    destruct (A3 _ _ H3) as (node2 & H2 & _ & _ & _ & Hch).
    destruct (Hch _ _ Hs) as (sub2 & Hs2 & _).
    destruct (B3 _ _ H2) as (node' & H3' & Hsub).
    rewrite H3 in H3'. injection H3' as <-.
    destruct (Hsub _ _ Hs2) as (sub' & Hs' & _ & Hnew).
    rewrite Hs in Hs'. injection Hs' as <-. by apply Hnew.
Qed.

(** ** What a batch never does *)

#[local] Opaque ALIAS_MAP.

Section Batch.

Variable embed_content : string -> option (list R).
Variable uuid4 : nat -> string.
Variable thresholds : ThresholdConfig.
Variable py_str : json -> string.
Variable configured : bool.
Variable llm_parsed : ItemInput -> option json.
Variable config : TaxonomyConfig.

Local Abbreviation generate :=
  (TaxonomyGenerator.generate py_str configured llm_parsed config).
Local Abbreviation match_ := (FolderMatcher.match_ embed_content uuid4 thresholds).
Local Abbreviation classify :=
  (AutoFolder.classify embed_content uuid4 thresholds py_str configured llm_parsed config).
Local Abbreviation batch_step :=
  (AutoFolder.batch_step embed_content uuid4 thresholds py_str configured llm_parsed
     config).
Local Abbreviation classify_batch :=
  (AutoFolder.classify_batch embed_content uuid4 thresholds py_str configured
     llm_parsed config).
Local Abbreviation classified :=
  (classified embed_content uuid4 thresholds py_str configured llm_parsed config).
Local Abbreviation batch_trace :=
  (batch_trace embed_content uuid4 thresholds py_str configured llm_parsed config).

Lemma generate_returns item : configured = true -> is_Some (generate item).
Proof.
  intros Hc. unfold TaxonomyGenerator.generate. rewrite Hc.
  destruct (PyStr.is_empty (raw_topic item) && PyStr.is_empty (summary item));
    [eexists; reflexivity|].
  destruct (quick_match _); [eexists; reflexivity|].
  destruct (llm_parsed item ≫= _); eexists; reflexivity.
Qed.

Lemma classify_frame st item :
  classified st item (classify st item).1 (classify st item).2
  /\ extends st (classify st item).2
  /\ out_item_id (classify st item).1 = item_id item
  /\ (configured = true -> (classify st item).1 <> error_output item).
Proof.
  pose proof (generate_returns item) as Hret.
  unfold AutoFolder.classify, classified.
  destruct (generate item) as [taxonomy|].
  - destruct (match_extends embed_content uuid4 thresholds st taxonomy)
      as (m & st' & -> & Hext & _).
    cbn [fst snd]. split; [by exists m|]. split; [done|]. split; [done|].
    intros _ E. apply (f_equal similarity_scores) in E. discriminate E.
  - cbn [fst snd error_output out_item_id]. split; [done|].
    split; [apply extends_refl|]. split; [done|].
    intros Hc. destruct (Hret Hc) as [x Hx]. discriminate Hx.
Qed.

Lemma batch_fold_frame items b0 st :
  exists outs,
    results (fold_left batch_step items (b0, st)).1 = (results b0 ++ outs)%list
    /\ batch_trace st items outs (fold_left batch_step items (b0, st)).2
    /\ extends st (fold_left batch_step items (b0, st)).2
    /\ Forall2 (fun item o =>
                  out_item_id o = item_id item
                  /\ (configured = true -> o <> error_output item))
               items outs.
Proof.
  revert b0 st. induction items as [|item items IH]; intros b0 st; cbn [fold_left].
  { exists []. cbn [fst snd]. rewrite app_nil_r. split; [done|]. split; [done|].
    split; [apply extends_refl | constructor]. }
  destruct (batch_step (b0, st) item) as [b1 st1] eqn:Hstep.
  unfold AutoFolder.batch_step in Hstep.
  destruct (classify_frame st item) as (Hcl & Hext & Hid & Herr).
  destruct (classify st item) as [o st1']. cbn [fst snd] in Hcl, Hext, Hid, Herr.
  injection Hstep as Hb1 Hst1. subst st1.
  destruct (IH b1 st1') as (outs & H1 & H2 & H3 & H4). exists (o :: outs).
  rewrite H1. subst b1. cbn [results]. split; [by rewrite <- app_assoc|].
  split; [by exists st1'|]. split; [by eapply extends_trans|].
  by constructor.
Qed.

(** X30. A batch classifies item by item and loses nothing:
    [classify_batch] returns one output per item, in order, each carrying
    its item's identifier; the i-th output is built from the match of the
    candidate generated for the i-th item, run in the state the items before
    it left (or is the error output, with the state untouched, when
    [generate] raises); the state returned is the one the last item left.
    With a configured model no item gets the error output. Afterwards the
    identifier counter has not gone back and every stored vector, cached
    folder and listed folder is still there. *)
Theorem classify_batch_frame (st : Matcher) (items : list ItemInput) :
  batch_trace st items (results (classify_batch st items).1) (classify_batch st items).2
  /\ Forall2 (fun item o =>
                out_item_id o = item_id item
                /\ (configured = true -> o <> error_output item))
             items (results (classify_batch st items).1)
  /\ extends st (classify_batch st items).2.
Proof.
  unfold AutoFolder.classify_batch.
  destruct (batch_fold_frame items
              {| results := []; total_items := length items; successful := 0;
                 failed := 0; new_folders_created := 0; folders_reused := 0 |} st)
    as (outs & H1 & H2 & H3 & H4).
  rewrite H1. cbn [results app]. done.
Qed.

End Batch.

#[local] Transparent ALIAS_MAP.

(** ** The sanity check against its specification *)

Lemma prefix_substring (needle hay : string) :
  String.prefix needle hay = true <-> exists post, hay = needle ++ post.
Proof.
  revert hay. induction needle as [|c n IH]; intros hay.
  - rewrite prefix_empty. split; [|done]. intros _. by exists hay.
  - destruct hay as [|d h]; cbn [String.prefix].
    + split; [done|]. by intros [post H].
    + destruct (ascii_dec c d) as [<-|Hne].
      * rewrite IH. split; intros [post H]; exists post.
        -- cbn [String.append]. by rewrite H.
        -- cbn [String.append] in H. by injection H.
      * split; [done|]. intros [post H]. cbn [String.append] in H.
        injection H as H _. by destruct Hne.
Qed.

Lemma contains_substring (needle hay : string) :
  PyStr.contains needle hay = true <-> substring needle hay.
Proof.
  unfold substring. split.
  - induction hay as [|d h IH]; cbn [PyStr.contains]; rewrite orb_true_iff.
    + intros [H | H]; [|done]. apply prefix_substring in H as [post H].
      by exists "", post.
    + intros [H | H].
      * apply prefix_substring in H as [post H]. by exists "", post.
      * destruct (IH H) as (pre & post & ->). by exists (String d pre), post.
  - intros (pre & post & ->). induction pre as [|d pre IH].
    + cbn [String.append]. destruct (needle ++ post) eqn:E.
      * cbn [PyStr.contains]. rewrite orb_true_iff. left.
        apply prefix_substring. exists post. by rewrite E.
      * cbn [PyStr.contains]. rewrite orb_true_iff. left.
        apply prefix_substring. exists post. by rewrite E.
    + cbn [String.append PyStr.contains]. by rewrite IH, orb_true_r.
Qed.

Lemma confused_opposite_sides (a b : string) :
  confused a b = true <-> opposite_sides a b.
Proof.
  unfold confused, opposite_sides. rewrite existsb_exists. split.
  - intros ([x y] & Hin & H). exists x, y. split; [exact Hin|].
    unfold confusion_pair in H. cbn [fst snd] in H.
    apply orb_true_iff in H as [H | H]; apply andb_true_iff in H as [H1 H2];
      [left | right]; by rewrite <- !contains_substring.
  - intros (x & y & Hin & H). exists (x, y). split; [exact Hin|].
    unfold confusion_pair. cbn [fst snd]. rewrite orb_true_iff, !andb_true_iff.
    by rewrite !contains_substring.
Qed.

Lemma ends_outside_app p a c b :
  ends_outside p (a ++ String c b) = ends_outside p (String c b).
Proof.
  induction a as [|d a IH]; [done|].
  cbn [String.append]. cbn [ends_outside]. rewrite IH.
  by destruct a.
Qed.

Lemma all_ends_outside p s :
  all_chars p s = true -> ends_outside p s = true -> s = "".
Proof.
  induction s as [|c s IH]; [done|]. cbn [all_chars ends_outside].
  intros H. apply andb_true_iff in H as [Hc Hs].
  destruct (PyStr.is_empty s) eqn:E.
  - by rewrite Hc.
  - intros H. rewrite (IH Hs H) in E. done.
Qed.

Lemma all_starts_outside p s :
  all_chars p s = true -> starts_outside p s = true -> s = "".
Proof.
  destruct s as [|c s]; [done|]. cbn [all_chars starts_outside].
  intros H. apply andb_true_iff in H as [-> _]. done.
Qed.

Lemma run_prefix_unique p w x post c y :
  all_chars p w = true -> all_chars p x = true ->
  starts_outside p post = true -> p c = false ->
  w ++ post = x ++ String c y -> w = x /\ post = String c y.
Proof.
  revert x. induction w as [|d w IH]; intros x Hw Hx Hpost Hc E.
  - destruct x as [|e x]; [done|]. cbn [String.append] in E. subst post.
    cbn [starts_outside all_chars] in *.
    apply andb_true_iff in Hx as [He _]. by rewrite He in Hpost.
  - cbn [all_chars] in Hw. apply andb_true_iff in Hw as [Hd Hw].
    destruct x as [|e x]; cbn [String.append] in E.
    + injection E as -> _. by rewrite Hc in Hd.
    + injection E as -> E. cbn [all_chars] in Hx.
      apply andb_true_iff in Hx as [_ Hx].
      destruct (IH x Hw Hx Hpost Hc E) as [-> ->]. done.
Qed.

Lemma run_split p x pre w post c y :
  all_chars p x = true -> p c = false -> w <> "" -> all_chars p w = true ->
  ends_outside p pre = true -> starts_outside p post = true ->
  pre ++ w ++ post = x ++ String c y ->
  (pre = "" /\ w = x /\ post = String c y)
  \/ (exists pre', pre = x ++ String c pre' /\ y = pre' ++ w ++ post
                   /\ ends_outside p pre' = true).
Proof.
  revert pre. induction x as [|a x IH]; intros pre Hx Hc Hne Hw Hpre Hpost E.
  - cbn [String.append] in E. destruct pre as [|e pre]; cbn [String.append] in E.
    + destruct w as [|d w]; [done|]. cbn [String.append] in E.
      injection E as -> _. cbn [all_chars] in Hw. by rewrite Hc in Hw.
    + injection E as -> E. right. exists pre. split; [done|]. split; [done|].
      cbn [ends_outside] in Hpre. by destruct pre.
  - cbn [all_chars] in Hx. apply andb_true_iff in Hx as [Ha Hx].
    cbn [String.append] in E. destruct pre as [|e pre]; cbn [String.append] in E.
    + left. destruct w as [|d w]; [done|]. cbn [String.append] in E.
      injection E as -> E. cbn [all_chars] in Hw.
      apply andb_true_iff in Hw as [_ Hw].
      destruct (run_prefix_unique p w x post c y Hw Hx Hpost Hc E) as [-> ->]. done.
    + injection E as -> E. right. cbn [ends_outside] in Hpre.
      destruct (PyStr.is_empty pre) eqn:Hemp; [by rewrite Ha in Hpre|].
      destruct (IH pre Hx Hc Hne Hw Hpre Hpost E)
        as [(-> & _) | (pre' & -> & Hy & Hp')]; [done|].
      exists pre'. done.
Qed.

Lemma maximal_run_all p x w :
  all_chars p x = true -> maximal_run p x w <-> x <> "" /\ w = x.
Proof.
  intros Hx. split.
  - intros (Hne & Hw & pre & post & E & Hpre & Hpost). subst x.
    rewrite !all_chars_app in Hx.
    apply andb_true_iff in Hx as [H1 Hx]. apply andb_true_iff in Hx as [_ H2].
    rewrite (all_ends_outside p pre H1 Hpre), (all_starts_outside p post H2 Hpost).
    cbn [String.append]. rewrite append_nil_r. by destruct w.
  - intros [Hne ->]. split; [done|]. split; [done|]. exists "", "".
    cbn [String.append]. by rewrite append_nil_r.
Qed.

Lemma maximal_run_cons p cur c s w :
  all_chars p cur = true -> p c = false ->
  maximal_run p (cur ++ String c s) w <-> (cur <> "" /\ w = cur) \/ maximal_run p s w.
Proof.
  intros Hcur Hc. split.
  - intros (Hne & Hw & pre & post & E & Hpre & Hpost).
    destruct (run_split p cur pre w post c s Hcur Hc Hne Hw Hpre Hpost (eq_sym E))
      as [(-> & -> & ->) | (pre' & -> & -> & Hp')].
    + by left.
    + right. split; [done|]. split; [done|]. by exists pre', post.
  - intros [[Hne ->] | (Hne & Hw & pre & post & -> & Hpre & Hpost)].
    + split; [done|]. split; [done|]. exists "", (String c s).
      split; [done|]. split; [done|]. cbn [starts_outside]. by rewrite Hc.
    + split; [done|]. split; [done|]. exists (cur ++ String c pre), post.
      split; [|split; [|done]].
      * rewrite append_assoc'. done.
      * rewrite ends_outside_app. cbn [ends_outside].
        destruct (PyStr.is_empty pre) eqn:E; [by rewrite Hc|].
        done.
Qed.

Lemma runs_maximal p s cur w :
  all_chars p cur = true ->
  In w (PyStr.runs p s cur) <-> maximal_run p (cur ++ s) w.
Proof.
  revert cur. induction s as [|c s IH]; intros cur Hcur.
  - rewrite append_nil_r, (maximal_run_all p cur w Hcur).
    cbn [PyStr.runs]. unfold PyStr.flush. destruct cur; cbn [PyStr.is_empty In].
    + split; [done | by intros [H _]].
    + split; [intros [<- | []]; done | intros [_ ->]; by left].
  - cbn [PyStr.runs]. destruct (p c) eqn:Hc.
    + rewrite IH.
      * by rewrite append_assoc'.
      * rewrite all_chars_app, Hcur. cbn [all_chars]. by rewrite Hc.
    + rewrite (maximal_run_cons p cur c s w Hcur Hc), in_app_iff, (IH "" eq_refl).
      cbn [String.append]. unfold PyStr.flush.
      destruct cur; cbn [PyStr.is_empty In].
      * split; [intros [[] | H]; by right | intros [[H _] | H]; [done | by right]].
      * split.
        -- intros [[<- | []] | H]; [by left | by right].
        -- intros [[_ ->] | H]; [left; by left | by right].
Qed.

Lemma is_keyword_spec (w : string) :
  is_keyword w = true <-> 2 < String.length w /\ ~ In w ignored_words.
Proof.
  unfold is_keyword. rewrite andb_true_iff, Nat.ltb_lt, negb_true_iff.
  rewrite bool_decide_eq_false. unfold stop_words.
  by rewrite elem_of_list_to_set, list_elem_of_In.
Qed.

Lemma extract_keywords_spec (text w : string) :
  w ∈ _extract_keywords text <-> keyword_of text w.
Proof.
  unfold _extract_keywords, keyword_of, PyStr.findall_words.
  rewrite elem_of_list_to_set, list_elem_of_In, filter_In, is_keyword_spec.
  by rewrite (runs_maximal PyStr.is_word _ "" w eq_refl).
Qed.

Lemma keyword_overlap_ratio (a b : string) (ka kb : gset string) :
  (forall w, w ∈ ka <-> keyword_of a w) -> (forall w, w ∈ kb <-> keyword_of b w) ->
  _keyword_overlap a b = overlap_ratio ka kb.
Proof.
  intros Ha Hb.
  assert (Ea : _extract_keywords a = ka).
  { apply set_eq. intros w. by rewrite Ha, extract_keywords_spec. }
  assert (Eb : _extract_keywords b = kb).
  { apply set_eq. intros w. by rewrite Hb, extract_keywords_spec. }
  unfold _keyword_overlap, overlap_ratio. rewrite Ea, Eb.
  destruct (decide (ka = ∅ \/ kb = ∅)) as [[-> | ->] | Hne].
  - by rewrite bool_decide_eq_true_2.
  - rewrite (bool_decide_eq_true_2 (∅ = ∅)) by done. by rewrite orb_true_r.
  - rewrite !bool_decide_eq_false_2; [done | | tauto | tauto].
    intros Hu. apply Hne. left. apply leibniz_equiv.
    apply leibniz_equiv_iff in Hu. set_solver.
Qed.

(** C2. The sanity check accepts above 0.95; otherwise it rejects above
    0.85 when the keyword overlap is below the configured minimum; otherwise
    it rejects exactly when the two labels substring-match opposite sides of
    a cross-domain confusion pair; so it rejects similarity 0.90 with zero
    overlap for a positive minimum. The keywords of a text are the word
    tokens of the lower-cased text longer than two characters outside the
    stop words, and the overlap is the size of the intersection over the
    size of the union of the two keyword sets, 0 when one is empty. *)
Theorem sanity_check_spec (th : ThresholdConfig) (a b : string) (sim : R) :
  (forall text w, w ∈ _extract_keywords text <-> keyword_of text w)
  /\ (forall ka kb : gset string,
        (forall w, w ∈ ka <-> keyword_of a w) ->
        (forall w, w ∈ kb <-> keyword_of b w) ->
        _keyword_overlap a b = overlap_ratio ka kb)
  /\ ((0.95 < sim)%R -> _sanity_check th a b sim = true)
  /\ ((sim <= 0.95)%R -> (0.85 < sim)%R ->
      (_keyword_overlap a b < min_keyword_overlap th)%R ->
      _sanity_check th a b sim = false)
  /\ ((sim <= 0.95)%R ->
      ~ ((0.85 < sim)%R /\ (_keyword_overlap a b < min_keyword_overlap th)%R) ->
      (_sanity_check th a b sim = false <-> opposite_sides a b))
  /\ ((0 < min_keyword_overlap th)%R -> sim = 0.90%R -> _keyword_overlap a b = 0%R ->
      _sanity_check th a b sim = false).
Proof.
  split; [apply extract_keywords_spec|].
  split; [apply keyword_overlap_ratio|].
  split; [apply sanity_check_high|].
  split; [apply sanity_check_suspicious|].
  split.
  - intros H1 H2. rewrite (sanity_check_low th a b sim H1 H2).
    rewrite negb_false_iff. apply confused_opposite_sides.
  - intros Hm -> Ho. apply sanity_check_suspicious; lra.
Qed.

(** Similarity 0.90 without a common keyword is rejected under the default
    thresholds although it exceeds the domain threshold. *)
Lemma sanity_check_spec_witness :
  (domain_threshold default_thresholds < 0.90)%R
  /\ _sanity_check default_thresholds "Quantum Physics" "Cooking" 0.90 = false.
Proof.
  split; [simpl; lra|].
  apply (sanity_check_spec default_thresholds "Quantum Physics" "Cooking" 0.90).
  - simpl. lra.
  - reflexivity.
  - apply keyword_overlap_disjoint. by vm_compute.
Defined.

(** ** Cosine similarity in binary64 *)

Section Binary64Props.
Import Floats.

Lemma ltb_leb_b64 (x y : float) : (x <? y)%float = true -> (x <=? y)%float = true.
Proof.
  rewrite ltb_spec, leb_spec. unfold SFltb, SFleb.
  by destruct (SFcompare (Prim2SF x) (Prim2SF y)) as [[]|].
Qed.

Lemma clamp01_b64_unit (s : float) : unit_b64 (clamp01_b64 s).
Proof.
  unfold clamp01_b64, unit_b64. destruct (s <? 1)%float eqn:H1.
  - destruct (0 <? s)%float eqn:H0.
    + split; by apply ltb_leb_b64.
    + split; reflexivity.
  - change (0 <? 1)%float with true. split; reflexivity.
Qed.

Lemma clamp01_b64_inside (s : float) : inside_b64 s -> clamp01_b64 s = s.
Proof. intros [H0 H1]. unfold clamp01_b64. by rewrite H1, H0. Qed.

Lemma dot_from_fold (acc : float) (a b : list float) :
  dot_from acc a b
  = fold_left (fun acc xy => (acc + fst xy * snd xy)%float) (combine a b) acc.
Proof.
  revert acc b. induction a as [|x a IH]; intros acc [|y b]; try reflexivity.
  cbn [dot_from combine fold_left fst snd]. apply IH.
Qed.

Lemma dot_b64_zeros (n : nat) :
  dot_b64 (repeat 0%float n) (repeat 0%float n) = 0%float.
Proof.
  unfold dot_b64. induction n as [|n IH]; [reflexivity|].
  cbn [repeat dot_from]. change (0 + 0 * 0)%float with 0%float. exact IH.
Qed.


End Binary64Props.


